(** * fetch_ticket.py: a shallow embedding and its verified properties

    The script reads one work-item URL, fetches the item over HTTP and prints
    a small JSON record.  Python strings are sequences of Unicode code
    points; they are modelled as lists of [N].  The regular expressions of the
    script are kept as syntax and run by a backtracking matcher that follows
    the order in which Python's [re] explores alternatives (ordered choice,
    greedy repetition).  The library functions that the script calls are
    modelled as Python 3.11 has them; [int()] and [str()] have the
    interpreter's default limit of 4300 digits. *)

From Stdlib Require Import Ascii String List NArith ZArith Bool Arith Lia
  DecimalN.
Import ListNotations.

Set Implicit Arguments.
Set Warnings "-register-all".

(** ** Characters and strings *)

Definition char := N.
Definition str := list char.

Definition ch (a : ascii) : char := N_of_ascii a.

Fixpoint py (s : string) : str :=
  match s with
  | EmptyString => []
  | String a s' => ch a :: py s'
  end.

Definition dquote : char := 34%N.
Definition newline : char := 10%N.

Definition in_range (lo hi c : char) : bool := (N.leb lo c && N.leb c hi)%bool.

Fixpoint mem (c : char) (l : str) : bool :=
  match l with
  | [] => false
  | x :: l' => (N.eqb c x || mem c l')%bool
  end.

Fixpoint str_eqb (a b : str) : bool :=
  match a, b with
  | [], [] => true
  | x :: a', y :: b' => (N.eqb x y && str_eqb a' b')%bool
  | _, _ => false
  end.

(** [str.isspace] on one character, which is also the class [\s] of a
    Unicode pattern. *)
Definition whitespace : str :=
  [ 0x9; 0xa; 0xb; 0xc; 0xd; 0x1c; 0x1d; 0x1e; 0x1f; 0x20; 0x85; 0xa0;
    0x1680; 0x2000; 0x2001; 0x2002; 0x2003; 0x2004; 0x2005; 0x2006; 0x2007;
    0x2008; 0x2009; 0x200a; 0x2028; 0x2029; 0x202f; 0x205f; 0x3000 ]%N.

Definition is_space (c : char) : bool := mem c whitespace.

(** The decimal digits of the Unicode database (category Nd) come in runs of
    ten consecutive code points; the table lists the zero of each run. *)
Definition digit_zeros : list char :=
  [ 0x30; 0x660; 0x6f0; 0x7c0; 0x966; 0x9e6; 0xa66; 0xae6; 0xb66; 0xbe6;
    0xc66; 0xce6; 0xd66; 0xde6; 0xe50; 0xed0; 0xf20; 0x1040; 0x1090; 0x17e0;
    0x1810; 0x1946; 0x19d0; 0x1a80; 0x1a90; 0x1b50; 0x1bb0; 0x1c40; 0x1c50;
    0xa620; 0xa8d0; 0xa900; 0xa9d0; 0xa9f0; 0xaa50; 0xabf0; 0xff10; 0x104a0;
    0x10d30; 0x11066; 0x110f0; 0x11136; 0x111d0; 0x112f0; 0x11450; 0x114d0;
    0x11650; 0x116c0; 0x11730; 0x118e0; 0x11950; 0x11c50; 0x11d50; 0x11da0;
    0x16a60; 0x16ac0; 0x16b50; 0x1d7ce; 0x1d7d8; 0x1d7e2; 0x1d7ec; 0x1d7f6;
    0x1e140; 0x1e2f0; 0x1e950; 0x1fbf0 ]%N.

Fixpoint digit_in (zeros : list char) (c : char) : option N :=
  match zeros with
  | [] => None
  | z :: zs => if in_range z (z + 9)%N c then Some (c - z)%N else digit_in zs c
  end.

(** The decimal value of a character, when it is a decimal digit. *)
Definition digit_value (c : char) : option N := digit_in digit_zeros c.

(** The class [\d] of a Unicode pattern. *)
Definition is_digit (c : char) : bool :=
  match digit_value c with Some _ => true | None => false end.

Fixpoint drop_while (p : char -> bool) (s : str) : str :=
  match s with
  | [] => []
  | x :: s' => if p x then drop_while p s' else s
  end.

Definition lstrip (s : str) : str := drop_while is_space s.
Definition rstrip (s : str) : str := rev (drop_while is_space (rev s)).

(** [str.strip()] *)
Definition strip (s : str) : str := rstrip (lstrip s).

(** ** Regular expressions *)

Inductive regex : Type :=
| Eps : regex
| Cls : (char -> bool) -> regex
| Cat : regex -> regex -> regex
| Alt : regex -> regex -> regex
| Star : regex -> regex
| Grp : nat -> regex -> regex.

Definition Lit (c : char) : regex := Cls (N.eqb c).
Definition OneOf (l : str) : regex := Cls (fun c => mem c l).
Definition NoneOf (l : str) : regex := Cls (fun c => negb (mem c l)).

Fixpoint Str (l : str) : regex :=
  match l with
  | [] => Eps
  | x :: l' => Cat (Lit x) (Str l')
  end.

(** [r+], [r?] and [r{1,n}] (all greedy) in terms of the core syntax. *)
Definition Plus (r : regex) : regex := Cat r (Star r).
Definition Opt (r : regex) : regex := Alt r Eps.

Fixpoint Upto (n : nat) (r : regex) : regex :=
  match n with
  | O => Eps
  | S n' => Opt (Cat r (Upto n' r))
  end.

Definition Rep1 (n : nat) (r : regex) : regex := Cat r (Upto (pred n) r).

(** Captured groups, most recent first. *)
Definition caps := list (nat * str).

Fixpoint group (n : nat) (c : caps) : option str :=
  match c with
  | [] => None
  | (m, s) :: c' => if Nat.eqb n m then Some s else group n c'
  end.

(** The matcher is written with a success continuation: [k] receives the
    rest of the input and the groups captured so far, and a [None] from it
    sends the matcher back to the latest choice. *)
Definition kont := str -> caps -> option (str * caps).

(** The text consumed between input [s] and its suffix [s']. *)
Definition consumed (s s' : str) : str := firstn (length s - length s') s.

Fixpoint star_loop (step : str -> caps -> kont -> option (str * caps))
    (fuel : nat) (s : str) (c : caps) (k : kont) : option (str * caps) :=
  match fuel with
  | O => k s c
  | S fuel' =>
      match step s c (fun s' c' =>
                        if Nat.ltb (length s') (length s)
                        then star_loop step fuel' s' c' k
                        else None) with
      | Some a => Some a
      | None => k s c
      end
  end.

Fixpoint run (r : regex) (s : str) (c : caps) (k : kont)
    : option (str * caps) :=
  match r with
  | Eps => k s c
  | Cls p =>
      match s with
      | x :: s' => if p x then k s' c else None
      | [] => None
      end
  | Cat r1 r2 => run r1 s c (fun s' c' => run r2 s' c' k)
  | Alt r1 r2 =>
      match run r1 s c k with
      | Some a => Some a
      | None => run r2 s c k
      end
  | Star r1 => star_loop (run r1) (length s) s c k
  | Grp n r1 => run r1 s c (fun s' c' => k s' ((n, consumed s s') :: c'))
  end.

(** A match object: the matched text ([group(0)]), the captured groups and
    the input left after the match. *)
Record match_obj : Type := MatchObj {
  m_text : str;
  m_groups : caps;
  m_rest : str
}.

Definition accept : kont := fun s c => Some (s, c).

(** Used after an empty match: the next match at the same place must
    consume something. *)
Definition accept_shorter (s : str) : kont :=
  fun s' c => if Nat.ltb (length s') (length s) then Some (s', c) else None.

Definition mk_match (s : str) (o : option (str * caps)) : option match_obj :=
  match o with
  | Some (s', c) => Some (MatchObj (consumed s s') c s')
  | None => None
  end.

(** [re.match(r, s)]: a match at the start of [s]. *)
Definition re_match (r : regex) (s : str) : option match_obj :=
  mk_match s (run r s [] accept).

Definition re_match_nonempty (r : regex) (s : str) : option match_obj :=
  mk_match s (run r s [] (accept_shorter s)).

(** [re.search(r, s)]: the match at the leftmost place that has one; the
    result carries the text before the match. *)
Fixpoint re_search_from (r : regex) (before : str) (s : str)
    : option (str * match_obj) :=
  match re_match r s with
  | Some m => Some (rev before, m)
  | None =>
      match s with
      | [] => None
      | x :: s' => re_search_from r (x :: before) s'
      end
  end.

Definition re_search (r : regex) (s : str) : option (str * match_obj) :=
  re_search_from r [] s.

(** [re.sub(r, repl, s)] with a function [repl] on match objects.  [skip]
    counts the characters of the current match still to be passed over.
    After an empty match the same place is tried once more for a match that
    consumes something, as [re] has done since Python 3.7. *)
Fixpoint sub_from (r : regex) (repl : match_obj -> str) (skip : nat)
    (s : str) : str :=
  match skip with
  | S n =>
      match s with
      | [] => []
      | _ :: s' => sub_from r repl n s'
      end
  | O =>
      match re_match r s with
      | None =>
          match s with
          | [] => []
          | x :: s' => x :: sub_from r repl 0 s'
          end
      | Some m =>
          match length (m_text m) with
          | S n =>
              match s with
              | [] => repl m
              | _ :: s' => repl m ++ sub_from r repl n s'
              end
          | O =>
              match s with
              | [] => repl m
              | x :: s' =>
                  match re_match_nonempty r s with
                  | Some m' =>
                      repl m ++ repl m' ++
                        sub_from r repl (pred (length (m_text m'))) s'
                  | None => repl m ++ x :: sub_from r repl 0 s'
                  end
              end
          end
      end
  end.

Definition re_sub (r : regex) (repl : match_obj -> str) (s : str) : str :=
  sub_from r repl 0 s.

(** ** Exceptions *)

(** The exceptions that occur.  [ValueError] and [RuntimeError] stand for
    an exception of the class or of a subclass of it ([UnicodeEncodeError]
    and [JSONDecodeError] are [ValueError]s, [RecursionError] is a
    [RuntimeError]); they carry the text of [str(e)], which the script
    prints.  [OtherException] is an exception of any class that is named
    nowhere in the script, given by the name of the class.  Only the first
    two are ever caught. *)
Inductive exn : Type :=
| ValueError (msg : str)
| RuntimeError (msg : str)
| KeyError
| AttributeError
| TypeError
| OtherException (class_name : str).

Inductive result (A : Type) : Type :=
| Ok (a : A)
| Err (e : exn).

Arguments Ok {A} a.
Arguments Err {A} e.

(** Sequencing of steps that may raise. *)
Definition and_then {A B} (r : result A) (f : A -> result B) : result B :=
  match r with
  | Ok a => f a
  | Err e => Err e
  end.

(** [re.sub(r, repl, s)] with a function [repl] that can raise: the matches
    are replaced from left to right, and the first exception ends the
    substitution. *)
Fixpoint sub_from_try (r : regex) (repl : match_obj -> result str)
    (skip : nat) (s : str) : result str :=
  match skip with
  | S n =>
      match s with
      | [] => Ok []
      | _ :: s' => sub_from_try r repl n s'
      end
  | O =>
      match re_match r s with
      | None =>
          match s with
          | [] => Ok []
          | x :: s' =>
              and_then (sub_from_try r repl 0 s') (fun t => Ok (x :: t))
          end
      | Some m =>
          and_then (repl m) (fun a =>
          match length (m_text m) with
          | S n =>
              match s with
              | [] => Ok a
              | _ :: s' =>
                  and_then (sub_from_try r repl n s') (fun t => Ok (a ++ t))
              end
          | O =>
              match s with
              | [] => Ok a
              | x :: s' =>
                  match re_match_nonempty r s with
                  | Some m' =>
                      and_then (repl m') (fun a' =>
                      and_then (sub_from_try r repl
                                  (pred (length (m_text m'))) s')
                        (fun t => Ok (a ++ a' ++ t)))
                  | None =>
                      and_then (sub_from_try r repl 0 s')
                        (fun t => Ok (a ++ x :: t))
                  end
              end
          end)
      end
  end.

Definition re_sub_try (r : regex) (repl : match_obj -> result str) (s : str)
    : result str :=
  sub_from_try r repl 0 s.

(** ** Numbers and text *)

Section Library.
Local Open Scope N_scope.

(** The value of a letter or digit as a digit of [int(s, base)]. *)
Definition alnum_value (c : char) : option N :=
  match digit_value c with
  | Some d => Some d
  | None =>
      if in_range (ch "a") (ch "z") c then Some (c - ch "a" + 10)%N
      else if in_range (ch "A") (ch "Z") c then Some (c - ch "A" + 10)%N
      else None
  end.

Fixpoint uint_str (u : Decimal.uint) : str :=
  match u with
  | Decimal.Nil => []
  | Decimal.D0 u' => ch "0" :: uint_str u'
  | Decimal.D1 u' => ch "1" :: uint_str u'
  | Decimal.D2 u' => ch "2" :: uint_str u'
  | Decimal.D3 u' => ch "3" :: uint_str u'
  | Decimal.D4 u' => ch "4" :: uint_str u'
  | Decimal.D5 u' => ch "5" :: uint_str u'
  | Decimal.D6 u' => ch "6" :: uint_str u'
  | Decimal.D7 u' => ch "7" :: uint_str u'
  | Decimal.D8 u' => ch "8" :: uint_str u'
  | Decimal.D9 u' => ch "9" :: uint_str u'
  end.

(** The decimal text of a number. *)
Definition str_of_N (n : N) : str := uint_str (N.to_uint n).

Definition str_of_Z (z : Z) : str :=
  match z with
  | Zneg p => ch "-" :: str_of_N (Npos p)
  | _ => str_of_N (Z.to_N z)
  end.

(** [int()] and [str()] refuse to convert more than this many decimal
    digits: [sys.get_int_max_str_digits()] of an interpreter started without
    another setting. *)
Definition int_max_str_digits : nat := 4300%nat.

(** The message of the [ValueError] of [int(s)] for a malformed literal, for
    text that [repr] shows as it is: the format [%.200R] keeps the first 200
    characters of the quoted text. *)
Definition int_error_message (s : str) : str :=
  py "invalid literal for int() with base 10: " ++
  firstn 200 (py "'" ++ s ++ py "'").

(** The message of the [ValueError] of [int(s)] for a literal of [digits]
    digits, more than the limit. *)
Definition int_limit_message (digits : nat) : str :=
  py "Exceeds the limit (4300 digits) for integer string conversion: value has "
  ++ str_of_N (N.of_nat digits) ++
  py " digits; use sys.set_int_max_str_digits() to increase the limit".

(** The message of the [ValueError] of [str(n)] for a number of more digits
    than the limit. *)
Definition str_limit_message : str :=
  py "Exceeds the limit (4300 digits) for integer string conversion; use sys.set_int_max_str_digits() to increase the limit".

(** The whitespace that [int()] accepts around a literal: that of
    [str.isspace] without the four separators U+001C to U+001F. *)
Definition int_space (c : char) : bool :=
  (is_space c && negb (in_range 0x1c 0x1f c))%bool.

(** The scan of [int()] over the digits of a literal, after the sign: the
    longest run of digits of the base, with single underscores between two
    digits.  It gives the number read, how many digits were read and the rest
    of the text; [None] is for two underscores in a row or an underscore
    that no digit follows. *)
Fixpoint int_scan (base : N) (s : str) (acc : N) (count : nat)
    (after_underscore : bool) : option (N * nat * str) :=
  match s with
  | [] => if after_underscore then None else Some (acc, count, [])
  | x :: s' =>
      if N.eqb x (ch "_") then
        if after_underscore then None else int_scan base s' acc count true
      else
        match alnum_value x with
        | Some d =>
            if N.ltb d base
            then int_scan base s' (base * acc + d)%N (S count) false
            else if after_underscore then None else Some (acc, count, s)
        | None => if after_underscore then None else Some (acc, count, s)
        end
  end.

(** [int(s)]: whitespace around the literal and a sign before it are
    accepted.  The number of digits is checked against the limit as soon as
    the run of digits has been scanned, before what follows the run is
    looked at. *)
Definition py_int (s : str) : result Z :=
  let invalid := Err (ValueError (int_error_message s)) in
  let t := drop_while int_space s in
  let negative := match t with x :: _ => N.eqb x (ch "-") | [] => false end in
  let body :=
    match t with
    | x :: t' => if (N.eqb x (ch "-") || N.eqb x (ch "+"))%bool then t' else t
    | [] => []
    end in
  match body with
  | [] => invalid
  | x :: _ =>
      if N.eqb x (ch "_") then invalid
      else
        match int_scan 10 body 0 0 false with
        | None => invalid
        | Some (n, count, rest) =>
            if Nat.ltb int_max_str_digits count
            then Err (ValueError (int_limit_message count))
            else if (Nat.eqb count 0 || negb (forallb int_space rest))%bool
            then invalid
            else Ok (if negative then (- Z.of_N n)%Z else Z.of_N n)
        end
  end.

(** [str(z)], which is also how an f-string formats an integer: the decimal
    text, unless it has more digits than the limit. *)
Definition py_str (z : Z) : result str :=
  if Nat.ltb int_max_str_digits (length (str_of_N (Z.abs_N z)))
  then Err (ValueError str_limit_message)
  else Ok (str_of_Z z).

(** The number written by a string of digits of [base], most significant
    digit first; [int(s, 16)] on the strings of hexadecimal digits that the
    character reference pattern hands over. *)
Definition number_of (base : N) (s : str) : N :=
  fold_left (fun acc c =>
               match alnum_value c with
               | Some d => (base * acc + d)%N
               | None => acc
               end) s 0%N.

Definition hex_digit (lower : bool) (d : N) : char :=
  if N.ltb d 10 then (ch "0" + d)%N
  else if lower then (ch "a" + (d - 10))%N else (ch "A" + (d - 10))%N.

(** [width] hexadecimal digits of [n], as the formats [%02X] and [%04x]
    print a number that fits. *)
Fixpoint hex_fixed (lower : bool) (width : nat) (n : N) : str :=
  match width with
  | O => []
  | S w => hex_fixed lower w (n / 16)%N ++ [hex_digit lower (n mod 16)%N]
  end.

(** ** UTF-8, percent-encoding and base64 *)

Definition byte := N.

Definition is_surrogate (c : char) : bool := in_range 0xD800 0xDFFF c.

Fixpoint count_while (p : char -> bool) (s : str) : nat :=
  match s with
  | [] => O
  | x :: s' => if p x then S (count_while p s') else O
  end.

(** [str(e)] of the [UnicodeEncodeError] for the run of surrogates that
    starts with [c] at index [pos] and has [len] characters. *)
Definition encode_error (c : char) (pos len : nat) : str :=
  match len with
  | S O =>
      py "'utf-8' codec can't encode character '\ud" ++
      hex_fixed true 3%nat (c mod 0x1000) ++ py "' in position " ++
      str_of_N (N.of_nat pos) ++ py ": surrogates not allowed"
  | _ =>
      py "'utf-8' codec can't encode characters in position " ++
      str_of_N (N.of_nat pos) ++ py "-" ++
      str_of_N (N.of_nat (pos + len - 1)%nat) ++ py ": surrogates not allowed"
  end.

Definition utf8_char (c : char) : list byte :=
  if N.ltb c 0x80 then [c]
  else if N.ltb c 0x800 then [0xC0 + c / 64; 0x80 + c mod 64]%N
  else if N.ltb c 0x10000 then
    [0xE0 + c / 4096; 0x80 + (c / 64) mod 64; 0x80 + c mod 64]%N
  else
    [0xF0 + c / 262144; 0x80 + (c / 4096) mod 64; 0x80 + (c / 64) mod 64;
     0x80 + c mod 64]%N.

Fixpoint utf8_encode_from (pos : nat) (s : str) : result (list byte) :=
  match s with
  | [] => Ok []
  | c :: s' =>
      if is_surrogate c
      then Err (ValueError (encode_error c pos (count_while is_surrogate s)))
      else match utf8_encode_from (S pos) s' with
           | Ok bs => Ok (utf8_char c ++ bs)
           | Err e => Err e
           end
  end.

(** [s.encode()]: UTF-8, strict. *)
Definition utf8_encode (s : str) : result (list byte) := utf8_encode_from O s.

Definition is_cont (b : byte) : bool := in_range 0x80 0xBF b.

Definition replacement : char := 0xFFFD%N.

(** [bs.decode('utf-8', 'replace')]: every ill-formed piece (a byte that
    cannot start a character, or the valid beginning of a character that is
    cut short) becomes one U+FFFD. *)
Fixpoint utf8_decode (bs : list byte) : str :=
  match bs with
  | [] => []
  | b :: r1 =>
      if N.ltb b 0x80 then b :: utf8_decode r1
      else if N.ltb b 0xC2 then replacement :: utf8_decode r1
      else if N.ltb b 0xE0 then
        match r1 with
        | [] => [replacement]
        | b2 :: r2 =>
            if is_cont b2
            then ((b - 0xC0) * 64 + (b2 - 0x80))%N :: utf8_decode r2
            else replacement :: utf8_decode r1
        end
      else if N.ltb b 0xF0 then
        match r1 with
        | [] => [replacement]
        | b2 :: r2 =>
            if (negb (is_cont b2)
                || (if N.ltb b2 0xA0 then N.eqb b 0xE0 else N.eqb b 0xED))%bool
            then replacement :: utf8_decode r1
            else
              match r2 with
              | [] => [replacement]
              | b3 :: r3 =>
                  if is_cont b3
                  then ((b - 0xE0) * 4096 + (b2 - 0x80) * 64 + (b3 - 0x80))%N
                         :: utf8_decode r3
                  else replacement :: utf8_decode r2
              end
        end
      else if N.ltb b 0xF5 then
        match r1 with
        | [] => [replacement]
        | b2 :: r2 =>
            if (negb (is_cont b2)
                || (if N.ltb b2 0x90 then N.eqb b 0xF0 else N.eqb b 0xF4))%bool
            then replacement :: utf8_decode r1
            else
              match r2 with
              | [] => [replacement]
              | b3 :: r3 =>
                  if negb (is_cont b3) then replacement :: utf8_decode r2
                  else
                    match r3 with
                    | [] => [replacement]
                    | b4 :: r4 =>
                        if is_cont b4
                        then ((b - 0xF0) * 262144 + (b2 - 0x80) * 4096
                              + (b3 - 0x80) * 64 + (b4 - 0x80))%N
                               :: utf8_decode r4
                        else replacement :: utf8_decode r3
                    end
              end
        end
      else replacement :: utf8_decode r1
  end.

Definition hex_value (c : char) : option N :=
  match alnum_value c with
  | Some d => if (N.ltb c 0x80 && N.ltb d 16)%bool then Some d else None
  | None => None
  end.

(** [urllib.parse.unquote_to_bytes] on ASCII text: a percent sign followed
    by two hexadecimal digits is one byte, any other percent sign stays. *)
Fixpoint unquote_to_bytes (s : str) : list byte :=
  match s with
  | [] => []
  | x :: s' =>
      if N.eqb x (ch "%") then
        match s' with
        | a :: b :: s'' =>
            match hex_value a, hex_value b with
            | Some h, Some l => (16 * h + l)%N :: unquote_to_bytes s''
            | _, _ => x :: unquote_to_bytes s'
            end
        | _ => x :: unquote_to_bytes s'
        end
      else x :: unquote_to_bytes s'
  end.

(** The loop of [unquote] over the runs of ASCII characters ([pending], in
    reverse); characters outside ASCII pass through. *)
Fixpoint unquote_runs (s : str) (pending : str) : str :=
  match s with
  | [] => utf8_decode (unquote_to_bytes (rev pending))
  | x :: s' =>
      if N.ltb x 0x80 then unquote_runs s' (x :: pending)
      else utf8_decode (unquote_to_bytes (rev pending))
             ++ x :: unquote_runs s' []
  end.

(** [urllib.parse.unquote(s)] *)
Definition unquote (s : str) : str :=
  if negb (mem (ch "%") s) then s else unquote_runs s [].

Definition always_safe : str :=
  py "ABCDEFGHIJKLMNOPQRSTUVWXYZabcdefghijklmnopqrstuvwxyz0123456789_.-~".

Definition quote_byte (b : byte) : str :=
  if (mem b always_safe || N.eqb b (ch "/"))%bool then [b]
  else ch "%" :: hex_fixed false 2%nat b.

(** [urllib.parse.quote(s)], with the default [safe='/']. *)
Definition quote (s : str) : result str :=
  match utf8_encode s with
  | Ok bs => Ok (flat_map quote_byte bs)
  | Err e => Err e
  end.

Definition b64_alphabet : str :=
  py "ABCDEFGHIJKLMNOPQRSTUVWXYZabcdefghijklmnopqrstuvwxyz0123456789+/".

Definition b64_char (n : N) : char := nth (N.to_nat n) b64_alphabet 0%N.

(** [base64.b64encode(bs).decode()] *)
Fixpoint b64encode (bs : list byte) : str :=
  match bs with
  | [] => []
  | [a] =>
      [b64_char (a / 4); b64_char ((a mod 4) * 16); ch "="; ch "="]%N
  | [a; b] =>
      [b64_char (a / 4); b64_char ((a mod 4) * 16 + b / 16);
       b64_char ((b mod 16) * 4); ch "="]%N
  | a :: b :: c :: r =>
      [b64_char (a / 4); b64_char ((a mod 4) * 16 + b / 16);
       b64_char ((b mod 16) * 4 + c / 64); b64_char (c mod 64)]%N
        ++ b64encode r
  end.

End Library.

(** ** Character references: [html.unescape] *)

Section Html.
Local Open Scope N_scope.

(** [html.entities.html5]: the named character references and the text they
    stand for. *)
Definition html5 : list (string * str) :=
  [
    ("Aacute", [193]); ("aacute", [225]); ("Aacute;", [193]);
    ("aacute;", [225]); ("Abreve;", [258]); ("abreve;", [259]);
    ("ac;", [8766]); ("acd;", [8767]); ("acE;", [8766; 819]);
    ("Acirc", [194]); ("acirc", [226]); ("Acirc;", [194]); ("acirc;", [226]);
    ("acute", [180]); ("acute;", [180]); ("Acy;", [1040]); ("acy;", [1072]);
    ("AElig", [198]); ("aelig", [230]); ("AElig;", [198]); ("aelig;", [230]);
    ("af;", [8289]); ("Afr;", [120068]); ("afr;", [120094]);
    ("Agrave", [192]); ("agrave", [224]); ("Agrave;", [192]);
    ("agrave;", [224]); ("alefsym;", [8501]); ("aleph;", [8501]);
    ("Alpha;", [913]); ("alpha;", [945]); ("Amacr;", [256]);
    ("amacr;", [257]); ("amalg;", [10815]); ("AMP", [38]); ("amp", [38]);
    ("AMP;", [38]); ("amp;", [38]); ("And;", [10835]); ("and;", [8743]);
    ("andand;", [10837]); ("andd;", [10844]); ("andslope;", [10840]);
    ("andv;", [10842]); ("ang;", [8736]); ("ange;", [10660]);
    ("angle;", [8736]); ("angmsd;", [8737]); ("angmsdaa;", [10664]);
    ("angmsdab;", [10665]); ("angmsdac;", [10666]); ("angmsdad;", [10667]);
    ("angmsdae;", [10668]); ("angmsdaf;", [10669]); ("angmsdag;", [10670]);
    ("angmsdah;", [10671]); ("angrt;", [8735]); ("angrtvb;", [8894]);
    ("angrtvbd;", [10653]); ("angsph;", [8738]); ("angst;", [197]);
    ("angzarr;", [9084]); ("Aogon;", [260]); ("aogon;", [261]);
    ("Aopf;", [120120]); ("aopf;", [120146]); ("ap;", [8776]);
    ("apacir;", [10863]); ("apE;", [10864]); ("ape;", [8778]);
    ("apid;", [8779]); ("apos;", [39]); ("ApplyFunction;", [8289]);
    ("approx;", [8776]); ("approxeq;", [8778]); ("Aring", [197]);
    ("aring", [229]); ("Aring;", [197]); ("aring;", [229]);
    ("Ascr;", [119964]); ("ascr;", [119990]); ("Assign;", [8788]);
    ("ast;", [42]); ("asymp;", [8776]); ("asympeq;", [8781]);
    ("Atilde", [195]); ("atilde", [227]); ("Atilde;", [195]);
    ("atilde;", [227]); ("Auml", [196]); ("auml", [228]); ("Auml;", [196]);
    ("auml;", [228]); ("awconint;", [8755]); ("awint;", [10769]);
    ("backcong;", [8780]); ("backepsilon;", [1014]); ("backprime;", [8245]);
    ("backsim;", [8765]); ("backsimeq;", [8909]); ("Backslash;", [8726]);
    ("Barv;", [10983]); ("barvee;", [8893]); ("Barwed;", [8966]);
    ("barwed;", [8965]); ("barwedge;", [8965]); ("bbrk;", [9141]);
    ("bbrktbrk;", [9142]); ("bcong;", [8780]); ("Bcy;", [1041]);
    ("bcy;", [1073]); ("bdquo;", [8222]); ("becaus;", [8757]);
    ("Because;", [8757]); ("because;", [8757]); ("bemptyv;", [10672]);
    ("bepsi;", [1014]); ("bernou;", [8492]); ("Bernoullis;", [8492]);
    ("Beta;", [914]); ("beta;", [946]); ("beth;", [8502]);
    ("between;", [8812]); ("Bfr;", [120069]); ("bfr;", [120095]);
    ("bigcap;", [8898]); ("bigcirc;", [9711]); ("bigcup;", [8899]);
    ("bigodot;", [10752]); ("bigoplus;", [10753]); ("bigotimes;", [10754]);
    ("bigsqcup;", [10758]); ("bigstar;", [9733]);
    ("bigtriangledown;", [9661]); ("bigtriangleup;", [9651]);
    ("biguplus;", [10756]); ("bigvee;", [8897]); ("bigwedge;", [8896]);
    ("bkarow;", [10509]); ("blacklozenge;", [10731]);
    ("blacksquare;", [9642]); ("blacktriangle;", [9652]);
    ("blacktriangledown;", [9662]); ("blacktriangleleft;", [9666]);
    ("blacktriangleright;", [9656]); ("blank;", [9251]); ("blk12;", [9618]);
    ("blk14;", [9617]); ("blk34;", [9619]); ("block;", [9608]);
    ("bne;", [61; 8421]); ("bnequiv;", [8801; 8421]); ("bNot;", [10989]);
    ("bnot;", [8976]); ("Bopf;", [120121]); ("bopf;", [120147]);
    ("bot;", [8869]); ("bottom;", [8869]); ("bowtie;", [8904]);
    ("boxbox;", [10697]); ("boxDL;", [9559]); ("boxDl;", [9558]);
    ("boxdL;", [9557]); ("boxdl;", [9488]); ("boxDR;", [9556]);
    ("boxDr;", [9555]); ("boxdR;", [9554]); ("boxdr;", [9484]);
    ("boxH;", [9552]); ("boxh;", [9472]); ("boxHD;", [9574]);
    ("boxHd;", [9572]); ("boxhD;", [9573]); ("boxhd;", [9516]);
    ("boxHU;", [9577]); ("boxHu;", [9575]); ("boxhU;", [9576]);
    ("boxhu;", [9524]); ("boxminus;", [8863]); ("boxplus;", [8862]);
    ("boxtimes;", [8864]); ("boxUL;", [9565]); ("boxUl;", [9564]);
    ("boxuL;", [9563]); ("boxul;", [9496]); ("boxUR;", [9562]);
    ("boxUr;", [9561]); ("boxuR;", [9560]); ("boxur;", [9492]);
    ("boxV;", [9553]); ("boxv;", [9474]); ("boxVH;", [9580]);
    ("boxVh;", [9579]); ("boxvH;", [9578]); ("boxvh;", [9532]);
    ("boxVL;", [9571]); ("boxVl;", [9570]); ("boxvL;", [9569]);
    ("boxvl;", [9508]); ("boxVR;", [9568]); ("boxVr;", [9567]);
    ("boxvR;", [9566]); ("boxvr;", [9500]); ("bprime;", [8245]);
    ("Breve;", [728]); ("breve;", [728]); ("brvbar", [166]);
    ("brvbar;", [166]); ("Bscr;", [8492]); ("bscr;", [119991]);
    ("bsemi;", [8271]); ("bsim;", [8765]); ("bsime;", [8909]);
    ("bsol;", [92]); ("bsolb;", [10693]); ("bsolhsub;", [10184]);
    ("bull;", [8226]); ("bullet;", [8226]); ("bump;", [8782]);
    ("bumpE;", [10926]); ("bumpe;", [8783]); ("Bumpeq;", [8782]);
    ("bumpeq;", [8783]); ("Cacute;", [262]); ("cacute;", [263]);
    ("Cap;", [8914]); ("cap;", [8745]); ("capand;", [10820]);
    ("capbrcup;", [10825]); ("capcap;", [10827]); ("capcup;", [10823]);
    ("capdot;", [10816]); ("CapitalDifferentialD;", [8517]);
    ("caps;", [8745; 65024]); ("caret;", [8257]); ("caron;", [711]);
    ("Cayleys;", [8493]); ("ccaps;", [10829]); ("Ccaron;", [268]);
    ("ccaron;", [269]); ("Ccedil", [199]); ("ccedil", [231]);
    ("Ccedil;", [199]); ("ccedil;", [231]); ("Ccirc;", [264]);
    ("ccirc;", [265]); ("Cconint;", [8752]); ("ccups;", [10828]);
    ("ccupssm;", [10832]); ("Cdot;", [266]); ("cdot;", [267]);
    ("cedil", [184]); ("cedil;", [184]); ("Cedilla;", [184]);
    ("cemptyv;", [10674]); ("cent", [162]); ("cent;", [162]);
    ("CenterDot;", [183]); ("centerdot;", [183]); ("Cfr;", [8493]);
    ("cfr;", [120096]); ("CHcy;", [1063]); ("chcy;", [1095]);
    ("check;", [10003]); ("checkmark;", [10003]); ("Chi;", [935]);
    ("chi;", [967]); ("cir;", [9675]); ("circ;", [710]); ("circeq;", [8791]);
    ("circlearrowleft;", [8634]); ("circlearrowright;", [8635]);
    ("circledast;", [8859]); ("circledcirc;", [8858]);
    ("circleddash;", [8861]); ("CircleDot;", [8857]); ("circledR;", [174]);
    ("circledS;", [9416]); ("CircleMinus;", [8854]); ("CirclePlus;", [8853]);
    ("CircleTimes;", [8855]); ("cirE;", [10691]); ("cire;", [8791]);
    ("cirfnint;", [10768]); ("cirmid;", [10991]); ("cirscir;", [10690]);
    ("ClockwiseContourIntegral;", [8754]); ("CloseCurlyDoubleQuote;", [8221]);
    ("CloseCurlyQuote;", [8217]); ("clubs;", [9827]); ("clubsuit;", [9827]);
    ("Colon;", [8759]); ("colon;", [58]); ("Colone;", [10868]);
    ("colone;", [8788]); ("coloneq;", [8788]); ("comma;", [44]);
    ("commat;", [64]); ("comp;", [8705]); ("compfn;", [8728]);
    ("complement;", [8705]); ("complexes;", [8450]); ("cong;", [8773]);
    ("congdot;", [10861]); ("Congruent;", [8801]); ("Conint;", [8751]);
    ("conint;", [8750]); ("ContourIntegral;", [8750]); ("Copf;", [8450]);
    ("copf;", [120148]); ("coprod;", [8720]); ("Coproduct;", [8720]);
    ("COPY", [169]); ("copy", [169]); ("COPY;", [169]); ("copy;", [169]);
    ("copysr;", [8471]); ("CounterClockwiseContourIntegral;", [8755]);
    ("crarr;", [8629]); ("Cross;", [10799]); ("cross;", [10007]);
    ("Cscr;", [119966]); ("cscr;", [119992]); ("csub;", [10959]);
    ("csube;", [10961]); ("csup;", [10960]); ("csupe;", [10962]);
    ("ctdot;", [8943]); ("cudarrl;", [10552]); ("cudarrr;", [10549]);
    ("cuepr;", [8926]); ("cuesc;", [8927]); ("cularr;", [8630]);
    ("cularrp;", [10557]); ("Cup;", [8915]); ("cup;", [8746]);
    ("cupbrcap;", [10824]); ("CupCap;", [8781]); ("cupcap;", [10822]);
    ("cupcup;", [10826]); ("cupdot;", [8845]); ("cupor;", [10821]);
    ("cups;", [8746; 65024]); ("curarr;", [8631]); ("curarrm;", [10556]);
    ("curlyeqprec;", [8926]); ("curlyeqsucc;", [8927]); ("curlyvee;", [8910]);
    ("curlywedge;", [8911]); ("curren", [164]); ("curren;", [164]);
    ("curvearrowleft;", [8630]); ("curvearrowright;", [8631]);
    ("cuvee;", [8910]); ("cuwed;", [8911]); ("cwconint;", [8754]);
    ("cwint;", [8753]); ("cylcty;", [9005]); ("Dagger;", [8225]);
    ("dagger;", [8224]); ("daleth;", [8504]); ("Darr;", [8609]);
    ("dArr;", [8659]); ("darr;", [8595]); ("dash;", [8208]);
    ("Dashv;", [10980]); ("dashv;", [8867]); ("dbkarow;", [10511]);
    ("dblac;", [733]); ("Dcaron;", [270]); ("dcaron;", [271]);
    ("Dcy;", [1044]); ("dcy;", [1076]); ("DD;", [8517]); ("dd;", [8518]);
    ("ddagger;", [8225]); ("ddarr;", [8650]); ("DDotrahd;", [10513]);
    ("ddotseq;", [10871]); ("deg", [176]); ("deg;", [176]); ("Del;", [8711]);
    ("Delta;", [916]); ("delta;", [948]); ("demptyv;", [10673]);
    ("dfisht;", [10623]); ("Dfr;", [120071]); ("dfr;", [120097]);
    ("dHar;", [10597]); ("dharl;", [8643]); ("dharr;", [8642]);
    ("DiacriticalAcute;", [180]); ("DiacriticalDot;", [729]);
    ("DiacriticalDoubleAcute;", [733]); ("DiacriticalGrave;", [96]);
    ("DiacriticalTilde;", [732]); ("diam;", [8900]); ("Diamond;", [8900]);
    ("diamond;", [8900]); ("diamondsuit;", [9830]); ("diams;", [9830]);
    ("die;", [168]); ("DifferentialD;", [8518]); ("digamma;", [989]);
    ("disin;", [8946]); ("div;", [247]); ("divide", [247]);
    ("divide;", [247]); ("divideontimes;", [8903]); ("divonx;", [8903]);
    ("DJcy;", [1026]); ("djcy;", [1106]); ("dlcorn;", [8990]);
    ("dlcrop;", [8973]); ("dollar;", [36]); ("Dopf;", [120123]);
    ("dopf;", [120149]); ("Dot;", [168]); ("dot;", [729]);
    ("DotDot;", [8412]); ("doteq;", [8784]); ("doteqdot;", [8785]);
    ("DotEqual;", [8784]); ("dotminus;", [8760]); ("dotplus;", [8724]);
    ("dotsquare;", [8865]); ("doublebarwedge;", [8966]);
    ("DoubleContourIntegral;", [8751]); ("DoubleDot;", [168]);
    ("DoubleDownArrow;", [8659]); ("DoubleLeftArrow;", [8656]);
    ("DoubleLeftRightArrow;", [8660]); ("DoubleLeftTee;", [10980]);
    ("DoubleLongLeftArrow;", [10232]); ("DoubleLongLeftRightArrow;", [10234]);
    ("DoubleLongRightArrow;", [10233]); ("DoubleRightArrow;", [8658]);
    ("DoubleRightTee;", [8872]); ("DoubleUpArrow;", [8657]);
    ("DoubleUpDownArrow;", [8661]); ("DoubleVerticalBar;", [8741]);
    ("DownArrow;", [8595]); ("Downarrow;", [8659]); ("downarrow;", [8595]);
    ("DownArrowBar;", [10515]); ("DownArrowUpArrow;", [8693]);
    ("DownBreve;", [785]); ("downdownarrows;", [8650]);
    ("downharpoonleft;", [8643]); ("downharpoonright;", [8642]);
    ("DownLeftRightVector;", [10576]); ("DownLeftTeeVector;", [10590]);
    ("DownLeftVector;", [8637]); ("DownLeftVectorBar;", [10582]);
    ("DownRightTeeVector;", [10591]); ("DownRightVector;", [8641]);
    ("DownRightVectorBar;", [10583]); ("DownTee;", [8868]);
    ("DownTeeArrow;", [8615]); ("drbkarow;", [10512]); ("drcorn;", [8991]);
    ("drcrop;", [8972]); ("Dscr;", [119967]); ("dscr;", [119993]);
    ("DScy;", [1029]); ("dscy;", [1109]); ("dsol;", [10742]);
    ("Dstrok;", [272]); ("dstrok;", [273]); ("dtdot;", [8945]);
    ("dtri;", [9663]); ("dtrif;", [9662]); ("duarr;", [8693]);
    ("duhar;", [10607]); ("dwangle;", [10662]); ("DZcy;", [1039]);
    ("dzcy;", [1119]); ("dzigrarr;", [10239]); ("Eacute", [201]);
    ("eacute", [233]); ("Eacute;", [201]); ("eacute;", [233]);
    ("easter;", [10862]); ("Ecaron;", [282]); ("ecaron;", [283]);
    ("ecir;", [8790]); ("Ecirc", [202]); ("ecirc", [234]); ("Ecirc;", [202]);
    ("ecirc;", [234]); ("ecolon;", [8789]); ("Ecy;", [1069]);
    ("ecy;", [1101]); ("eDDot;", [10871]); ("Edot;", [278]);
    ("eDot;", [8785]); ("edot;", [279]); ("ee;", [8519]); ("efDot;", [8786]);
    ("Efr;", [120072]); ("efr;", [120098]); ("eg;", [10906]);
    ("Egrave", [200]); ("egrave", [232]); ("Egrave;", [200]);
    ("egrave;", [232]); ("egs;", [10902]); ("egsdot;", [10904]);
    ("el;", [10905]); ("Element;", [8712]); ("elinters;", [9191]);
    ("ell;", [8467]); ("els;", [10901]); ("elsdot;", [10903]);
    ("Emacr;", [274]); ("emacr;", [275]); ("empty;", [8709]);
    ("emptyset;", [8709]); ("EmptySmallSquare;", [9723]); ("emptyv;", [8709]);
    ("EmptyVerySmallSquare;", [9643]); ("emsp13;", [8196]);
    ("emsp14;", [8197]); ("emsp;", [8195]); ("ENG;", [330]); ("eng;", [331]);
    ("ensp;", [8194]); ("Eogon;", [280]); ("eogon;", [281]);
    ("Eopf;", [120124]); ("eopf;", [120150]); ("epar;", [8917]);
    ("eparsl;", [10723]); ("eplus;", [10865]); ("epsi;", [949]);
    ("Epsilon;", [917]); ("epsilon;", [949]); ("epsiv;", [1013]);
    ("eqcirc;", [8790]); ("eqcolon;", [8789]); ("eqsim;", [8770]);
    ("eqslantgtr;", [10902]); ("eqslantless;", [10901]); ("Equal;", [10869]);
    ("equals;", [61]); ("EqualTilde;", [8770]); ("equest;", [8799]);
    ("Equilibrium;", [8652]); ("equiv;", [8801]); ("equivDD;", [10872]);
    ("eqvparsl;", [10725]); ("erarr;", [10609]); ("erDot;", [8787]);
    ("Escr;", [8496]); ("escr;", [8495]); ("esdot;", [8784]);
    ("Esim;", [10867]); ("esim;", [8770]); ("Eta;", [919]); ("eta;", [951]);
    ("ETH", [208]); ("eth", [240]); ("ETH;", [208]); ("eth;", [240]);
    ("Euml", [203]); ("euml", [235]); ("Euml;", [203]); ("euml;", [235]);
    ("euro;", [8364]); ("excl;", [33]); ("exist;", [8707]);
    ("Exists;", [8707]); ("expectation;", [8496]); ("ExponentialE;", [8519]);
    ("exponentiale;", [8519]); ("fallingdotseq;", [8786]); ("Fcy;", [1060]);
    ("fcy;", [1092]); ("female;", [9792]); ("ffilig;", [64259]);
    ("fflig;", [64256]); ("ffllig;", [64260]); ("Ffr;", [120073]);
    ("ffr;", [120099]); ("filig;", [64257]); ("FilledSmallSquare;", [9724]);
    ("FilledVerySmallSquare;", [9642]); ("fjlig;", [102; 106]);
    ("flat;", [9837]); ("fllig;", [64258]); ("fltns;", [9649]);
    ("fnof;", [402]); ("Fopf;", [120125]); ("fopf;", [120151]);
    ("ForAll;", [8704]); ("forall;", [8704]); ("fork;", [8916]);
    ("forkv;", [10969]); ("Fouriertrf;", [8497]); ("fpartint;", [10765]);
    ("frac12", [189]); ("frac12;", [189]); ("frac13;", [8531]);
    ("frac14", [188]); ("frac14;", [188]); ("frac15;", [8533]);
    ("frac16;", [8537]); ("frac18;", [8539]); ("frac23;", [8532]);
    ("frac25;", [8534]); ("frac34", [190]); ("frac34;", [190]);
    ("frac35;", [8535]); ("frac38;", [8540]); ("frac45;", [8536]);
    ("frac56;", [8538]); ("frac58;", [8541]); ("frac78;", [8542]);
    ("frasl;", [8260]); ("frown;", [8994]); ("Fscr;", [8497]);
    ("fscr;", [119995]); ("gacute;", [501]); ("Gamma;", [915]);
    ("gamma;", [947]); ("Gammad;", [988]); ("gammad;", [989]);
    ("gap;", [10886]); ("Gbreve;", [286]); ("gbreve;", [287]);
    ("Gcedil;", [290]); ("Gcirc;", [284]); ("gcirc;", [285]);
    ("Gcy;", [1043]); ("gcy;", [1075]); ("Gdot;", [288]); ("gdot;", [289]);
    ("gE;", [8807]); ("ge;", [8805]); ("gEl;", [10892]); ("gel;", [8923]);
    ("geq;", [8805]); ("geqq;", [8807]); ("geqslant;", [10878]);
    ("ges;", [10878]); ("gescc;", [10921]); ("gesdot;", [10880]);
    ("gesdoto;", [10882]); ("gesdotol;", [10884]); ("gesl;", [8923; 65024]);
    ("gesles;", [10900]); ("Gfr;", [120074]); ("gfr;", [120100]);
    ("Gg;", [8921]); ("gg;", [8811]); ("ggg;", [8921]); ("gimel;", [8503]);
    ("GJcy;", [1027]); ("gjcy;", [1107]); ("gl;", [8823]); ("gla;", [10917]);
    ("glE;", [10898]); ("glj;", [10916]); ("gnap;", [10890]);
    ("gnapprox;", [10890]); ("gnE;", [8809]); ("gne;", [10888]);
    ("gneq;", [10888]); ("gneqq;", [8809]); ("gnsim;", [8935]);
    ("Gopf;", [120126]); ("gopf;", [120152]); ("grave;", [96]);
    ("GreaterEqual;", [8805]); ("GreaterEqualLess;", [8923]);
    ("GreaterFullEqual;", [8807]); ("GreaterGreater;", [10914]);
    ("GreaterLess;", [8823]); ("GreaterSlantEqual;", [10878]);
    ("GreaterTilde;", [8819]); ("Gscr;", [119970]); ("gscr;", [8458]);
    ("gsim;", [8819]); ("gsime;", [10894]); ("gsiml;", [10896]); ("GT", [62]);
    ("gt", [62]); ("GT;", [62]); ("Gt;", [8811]); ("gt;", [62]);
    ("gtcc;", [10919]); ("gtcir;", [10874]); ("gtdot;", [8919]);
    ("gtlPar;", [10645]); ("gtquest;", [10876]); ("gtrapprox;", [10886]);
    ("gtrarr;", [10616]); ("gtrdot;", [8919]); ("gtreqless;", [8923]);
    ("gtreqqless;", [10892]); ("gtrless;", [8823]); ("gtrsim;", [8819]);
    ("gvertneqq;", [8809; 65024]); ("gvnE;", [8809; 65024]);
    ("Hacek;", [711]); ("hairsp;", [8202]); ("half;", [189]);
    ("hamilt;", [8459]); ("HARDcy;", [1066]); ("hardcy;", [1098]);
    ("hArr;", [8660]); ("harr;", [8596]); ("harrcir;", [10568]);
    ("harrw;", [8621]); ("Hat;", [94]); ("hbar;", [8463]); ("Hcirc;", [292]);
    ("hcirc;", [293]); ("hearts;", [9829]); ("heartsuit;", [9829]);
    ("hellip;", [8230]); ("hercon;", [8889]); ("Hfr;", [8460]);
    ("hfr;", [120101]); ("HilbertSpace;", [8459]); ("hksearow;", [10533]);
    ("hkswarow;", [10534]); ("hoarr;", [8703]); ("homtht;", [8763]);
    ("hookleftarrow;", [8617]); ("hookrightarrow;", [8618]);
    ("Hopf;", [8461]); ("hopf;", [120153]); ("horbar;", [8213]);
    ("HorizontalLine;", [9472]); ("Hscr;", [8459]); ("hscr;", [119997]);
    ("hslash;", [8463]); ("Hstrok;", [294]); ("hstrok;", [295]);
    ("HumpDownHump;", [8782]); ("HumpEqual;", [8783]); ("hybull;", [8259]);
    ("hyphen;", [8208]); ("Iacute", [205]); ("iacute", [237]);
    ("Iacute;", [205]); ("iacute;", [237]); ("ic;", [8291]); ("Icirc", [206]);
    ("icirc", [238]); ("Icirc;", [206]); ("icirc;", [238]); ("Icy;", [1048]);
    ("icy;", [1080]); ("Idot;", [304]); ("IEcy;", [1045]); ("iecy;", [1077]);
    ("iexcl", [161]); ("iexcl;", [161]); ("iff;", [8660]); ("Ifr;", [8465]);
    ("ifr;", [120102]); ("Igrave", [204]); ("igrave", [236]);
    ("Igrave;", [204]); ("igrave;", [236]); ("ii;", [8520]);
    ("iiiint;", [10764]); ("iiint;", [8749]); ("iinfin;", [10716]);
    ("iiota;", [8489]); ("IJlig;", [306]); ("ijlig;", [307]); ("Im;", [8465]);
    ("Imacr;", [298]); ("imacr;", [299]); ("image;", [8465]);
    ("ImaginaryI;", [8520]); ("imagline;", [8464]); ("imagpart;", [8465]);
    ("imath;", [305]); ("imof;", [8887]); ("imped;", [437]);
    ("Implies;", [8658]); ("in;", [8712]); ("incare;", [8453]);
    ("infin;", [8734]); ("infintie;", [10717]); ("inodot;", [305]);
    ("Int;", [8748]); ("int;", [8747]); ("intcal;", [8890]);
    ("integers;", [8484]); ("Integral;", [8747]); ("intercal;", [8890]);
    ("Intersection;", [8898]); ("intlarhk;", [10775]); ("intprod;", [10812]);
    ("InvisibleComma;", [8291]); ("InvisibleTimes;", [8290]);
    ("IOcy;", [1025]); ("iocy;", [1105]); ("Iogon;", [302]);
    ("iogon;", [303]); ("Iopf;", [120128]); ("iopf;", [120154]);
    ("Iota;", [921]); ("iota;", [953]); ("iprod;", [10812]);
    ("iquest", [191]); ("iquest;", [191]); ("Iscr;", [8464]);
    ("iscr;", [119998]); ("isin;", [8712]); ("isindot;", [8949]);
    ("isinE;", [8953]); ("isins;", [8948]); ("isinsv;", [8947]);
    ("isinv;", [8712]); ("it;", [8290]); ("Itilde;", [296]);
    ("itilde;", [297]); ("Iukcy;", [1030]); ("iukcy;", [1110]);
    ("Iuml", [207]); ("iuml", [239]); ("Iuml;", [207]); ("iuml;", [239]);
    ("Jcirc;", [308]); ("jcirc;", [309]); ("Jcy;", [1049]); ("jcy;", [1081]);
    ("Jfr;", [120077]); ("jfr;", [120103]); ("jmath;", [567]);
    ("Jopf;", [120129]); ("jopf;", [120155]); ("Jscr;", [119973]);
    ("jscr;", [119999]); ("Jsercy;", [1032]); ("jsercy;", [1112]);
    ("Jukcy;", [1028]); ("jukcy;", [1108]); ("Kappa;", [922]);
    ("kappa;", [954]); ("kappav;", [1008]); ("Kcedil;", [310]);
    ("kcedil;", [311]); ("Kcy;", [1050]); ("kcy;", [1082]);
    ("Kfr;", [120078]); ("kfr;", [120104]); ("kgreen;", [312]);
    ("KHcy;", [1061]); ("khcy;", [1093]); ("KJcy;", [1036]);
    ("kjcy;", [1116]); ("Kopf;", [120130]); ("kopf;", [120156]);
    ("Kscr;", [119974]); ("kscr;", [120000]); ("lAarr;", [8666]);
    ("Lacute;", [313]); ("lacute;", [314]); ("laemptyv;", [10676]);
    ("lagran;", [8466]); ("Lambda;", [923]); ("lambda;", [955]);
    ("Lang;", [10218]); ("lang;", [10216]); ("langd;", [10641]);
    ("langle;", [10216]); ("lap;", [10885]); ("Laplacetrf;", [8466]);
    ("laquo", [171]); ("laquo;", [171]); ("Larr;", [8606]); ("lArr;", [8656]);
    ("larr;", [8592]); ("larrb;", [8676]); ("larrbfs;", [10527]);
    ("larrfs;", [10525]); ("larrhk;", [8617]); ("larrlp;", [8619]);
    ("larrpl;", [10553]); ("larrsim;", [10611]); ("larrtl;", [8610]);
    ("lat;", [10923]); ("lAtail;", [10523]); ("latail;", [10521]);
    ("late;", [10925]); ("lates;", [10925; 65024]); ("lBarr;", [10510]);
    ("lbarr;", [10508]); ("lbbrk;", [10098]); ("lbrace;", [123]);
    ("lbrack;", [91]); ("lbrke;", [10635]); ("lbrksld;", [10639]);
    ("lbrkslu;", [10637]); ("Lcaron;", [317]); ("lcaron;", [318]);
    ("Lcedil;", [315]); ("lcedil;", [316]); ("lceil;", [8968]);
    ("lcub;", [123]); ("Lcy;", [1051]); ("lcy;", [1083]); ("ldca;", [10550]);
    ("ldquo;", [8220]); ("ldquor;", [8222]); ("ldrdhar;", [10599]);
    ("ldrushar;", [10571]); ("ldsh;", [8626]); ("lE;", [8806]);
    ("le;", [8804]); ("LeftAngleBracket;", [10216]); ("LeftArrow;", [8592]);
    ("Leftarrow;", [8656]); ("leftarrow;", [8592]); ("LeftArrowBar;", [8676]);
    ("LeftArrowRightArrow;", [8646]); ("leftarrowtail;", [8610]);
    ("LeftCeiling;", [8968]); ("LeftDoubleBracket;", [10214]);
    ("LeftDownTeeVector;", [10593]); ("LeftDownVector;", [8643]);
    ("LeftDownVectorBar;", [10585]); ("LeftFloor;", [8970]);
    ("leftharpoondown;", [8637]); ("leftharpoonup;", [8636]);
    ("leftleftarrows;", [8647]); ("LeftRightArrow;", [8596]);
    ("Leftrightarrow;", [8660]); ("leftrightarrow;", [8596]);
    ("leftrightarrows;", [8646]); ("leftrightharpoons;", [8651]);
    ("leftrightsquigarrow;", [8621]); ("LeftRightVector;", [10574]);
    ("LeftTee;", [8867]); ("LeftTeeArrow;", [8612]);
    ("LeftTeeVector;", [10586]); ("leftthreetimes;", [8907]);
    ("LeftTriangle;", [8882]); ("LeftTriangleBar;", [10703]);
    ("LeftTriangleEqual;", [8884]); ("LeftUpDownVector;", [10577]);
    ("LeftUpTeeVector;", [10592]); ("LeftUpVector;", [8639]);
    ("LeftUpVectorBar;", [10584]); ("LeftVector;", [8636]);
    ("LeftVectorBar;", [10578]); ("lEg;", [10891]); ("leg;", [8922]);
    ("leq;", [8804]); ("leqq;", [8806]); ("leqslant;", [10877]);
    ("les;", [10877]); ("lescc;", [10920]); ("lesdot;", [10879]);
    ("lesdoto;", [10881]); ("lesdotor;", [10883]); ("lesg;", [8922; 65024]);
    ("lesges;", [10899]); ("lessapprox;", [10885]); ("lessdot;", [8918]);
    ("lesseqgtr;", [8922]); ("lesseqqgtr;", [10891]);
    ("LessEqualGreater;", [8922]); ("LessFullEqual;", [8806]);
    ("LessGreater;", [8822]); ("lessgtr;", [8822]); ("LessLess;", [10913]);
    ("lesssim;", [8818]); ("LessSlantEqual;", [10877]);
    ("LessTilde;", [8818]); ("lfisht;", [10620]); ("lfloor;", [8970]);
    ("Lfr;", [120079]); ("lfr;", [120105]); ("lg;", [8822]);
    ("lgE;", [10897]); ("lHar;", [10594]); ("lhard;", [8637]);
    ("lharu;", [8636]); ("lharul;", [10602]); ("lhblk;", [9604]);
    ("LJcy;", [1033]); ("ljcy;", [1113]); ("Ll;", [8920]); ("ll;", [8810]);
    ("llarr;", [8647]); ("llcorner;", [8990]); ("Lleftarrow;", [8666]);
    ("llhard;", [10603]); ("lltri;", [9722]); ("Lmidot;", [319]);
    ("lmidot;", [320]); ("lmoust;", [9136]); ("lmoustache;", [9136]);
    ("lnap;", [10889]); ("lnapprox;", [10889]); ("lnE;", [8808]);
    ("lne;", [10887]); ("lneq;", [10887]); ("lneqq;", [8808]);
    ("lnsim;", [8934]); ("loang;", [10220]); ("loarr;", [8701]);
    ("lobrk;", [10214]); ("LongLeftArrow;", [10229]);
    ("Longleftarrow;", [10232]); ("longleftarrow;", [10229]);
    ("LongLeftRightArrow;", [10231]); ("Longleftrightarrow;", [10234]);
    ("longleftrightarrow;", [10231]); ("longmapsto;", [10236]);
    ("LongRightArrow;", [10230]); ("Longrightarrow;", [10233]);
    ("longrightarrow;", [10230]); ("looparrowleft;", [8619]);
    ("looparrowright;", [8620]); ("lopar;", [10629]); ("Lopf;", [120131]);
    ("lopf;", [120157]); ("loplus;", [10797]); ("lotimes;", [10804]);
    ("lowast;", [8727]); ("lowbar;", [95]); ("LowerLeftArrow;", [8601]);
    ("LowerRightArrow;", [8600]); ("loz;", [9674]); ("lozenge;", [9674]);
    ("lozf;", [10731]); ("lpar;", [40]); ("lparlt;", [10643]);
    ("lrarr;", [8646]); ("lrcorner;", [8991]); ("lrhar;", [8651]);
    ("lrhard;", [10605]); ("lrm;", [8206]); ("lrtri;", [8895]);
    ("lsaquo;", [8249]); ("Lscr;", [8466]); ("lscr;", [120001]);
    ("Lsh;", [8624]); ("lsh;", [8624]); ("lsim;", [8818]);
    ("lsime;", [10893]); ("lsimg;", [10895]); ("lsqb;", [91]);
    ("lsquo;", [8216]); ("lsquor;", [8218]); ("Lstrok;", [321]);
    ("lstrok;", [322]); ("LT", [60]); ("lt", [60]); ("LT;", [60]);
    ("Lt;", [8810]); ("lt;", [60]); ("ltcc;", [10918]); ("ltcir;", [10873]);
    ("ltdot;", [8918]); ("lthree;", [8907]); ("ltimes;", [8905]);
    ("ltlarr;", [10614]); ("ltquest;", [10875]); ("ltri;", [9667]);
    ("ltrie;", [8884]); ("ltrif;", [9666]); ("ltrPar;", [10646]);
    ("lurdshar;", [10570]); ("luruhar;", [10598]);
    ("lvertneqq;", [8808; 65024]); ("lvnE;", [8808; 65024]); ("macr", [175]);
    ("macr;", [175]); ("male;", [9794]); ("malt;", [10016]);
    ("maltese;", [10016]); ("Map;", [10501]); ("map;", [8614]);
    ("mapsto;", [8614]); ("mapstodown;", [8615]); ("mapstoleft;", [8612]);
    ("mapstoup;", [8613]); ("marker;", [9646]); ("mcomma;", [10793]);
    ("Mcy;", [1052]); ("mcy;", [1084]); ("mdash;", [8212]);
    ("mDDot;", [8762]); ("measuredangle;", [8737]); ("MediumSpace;", [8287]);
    ("Mellintrf;", [8499]); ("Mfr;", [120080]); ("mfr;", [120106]);
    ("mho;", [8487]); ("micro", [181]); ("micro;", [181]); ("mid;", [8739]);
    ("midast;", [42]); ("midcir;", [10992]); ("middot", [183]);
    ("middot;", [183]); ("minus;", [8722]); ("minusb;", [8863]);
    ("minusd;", [8760]); ("minusdu;", [10794]); ("MinusPlus;", [8723]);
    ("mlcp;", [10971]); ("mldr;", [8230]); ("mnplus;", [8723]);
    ("models;", [8871]); ("Mopf;", [120132]); ("mopf;", [120158]);
    ("mp;", [8723]); ("Mscr;", [8499]); ("mscr;", [120002]);
    ("mstpos;", [8766]); ("Mu;", [924]); ("mu;", [956]);
    ("multimap;", [8888]); ("mumap;", [8888]); ("nabla;", [8711]);
    ("Nacute;", [323]); ("nacute;", [324]); ("nang;", [8736; 8402]);
    ("nap;", [8777]); ("napE;", [10864; 824]); ("napid;", [8779; 824]);
    ("napos;", [329]); ("napprox;", [8777]); ("natur;", [9838]);
    ("natural;", [9838]); ("naturals;", [8469]); ("nbsp", [160]);
    ("nbsp;", [160]); ("nbump;", [8782; 824]); ("nbumpe;", [8783; 824]);
    ("ncap;", [10819]); ("Ncaron;", [327]); ("ncaron;", [328]);
    ("Ncedil;", [325]); ("ncedil;", [326]); ("ncong;", [8775]);
    ("ncongdot;", [10861; 824]); ("ncup;", [10818]); ("Ncy;", [1053]);
    ("ncy;", [1085]); ("ndash;", [8211]); ("ne;", [8800]);
    ("nearhk;", [10532]); ("neArr;", [8663]); ("nearr;", [8599]);
    ("nearrow;", [8599]); ("nedot;", [8784; 824]);
    ("NegativeMediumSpace;", [8203]); ("NegativeThickSpace;", [8203]);
    ("NegativeThinSpace;", [8203]); ("NegativeVeryThinSpace;", [8203]);
    ("nequiv;", [8802]); ("nesear;", [10536]); ("nesim;", [8770; 824]);
    ("NestedGreaterGreater;", [8811]); ("NestedLessLess;", [8810]);
    ("NewLine;", [10]); ("nexist;", [8708]); ("nexists;", [8708]);
    ("Nfr;", [120081]); ("nfr;", [120107]); ("ngE;", [8807; 824]);
    ("nge;", [8817]); ("ngeq;", [8817]); ("ngeqq;", [8807; 824]);
    ("ngeqslant;", [10878; 824]); ("nges;", [10878; 824]);
    ("nGg;", [8921; 824]); ("ngsim;", [8821]); ("nGt;", [8811; 8402]);
    ("ngt;", [8815]); ("ngtr;", [8815]); ("nGtv;", [8811; 824]);
    ("nhArr;", [8654]); ("nharr;", [8622]); ("nhpar;", [10994]);
    ("ni;", [8715]); ("nis;", [8956]); ("nisd;", [8954]); ("niv;", [8715]);
    ("NJcy;", [1034]); ("njcy;", [1114]); ("nlArr;", [8653]);
    ("nlarr;", [8602]); ("nldr;", [8229]); ("nlE;", [8806; 824]);
    ("nle;", [8816]); ("nLeftarrow;", [8653]); ("nleftarrow;", [8602]);
    ("nLeftrightarrow;", [8654]); ("nleftrightarrow;", [8622]);
    ("nleq;", [8816]); ("nleqq;", [8806; 824]); ("nleqslant;", [10877; 824]);
    ("nles;", [10877; 824]); ("nless;", [8814]); ("nLl;", [8920; 824]);
    ("nlsim;", [8820]); ("nLt;", [8810; 8402]); ("nlt;", [8814]);
    ("nltri;", [8938]); ("nltrie;", [8940]); ("nLtv;", [8810; 824]);
    ("nmid;", [8740]); ("NoBreak;", [8288]); ("NonBreakingSpace;", [160]);
    ("Nopf;", [8469]); ("nopf;", [120159]); ("not", [172]); ("Not;", [10988]);
    ("not;", [172]); ("NotCongruent;", [8802]); ("NotCupCap;", [8813]);
    ("NotDoubleVerticalBar;", [8742]); ("NotElement;", [8713]);
    ("NotEqual;", [8800]); ("NotEqualTilde;", [8770; 824]);
    ("NotExists;", [8708]); ("NotGreater;", [8815]);
    ("NotGreaterEqual;", [8817]); ("NotGreaterFullEqual;", [8807; 824]);
    ("NotGreaterGreater;", [8811; 824]); ("NotGreaterLess;", [8825]);
    ("NotGreaterSlantEqual;", [10878; 824]); ("NotGreaterTilde;", [8821]);
    ("NotHumpDownHump;", [8782; 824]); ("NotHumpEqual;", [8783; 824]);
    ("notin;", [8713]); ("notindot;", [8949; 824]); ("notinE;", [8953; 824]);
    ("notinva;", [8713]); ("notinvb;", [8951]); ("notinvc;", [8950]);
    ("NotLeftTriangle;", [8938]); ("NotLeftTriangleBar;", [10703; 824]);
    ("NotLeftTriangleEqual;", [8940]); ("NotLess;", [8814]);
    ("NotLessEqual;", [8816]); ("NotLessGreater;", [8824]);
    ("NotLessLess;", [8810; 824]); ("NotLessSlantEqual;", [10877; 824]);
    ("NotLessTilde;", [8820]); ("NotNestedGreaterGreater;", [10914; 824]);
    ("NotNestedLessLess;", [10913; 824]); ("notni;", [8716]);
    ("notniva;", [8716]); ("notnivb;", [8958]); ("notnivc;", [8957]);
    ("NotPrecedes;", [8832]); ("NotPrecedesEqual;", [10927; 824]);
    ("NotPrecedesSlantEqual;", [8928]); ("NotReverseElement;", [8716]);
    ("NotRightTriangle;", [8939]); ("NotRightTriangleBar;", [10704; 824]);
    ("NotRightTriangleEqual;", [8941]); ("NotSquareSubset;", [8847; 824]);
    ("NotSquareSubsetEqual;", [8930]); ("NotSquareSuperset;", [8848; 824]);
    ("NotSquareSupersetEqual;", [8931]); ("NotSubset;", [8834; 8402]);
    ("NotSubsetEqual;", [8840]); ("NotSucceeds;", [8833]);
    ("NotSucceedsEqual;", [10928; 824]); ("NotSucceedsSlantEqual;", [8929]);
    ("NotSucceedsTilde;", [8831; 824]); ("NotSuperset;", [8835; 8402]);
    ("NotSupersetEqual;", [8841]); ("NotTilde;", [8769]);
    ("NotTildeEqual;", [8772]); ("NotTildeFullEqual;", [8775]);
    ("NotTildeTilde;", [8777]); ("NotVerticalBar;", [8740]);
    ("npar;", [8742]); ("nparallel;", [8742]); ("nparsl;", [11005; 8421]);
    ("npart;", [8706; 824]); ("npolint;", [10772]); ("npr;", [8832]);
    ("nprcue;", [8928]); ("npre;", [10927; 824]); ("nprec;", [8832]);
    ("npreceq;", [10927; 824]); ("nrArr;", [8655]); ("nrarr;", [8603]);
    ("nrarrc;", [10547; 824]); ("nrarrw;", [8605; 824]);
    ("nRightarrow;", [8655]); ("nrightarrow;", [8603]); ("nrtri;", [8939]);
    ("nrtrie;", [8941]); ("nsc;", [8833]); ("nsccue;", [8929]);
    ("nsce;", [10928; 824]); ("Nscr;", [119977]); ("nscr;", [120003]);
    ("nshortmid;", [8740]); ("nshortparallel;", [8742]); ("nsim;", [8769]);
    ("nsime;", [8772]); ("nsimeq;", [8772]); ("nsmid;", [8740]);
    ("nspar;", [8742]); ("nsqsube;", [8930]); ("nsqsupe;", [8931]);
    ("nsub;", [8836]); ("nsubE;", [10949; 824]); ("nsube;", [8840]);
    ("nsubset;", [8834; 8402]); ("nsubseteq;", [8840]);
    ("nsubseteqq;", [10949; 824]); ("nsucc;", [8833]);
    ("nsucceq;", [10928; 824]); ("nsup;", [8837]); ("nsupE;", [10950; 824]);
    ("nsupe;", [8841]); ("nsupset;", [8835; 8402]); ("nsupseteq;", [8841]);
    ("nsupseteqq;", [10950; 824]); ("ntgl;", [8825]); ("Ntilde", [209]);
    ("ntilde", [241]); ("Ntilde;", [209]); ("ntilde;", [241]);
    ("ntlg;", [8824]); ("ntriangleleft;", [8938]);
    ("ntrianglelefteq;", [8940]); ("ntriangleright;", [8939]);
    ("ntrianglerighteq;", [8941]); ("Nu;", [925]); ("nu;", [957]);
    ("num;", [35]); ("numero;", [8470]); ("numsp;", [8199]);
    ("nvap;", [8781; 8402]); ("nVDash;", [8879]); ("nVdash;", [8878]);
    ("nvDash;", [8877]); ("nvdash;", [8876]); ("nvge;", [8805; 8402]);
    ("nvgt;", [62; 8402]); ("nvHarr;", [10500]); ("nvinfin;", [10718]);
    ("nvlArr;", [10498]); ("nvle;", [8804; 8402]); ("nvlt;", [60; 8402]);
    ("nvltrie;", [8884; 8402]); ("nvrArr;", [10499]);
    ("nvrtrie;", [8885; 8402]); ("nvsim;", [8764; 8402]);
    ("nwarhk;", [10531]); ("nwArr;", [8662]); ("nwarr;", [8598]);
    ("nwarrow;", [8598]); ("nwnear;", [10535]); ("Oacute", [211]);
    ("oacute", [243]); ("Oacute;", [211]); ("oacute;", [243]);
    ("oast;", [8859]); ("ocir;", [8858]); ("Ocirc", [212]); ("ocirc", [244]);
    ("Ocirc;", [212]); ("ocirc;", [244]); ("Ocy;", [1054]); ("ocy;", [1086]);
    ("odash;", [8861]); ("Odblac;", [336]); ("odblac;", [337]);
    ("odiv;", [10808]); ("odot;", [8857]); ("odsold;", [10684]);
    ("OElig;", [338]); ("oelig;", [339]); ("ofcir;", [10687]);
    ("Ofr;", [120082]); ("ofr;", [120108]); ("ogon;", [731]);
    ("Ograve", [210]); ("ograve", [242]); ("Ograve;", [210]);
    ("ograve;", [242]); ("ogt;", [10689]); ("ohbar;", [10677]);
    ("ohm;", [937]); ("oint;", [8750]); ("olarr;", [8634]);
    ("olcir;", [10686]); ("olcross;", [10683]); ("oline;", [8254]);
    ("olt;", [10688]); ("Omacr;", [332]); ("omacr;", [333]);
    ("Omega;", [937]); ("omega;", [969]); ("Omicron;", [927]);
    ("omicron;", [959]); ("omid;", [10678]); ("ominus;", [8854]);
    ("Oopf;", [120134]); ("oopf;", [120160]); ("opar;", [10679]);
    ("OpenCurlyDoubleQuote;", [8220]); ("OpenCurlyQuote;", [8216]);
    ("operp;", [10681]); ("oplus;", [8853]); ("Or;", [10836]);
    ("or;", [8744]); ("orarr;", [8635]); ("ord;", [10845]);
    ("order;", [8500]); ("orderof;", [8500]); ("ordf", [170]);
    ("ordf;", [170]); ("ordm", [186]); ("ordm;", [186]); ("origof;", [8886]);
    ("oror;", [10838]); ("orslope;", [10839]); ("orv;", [10843]);
    ("oS;", [9416]); ("Oscr;", [119978]); ("oscr;", [8500]);
    ("Oslash", [216]); ("oslash", [248]); ("Oslash;", [216]);
    ("oslash;", [248]); ("osol;", [8856]); ("Otilde", [213]);
    ("otilde", [245]); ("Otilde;", [213]); ("otilde;", [245]);
    ("Otimes;", [10807]); ("otimes;", [8855]); ("otimesas;", [10806]);
    ("Ouml", [214]); ("ouml", [246]); ("Ouml;", [214]); ("ouml;", [246]);
    ("ovbar;", [9021]); ("OverBar;", [8254]); ("OverBrace;", [9182]);
    ("OverBracket;", [9140]); ("OverParenthesis;", [9180]); ("par;", [8741]);
    ("para", [182]); ("para;", [182]); ("parallel;", [8741]);
    ("parsim;", [10995]); ("parsl;", [11005]); ("part;", [8706]);
    ("PartialD;", [8706]); ("Pcy;", [1055]); ("pcy;", [1087]);
    ("percnt;", [37]); ("period;", [46]); ("permil;", [8240]);
    ("perp;", [8869]); ("pertenk;", [8241]); ("Pfr;", [120083]);
    ("pfr;", [120109]); ("Phi;", [934]); ("phi;", [966]); ("phiv;", [981]);
    ("phmmat;", [8499]); ("phone;", [9742]); ("Pi;", [928]); ("pi;", [960]);
    ("pitchfork;", [8916]); ("piv;", [982]); ("planck;", [8463]);
    ("planckh;", [8462]); ("plankv;", [8463]); ("plus;", [43]);
    ("plusacir;", [10787]); ("plusb;", [8862]); ("pluscir;", [10786]);
    ("plusdo;", [8724]); ("plusdu;", [10789]); ("pluse;", [10866]);
    ("PlusMinus;", [177]); ("plusmn", [177]); ("plusmn;", [177]);
    ("plussim;", [10790]); ("plustwo;", [10791]); ("pm;", [177]);
    ("Poincareplane;", [8460]); ("pointint;", [10773]); ("Popf;", [8473]);
    ("popf;", [120161]); ("pound", [163]); ("pound;", [163]);
    ("Pr;", [10939]); ("pr;", [8826]); ("prap;", [10935]); ("prcue;", [8828]);
    ("prE;", [10931]); ("pre;", [10927]); ("prec;", [8826]);
    ("precapprox;", [10935]); ("preccurlyeq;", [8828]); ("Precedes;", [8826]);
    ("PrecedesEqual;", [10927]); ("PrecedesSlantEqual;", [8828]);
    ("PrecedesTilde;", [8830]); ("preceq;", [10927]);
    ("precnapprox;", [10937]); ("precneqq;", [10933]); ("precnsim;", [8936]);
    ("precsim;", [8830]); ("Prime;", [8243]); ("prime;", [8242]);
    ("primes;", [8473]); ("prnap;", [10937]); ("prnE;", [10933]);
    ("prnsim;", [8936]); ("prod;", [8719]); ("Product;", [8719]);
    ("profalar;", [9006]); ("profline;", [8978]); ("profsurf;", [8979]);
    ("prop;", [8733]); ("Proportion;", [8759]); ("Proportional;", [8733]);
    ("propto;", [8733]); ("prsim;", [8830]); ("prurel;", [8880]);
    ("Pscr;", [119979]); ("pscr;", [120005]); ("Psi;", [936]);
    ("psi;", [968]); ("puncsp;", [8200]); ("Qfr;", [120084]);
    ("qfr;", [120110]); ("qint;", [10764]); ("Qopf;", [8474]);
    ("qopf;", [120162]); ("qprime;", [8279]); ("Qscr;", [119980]);
    ("qscr;", [120006]); ("quaternions;", [8461]); ("quatint;", [10774]);
    ("quest;", [63]); ("questeq;", [8799]); ("QUOT", [34]); ("quot", [34]);
    ("QUOT;", [34]); ("quot;", [34]); ("rAarr;", [8667]);
    ("race;", [8765; 817]); ("Racute;", [340]); ("racute;", [341]);
    ("radic;", [8730]); ("raemptyv;", [10675]); ("Rang;", [10219]);
    ("rang;", [10217]); ("rangd;", [10642]); ("range;", [10661]);
    ("rangle;", [10217]); ("raquo", [187]); ("raquo;", [187]);
    ("Rarr;", [8608]); ("rArr;", [8658]); ("rarr;", [8594]);
    ("rarrap;", [10613]); ("rarrb;", [8677]); ("rarrbfs;", [10528]);
    ("rarrc;", [10547]); ("rarrfs;", [10526]); ("rarrhk;", [8618]);
    ("rarrlp;", [8620]); ("rarrpl;", [10565]); ("rarrsim;", [10612]);
    ("Rarrtl;", [10518]); ("rarrtl;", [8611]); ("rarrw;", [8605]);
    ("rAtail;", [10524]); ("ratail;", [10522]); ("ratio;", [8758]);
    ("rationals;", [8474]); ("RBarr;", [10512]); ("rBarr;", [10511]);
    ("rbarr;", [10509]); ("rbbrk;", [10099]); ("rbrace;", [125]);
    ("rbrack;", [93]); ("rbrke;", [10636]); ("rbrksld;", [10638]);
    ("rbrkslu;", [10640]); ("Rcaron;", [344]); ("rcaron;", [345]);
    ("Rcedil;", [342]); ("rcedil;", [343]); ("rceil;", [8969]);
    ("rcub;", [125]); ("Rcy;", [1056]); ("rcy;", [1088]); ("rdca;", [10551]);
    ("rdldhar;", [10601]); ("rdquo;", [8221]); ("rdquor;", [8221]);
    ("rdsh;", [8627]); ("Re;", [8476]); ("real;", [8476]);
    ("realine;", [8475]); ("realpart;", [8476]); ("reals;", [8477]);
    ("rect;", [9645]); ("REG", [174]); ("reg", [174]); ("REG;", [174]);
    ("reg;", [174]); ("ReverseElement;", [8715]);
    ("ReverseEquilibrium;", [8651]); ("ReverseUpEquilibrium;", [10607]);
    ("rfisht;", [10621]); ("rfloor;", [8971]); ("Rfr;", [8476]);
    ("rfr;", [120111]); ("rHar;", [10596]); ("rhard;", [8641]);
    ("rharu;", [8640]); ("rharul;", [10604]); ("Rho;", [929]);
    ("rho;", [961]); ("rhov;", [1009]); ("RightAngleBracket;", [10217]);
    ("RightArrow;", [8594]); ("Rightarrow;", [8658]); ("rightarrow;", [8594]);
    ("RightArrowBar;", [8677]); ("RightArrowLeftArrow;", [8644]);
    ("rightarrowtail;", [8611]); ("RightCeiling;", [8969]);
    ("RightDoubleBracket;", [10215]); ("RightDownTeeVector;", [10589]);
    ("RightDownVector;", [8642]); ("RightDownVectorBar;", [10581]);
    ("RightFloor;", [8971]); ("rightharpoondown;", [8641]);
    ("rightharpoonup;", [8640]); ("rightleftarrows;", [8644]);
    ("rightleftharpoons;", [8652]); ("rightrightarrows;", [8649]);
    ("rightsquigarrow;", [8605]); ("RightTee;", [8866]);
    ("RightTeeArrow;", [8614]); ("RightTeeVector;", [10587]);
    ("rightthreetimes;", [8908]); ("RightTriangle;", [8883]);
    ("RightTriangleBar;", [10704]); ("RightTriangleEqual;", [8885]);
    ("RightUpDownVector;", [10575]); ("RightUpTeeVector;", [10588]);
    ("RightUpVector;", [8638]); ("RightUpVectorBar;", [10580]);
    ("RightVector;", [8640]); ("RightVectorBar;", [10579]); ("ring;", [730]);
    ("risingdotseq;", [8787]); ("rlarr;", [8644]); ("rlhar;", [8652]);
    ("rlm;", [8207]); ("rmoust;", [9137]); ("rmoustache;", [9137]);
    ("rnmid;", [10990]); ("roang;", [10221]); ("roarr;", [8702]);
    ("robrk;", [10215]); ("ropar;", [10630]); ("Ropf;", [8477]);
    ("ropf;", [120163]); ("roplus;", [10798]); ("rotimes;", [10805]);
    ("RoundImplies;", [10608]); ("rpar;", [41]); ("rpargt;", [10644]);
    ("rppolint;", [10770]); ("rrarr;", [8649]); ("Rrightarrow;", [8667]);
    ("rsaquo;", [8250]); ("Rscr;", [8475]); ("rscr;", [120007]);
    ("Rsh;", [8625]); ("rsh;", [8625]); ("rsqb;", [93]); ("rsquo;", [8217]);
    ("rsquor;", [8217]); ("rthree;", [8908]); ("rtimes;", [8906]);
    ("rtri;", [9657]); ("rtrie;", [8885]); ("rtrif;", [9656]);
    ("rtriltri;", [10702]); ("RuleDelayed;", [10740]); ("ruluhar;", [10600]);
    ("rx;", [8478]); ("Sacute;", [346]); ("sacute;", [347]);
    ("sbquo;", [8218]); ("Sc;", [10940]); ("sc;", [8827]); ("scap;", [10936]);
    ("Scaron;", [352]); ("scaron;", [353]); ("sccue;", [8829]);
    ("scE;", [10932]); ("sce;", [10928]); ("Scedil;", [350]);
    ("scedil;", [351]); ("Scirc;", [348]); ("scirc;", [349]);
    ("scnap;", [10938]); ("scnE;", [10934]); ("scnsim;", [8937]);
    ("scpolint;", [10771]); ("scsim;", [8831]); ("Scy;", [1057]);
    ("scy;", [1089]); ("sdot;", [8901]); ("sdotb;", [8865]);
    ("sdote;", [10854]); ("searhk;", [10533]); ("seArr;", [8664]);
    ("searr;", [8600]); ("searrow;", [8600]); ("sect", [167]);
    ("sect;", [167]); ("semi;", [59]); ("seswar;", [10537]);
    ("setminus;", [8726]); ("setmn;", [8726]); ("sext;", [10038]);
    ("Sfr;", [120086]); ("sfr;", [120112]); ("sfrown;", [8994]);
    ("sharp;", [9839]); ("SHCHcy;", [1065]); ("shchcy;", [1097]);
    ("SHcy;", [1064]); ("shcy;", [1096]); ("ShortDownArrow;", [8595]);
    ("ShortLeftArrow;", [8592]); ("shortmid;", [8739]);
    ("shortparallel;", [8741]); ("ShortRightArrow;", [8594]);
    ("ShortUpArrow;", [8593]); ("shy", [173]); ("shy;", [173]);
    ("Sigma;", [931]); ("sigma;", [963]); ("sigmaf;", [962]);
    ("sigmav;", [962]); ("sim;", [8764]); ("simdot;", [10858]);
    ("sime;", [8771]); ("simeq;", [8771]); ("simg;", [10910]);
    ("simgE;", [10912]); ("siml;", [10909]); ("simlE;", [10911]);
    ("simne;", [8774]); ("simplus;", [10788]); ("simrarr;", [10610]);
    ("slarr;", [8592]); ("SmallCircle;", [8728]); ("smallsetminus;", [8726]);
    ("smashp;", [10803]); ("smeparsl;", [10724]); ("smid;", [8739]);
    ("smile;", [8995]); ("smt;", [10922]); ("smte;", [10924]);
    ("smtes;", [10924; 65024]); ("SOFTcy;", [1068]); ("softcy;", [1100]);
    ("sol;", [47]); ("solb;", [10692]); ("solbar;", [9023]);
    ("Sopf;", [120138]); ("sopf;", [120164]); ("spades;", [9824]);
    ("spadesuit;", [9824]); ("spar;", [8741]); ("sqcap;", [8851]);
    ("sqcaps;", [8851; 65024]); ("sqcup;", [8852]);
    ("sqcups;", [8852; 65024]); ("Sqrt;", [8730]); ("sqsub;", [8847]);
    ("sqsube;", [8849]); ("sqsubset;", [8847]); ("sqsubseteq;", [8849]);
    ("sqsup;", [8848]); ("sqsupe;", [8850]); ("sqsupset;", [8848]);
    ("sqsupseteq;", [8850]); ("squ;", [9633]); ("Square;", [9633]);
    ("square;", [9633]); ("SquareIntersection;", [8851]);
    ("SquareSubset;", [8847]); ("SquareSubsetEqual;", [8849]);
    ("SquareSuperset;", [8848]); ("SquareSupersetEqual;", [8850]);
    ("SquareUnion;", [8852]); ("squarf;", [9642]); ("squf;", [9642]);
    ("srarr;", [8594]); ("Sscr;", [119982]); ("sscr;", [120008]);
    ("ssetmn;", [8726]); ("ssmile;", [8995]); ("sstarf;", [8902]);
    ("Star;", [8902]); ("star;", [9734]); ("starf;", [9733]);
    ("straightepsilon;", [1013]); ("straightphi;", [981]); ("strns;", [175]);
    ("Sub;", [8912]); ("sub;", [8834]); ("subdot;", [10941]);
    ("subE;", [10949]); ("sube;", [8838]); ("subedot;", [10947]);
    ("submult;", [10945]); ("subnE;", [10955]); ("subne;", [8842]);
    ("subplus;", [10943]); ("subrarr;", [10617]); ("Subset;", [8912]);
    ("subset;", [8834]); ("subseteq;", [8838]); ("subseteqq;", [10949]);
    ("SubsetEqual;", [8838]); ("subsetneq;", [8842]);
    ("subsetneqq;", [10955]); ("subsim;", [10951]); ("subsub;", [10965]);
    ("subsup;", [10963]); ("succ;", [8827]); ("succapprox;", [10936]);
    ("succcurlyeq;", [8829]); ("Succeeds;", [8827]);
    ("SucceedsEqual;", [10928]); ("SucceedsSlantEqual;", [8829]);
    ("SucceedsTilde;", [8831]); ("succeq;", [10928]);
    ("succnapprox;", [10938]); ("succneqq;", [10934]); ("succnsim;", [8937]);
    ("succsim;", [8831]); ("SuchThat;", [8715]); ("Sum;", [8721]);
    ("sum;", [8721]); ("sung;", [9834]); ("sup1", [185]); ("sup1;", [185]);
    ("sup2", [178]); ("sup2;", [178]); ("sup3", [179]); ("sup3;", [179]);
    ("Sup;", [8913]); ("sup;", [8835]); ("supdot;", [10942]);
    ("supdsub;", [10968]); ("supE;", [10950]); ("supe;", [8839]);
    ("supedot;", [10948]); ("Superset;", [8835]); ("SupersetEqual;", [8839]);
    ("suphsol;", [10185]); ("suphsub;", [10967]); ("suplarr;", [10619]);
    ("supmult;", [10946]); ("supnE;", [10956]); ("supne;", [8843]);
    ("supplus;", [10944]); ("Supset;", [8913]); ("supset;", [8835]);
    ("supseteq;", [8839]); ("supseteqq;", [10950]); ("supsetneq;", [8843]);
    ("supsetneqq;", [10956]); ("supsim;", [10952]); ("supsub;", [10964]);
    ("supsup;", [10966]); ("swarhk;", [10534]); ("swArr;", [8665]);
    ("swarr;", [8601]); ("swarrow;", [8601]); ("swnwar;", [10538]);
    ("szlig", [223]); ("szlig;", [223]); ("Tab;", [9]); ("target;", [8982]);
    ("Tau;", [932]); ("tau;", [964]); ("tbrk;", [9140]); ("Tcaron;", [356]);
    ("tcaron;", [357]); ("Tcedil;", [354]); ("tcedil;", [355]);
    ("Tcy;", [1058]); ("tcy;", [1090]); ("tdot;", [8411]);
    ("telrec;", [8981]); ("Tfr;", [120087]); ("tfr;", [120113]);
    ("there4;", [8756]); ("Therefore;", [8756]); ("therefore;", [8756]);
    ("Theta;", [920]); ("theta;", [952]); ("thetasym;", [977]);
    ("thetav;", [977]); ("thickapprox;", [8776]); ("thicksim;", [8764]);
    ("ThickSpace;", [8287; 8202]); ("thinsp;", [8201]);
    ("ThinSpace;", [8201]); ("thkap;", [8776]); ("thksim;", [8764]);
    ("THORN", [222]); ("thorn", [254]); ("THORN;", [222]); ("thorn;", [254]);
    ("Tilde;", [8764]); ("tilde;", [732]); ("TildeEqual;", [8771]);
    ("TildeFullEqual;", [8773]); ("TildeTilde;", [8776]); ("times", [215]);
    ("times;", [215]); ("timesb;", [8864]); ("timesbar;", [10801]);
    ("timesd;", [10800]); ("tint;", [8749]); ("toea;", [10536]);
    ("top;", [8868]); ("topbot;", [9014]); ("topcir;", [10993]);
    ("Topf;", [120139]); ("topf;", [120165]); ("topfork;", [10970]);
    ("tosa;", [10537]); ("tprime;", [8244]); ("TRADE;", [8482]);
    ("trade;", [8482]); ("triangle;", [9653]); ("triangledown;", [9663]);
    ("triangleleft;", [9667]); ("trianglelefteq;", [8884]);
    ("triangleq;", [8796]); ("triangleright;", [9657]);
    ("trianglerighteq;", [8885]); ("tridot;", [9708]); ("trie;", [8796]);
    ("triminus;", [10810]); ("TripleDot;", [8411]); ("triplus;", [10809]);
    ("trisb;", [10701]); ("tritime;", [10811]); ("trpezium;", [9186]);
    ("Tscr;", [119983]); ("tscr;", [120009]); ("TScy;", [1062]);
    ("tscy;", [1094]); ("TSHcy;", [1035]); ("tshcy;", [1115]);
    ("Tstrok;", [358]); ("tstrok;", [359]); ("twixt;", [8812]);
    ("twoheadleftarrow;", [8606]); ("twoheadrightarrow;", [8608]);
    ("Uacute", [218]); ("uacute", [250]); ("Uacute;", [218]);
    ("uacute;", [250]); ("Uarr;", [8607]); ("uArr;", [8657]);
    ("uarr;", [8593]); ("Uarrocir;", [10569]); ("Ubrcy;", [1038]);
    ("ubrcy;", [1118]); ("Ubreve;", [364]); ("ubreve;", [365]);
    ("Ucirc", [219]); ("ucirc", [251]); ("Ucirc;", [219]); ("ucirc;", [251]);
    ("Ucy;", [1059]); ("ucy;", [1091]); ("udarr;", [8645]);
    ("Udblac;", [368]); ("udblac;", [369]); ("udhar;", [10606]);
    ("ufisht;", [10622]); ("Ufr;", [120088]); ("ufr;", [120114]);
    ("Ugrave", [217]); ("ugrave", [249]); ("Ugrave;", [217]);
    ("ugrave;", [249]); ("uHar;", [10595]); ("uharl;", [8639]);
    ("uharr;", [8638]); ("uhblk;", [9600]); ("ulcorn;", [8988]);
    ("ulcorner;", [8988]); ("ulcrop;", [8975]); ("ultri;", [9720]);
    ("Umacr;", [362]); ("umacr;", [363]); ("uml", [168]); ("uml;", [168]);
    ("UnderBar;", [95]); ("UnderBrace;", [9183]); ("UnderBracket;", [9141]);
    ("UnderParenthesis;", [9181]); ("Union;", [8899]); ("UnionPlus;", [8846]);
    ("Uogon;", [370]); ("uogon;", [371]); ("Uopf;", [120140]);
    ("uopf;", [120166]); ("UpArrow;", [8593]); ("Uparrow;", [8657]);
    ("uparrow;", [8593]); ("UpArrowBar;", [10514]);
    ("UpArrowDownArrow;", [8645]); ("UpDownArrow;", [8597]);
    ("Updownarrow;", [8661]); ("updownarrow;", [8597]);
    ("UpEquilibrium;", [10606]); ("upharpoonleft;", [8639]);
    ("upharpoonright;", [8638]); ("uplus;", [8846]);
    ("UpperLeftArrow;", [8598]); ("UpperRightArrow;", [8599]);
    ("Upsi;", [978]); ("upsi;", [965]); ("upsih;", [978]);
    ("Upsilon;", [933]); ("upsilon;", [965]); ("UpTee;", [8869]);
    ("UpTeeArrow;", [8613]); ("upuparrows;", [8648]); ("urcorn;", [8989]);
    ("urcorner;", [8989]); ("urcrop;", [8974]); ("Uring;", [366]);
    ("uring;", [367]); ("urtri;", [9721]); ("Uscr;", [119984]);
    ("uscr;", [120010]); ("utdot;", [8944]); ("Utilde;", [360]);
    ("utilde;", [361]); ("utri;", [9653]); ("utrif;", [9652]);
    ("uuarr;", [8648]); ("Uuml", [220]); ("uuml", [252]); ("Uuml;", [220]);
    ("uuml;", [252]); ("uwangle;", [10663]); ("vangrt;", [10652]);
    ("varepsilon;", [1013]); ("varkappa;", [1008]); ("varnothing;", [8709]);
    ("varphi;", [981]); ("varpi;", [982]); ("varpropto;", [8733]);
    ("vArr;", [8661]); ("varr;", [8597]); ("varrho;", [1009]);
    ("varsigma;", [962]); ("varsubsetneq;", [8842; 65024]);
    ("varsubsetneqq;", [10955; 65024]); ("varsupsetneq;", [8843; 65024]);
    ("varsupsetneqq;", [10956; 65024]); ("vartheta;", [977]);
    ("vartriangleleft;", [8882]); ("vartriangleright;", [8883]);
    ("Vbar;", [10987]); ("vBar;", [10984]); ("vBarv;", [10985]);
    ("Vcy;", [1042]); ("vcy;", [1074]); ("VDash;", [8875]);
    ("Vdash;", [8873]); ("vDash;", [8872]); ("vdash;", [8866]);
    ("Vdashl;", [10982]); ("Vee;", [8897]); ("vee;", [8744]);
    ("veebar;", [8891]); ("veeeq;", [8794]); ("vellip;", [8942]);
    ("Verbar;", [8214]); ("verbar;", [124]); ("Vert;", [8214]);
    ("vert;", [124]); ("VerticalBar;", [8739]); ("VerticalLine;", [124]);
    ("VerticalSeparator;", [10072]); ("VerticalTilde;", [8768]);
    ("VeryThinSpace;", [8202]); ("Vfr;", [120089]); ("vfr;", [120115]);
    ("vltri;", [8882]); ("vnsub;", [8834; 8402]); ("vnsup;", [8835; 8402]);
    ("Vopf;", [120141]); ("vopf;", [120167]); ("vprop;", [8733]);
    ("vrtri;", [8883]); ("Vscr;", [119985]); ("vscr;", [120011]);
    ("vsubnE;", [10955; 65024]); ("vsubne;", [8842; 65024]);
    ("vsupnE;", [10956; 65024]); ("vsupne;", [8843; 65024]);
    ("Vvdash;", [8874]); ("vzigzag;", [10650]); ("Wcirc;", [372]);
    ("wcirc;", [373]); ("wedbar;", [10847]); ("Wedge;", [8896]);
    ("wedge;", [8743]); ("wedgeq;", [8793]); ("weierp;", [8472]);
    ("Wfr;", [120090]); ("wfr;", [120116]); ("Wopf;", [120142]);
    ("wopf;", [120168]); ("wp;", [8472]); ("wr;", [8768]);
    ("wreath;", [8768]); ("Wscr;", [119986]); ("wscr;", [120012]);
    ("xcap;", [8898]); ("xcirc;", [9711]); ("xcup;", [8899]);
    ("xdtri;", [9661]); ("Xfr;", [120091]); ("xfr;", [120117]);
    ("xhArr;", [10234]); ("xharr;", [10231]); ("Xi;", [926]); ("xi;", [958]);
    ("xlArr;", [10232]); ("xlarr;", [10229]); ("xmap;", [10236]);
    ("xnis;", [8955]); ("xodot;", [10752]); ("Xopf;", [120143]);
    ("xopf;", [120169]); ("xoplus;", [10753]); ("xotime;", [10754]);
    ("xrArr;", [10233]); ("xrarr;", [10230]); ("Xscr;", [119987]);
    ("xscr;", [120013]); ("xsqcup;", [10758]); ("xuplus;", [10756]);
    ("xutri;", [9651]); ("xvee;", [8897]); ("xwedge;", [8896]);
    ("Yacute", [221]); ("yacute", [253]); ("Yacute;", [221]);
    ("yacute;", [253]); ("YAcy;", [1071]); ("yacy;", [1103]);
    ("Ycirc;", [374]); ("ycirc;", [375]); ("Ycy;", [1067]); ("ycy;", [1099]);
    ("yen", [165]); ("yen;", [165]); ("Yfr;", [120092]); ("yfr;", [120118]);
    ("YIcy;", [1031]); ("yicy;", [1111]); ("Yopf;", [120144]);
    ("yopf;", [120170]); ("Yscr;", [119988]); ("yscr;", [120014]);
    ("YUcy;", [1070]); ("yucy;", [1102]); ("yuml", [255]); ("Yuml;", [376]);
    ("yuml;", [255]); ("Zacute;", [377]); ("zacute;", [378]);
    ("Zcaron;", [381]); ("zcaron;", [382]); ("Zcy;", [1047]);
    ("zcy;", [1079]); ("Zdot;", [379]); ("zdot;", [380]); ("zeetrf;", [8488]);
    ("ZeroWidthSpace;", [8203]); ("Zeta;", [918]); ("zeta;", [950]);
    ("Zfr;", [8488]); ("zfr;", [120119]); ("ZHcy;", [1046]);
    ("zhcy;", [1078]); ("zigrarr;", [8669]); ("Zopf;", [8484]);
    ("zopf;", [120171]); ("Zscr;", [119989]); ("zscr;", [120015]);
    ("zwj;", [8205]); ("zwnj;", [8204])
  ]%string.

(** [html._invalid_charrefs] *)
Definition invalid_charrefs : list (N * str) :=
  [
    (0, [65533]); (13, [13]); (128, [8364]); (129, [129]); (130, [8218]);
    (131, [402]); (132, [8222]); (133, [8230]); (134, [8224]); (135, [8225]);
    (136, [710]); (137, [8240]); (138, [352]); (139, [8249]); (140, [338]);
    (141, [141]); (142, [381]); (143, [143]); (144, [144]); (145, [8216]);
    (146, [8217]); (147, [8220]); (148, [8221]); (149, [8226]); (150, [8211]);
    (151, [8212]); (152, [732]); (153, [8482]); (154, [353]); (155, [8250]);
    (156, [339]); (157, [157]); (158, [382]); (159, [376])
  ].

(** [html._invalid_codepoints] *)
Definition invalid_codepoints : list N :=
  [
    0x1; 0x2; 0x3; 0x4; 0x5; 0x6; 0x7; 0x8; 0xb; 0xe; 0xf; 0x10; 0x11; 0x12;
    0x13; 0x14; 0x15; 0x16; 0x17; 0x18; 0x19; 0x1a; 0x1b; 0x1c; 0x1d; 0x1e;
    0x1f; 0x7f; 0x80; 0x81; 0x82; 0x83; 0x84; 0x85; 0x86; 0x87; 0x88; 0x89;
    0x8a; 0x8b; 0x8c; 0x8d; 0x8e; 0x8f; 0x90; 0x91; 0x92; 0x93; 0x94; 0x95;
    0x96; 0x97; 0x98; 0x99; 0x9a; 0x9b; 0x9c; 0x9d; 0x9e; 0x9f; 0xfdd0;
    0xfdd1; 0xfdd2; 0xfdd3; 0xfdd4; 0xfdd5; 0xfdd6; 0xfdd7; 0xfdd8; 0xfdd9;
    0xfdda; 0xfddb; 0xfddc; 0xfddd; 0xfdde; 0xfddf; 0xfde0; 0xfde1; 0xfde2;
    0xfde3; 0xfde4; 0xfde5; 0xfde6; 0xfde7; 0xfde8; 0xfde9; 0xfdea; 0xfdeb;
    0xfdec; 0xfded; 0xfdee; 0xfdef; 0xfffe; 0xffff; 0x1fffe; 0x1ffff; 0x2fffe;
    0x2ffff; 0x3fffe; 0x3ffff; 0x4fffe; 0x4ffff; 0x5fffe; 0x5ffff; 0x6fffe;
    0x6ffff; 0x7fffe; 0x7ffff; 0x8fffe; 0x8ffff; 0x9fffe; 0x9ffff; 0xafffe;
    0xaffff; 0xbfffe; 0xbffff; 0xcfffe; 0xcffff; 0xdfffe; 0xdffff; 0xefffe;
    0xeffff; 0xffffe; 0xfffff; 0x10fffe; 0x10ffff
  ].

Fixpoint html5_get (table : list (string * str)) (name : str) : option str :=
  match table with
  | [] => None
  | (k, v) :: table' =>
      if str_eqb (py k) name then Some v else html5_get table' name
  end.

Fixpoint charref_get (table : list (N * str)) (num : N) : option str :=
  match table with
  | [] => None
  | (k, v) :: table' => if N.eqb k num then Some v else charref_get table' num
  end.

(** [s.rstrip(';')] *)
Definition rstrip_semicolon (s : str) : str :=
  rev (drop_while (N.eqb (ch ";")) (rev s)).

(** The loop of [_replace_charref] that looks for the longest name that is a
    prefix of [s], for [x] from [len(s)-1] down to 2. *)
Fixpoint longest_name (x : nat) (s : str) : option str :=
  match x with
  | S (S _ as x') =>
      match html5_get html5 (firstn x s) with
      | Some v => Some (v ++ skipn x s)
      | None => longest_name x' s
      end
  | _ => None
  end.

Definition replace_numeric (num : N) : str :=
  match charref_get invalid_charrefs num with
  | Some v => v
  | None =>
      if (in_range 0xD800 0xDFFF num || N.ltb 0x10FFFF num)%bool
      then [0xFFFD]
      else if mem num invalid_codepoints then []
      else [num]
  end.

(** [html._replace_charref], on [s = m.group(1)].  A decimal reference
    goes through [int()], which raises when it has more digits than the
    limit; the digits of a hexadecimal one are read without a limit, as
    [int(s, 16)] does.  The pattern always fills the group, with a
    number sign followed by a digit or with a name, so that the indexing
    errors cannot happen. *)
Definition replace_charref (m : match_obj) : result str :=
  match group 1 (m_groups m) with
  | None => Err TypeError
  | Some s =>
      match s with
      | [] => Err (OtherException (py "IndexError"))
      | c0 :: t =>
          if N.eqb c0 (ch "#") then
            match t with
            | c1 :: t' =>
                if mem c1 (py "xX")
                then Ok (replace_numeric (number_of 16 (rstrip_semicolon t')))
                else
                  match py_int (rstrip_semicolon t) with
                  | Ok num => Ok (replace_numeric (Z.to_N num))
                  | Err e => Err e
                  end
            | [] => Err (OtherException (py "IndexError"))
            end
          else
            match html5_get html5 s with
            | Some v => Ok v
            | None =>
                match longest_name (length s - 1) s with
                | Some v => Ok v
                | None => Ok (ch "&" :: s)
                end
            end
      end
  end.

Definition ascii_digit (c : char) : bool := in_range (ch "0") (ch "9") c.

Definition ascii_hex (c : char) : bool :=
  (ascii_digit c || in_range (ch "a") (ch "f") c
   || in_range (ch "A") (ch "F") c)%bool.

(** [html._charref]:
    [&(#[0-9]+;?|#[xX][0-9a-fA-F]+;?|[^\t\n\f <&#;]{1,32};?)] *)
Definition charref_re : regex :=
  Cat (Lit (ch "&"))
    (Grp 1
       (Alt (Cat (Lit (ch "#")) (Cat (Plus (Cls ascii_digit)) (Opt (Lit (ch ";")))))
       (Alt (Cat (Lit (ch "#"))
               (Cat (OneOf (py "xX"))
                  (Cat (Plus (Cls ascii_hex)) (Opt (Lit (ch ";"))))))
            (Cat (Rep1 32 (NoneOf ([9; 10; 12] ++ py " <&#;")))
               (Opt (Lit (ch ";"))))))).

(** [html.unescape(s)] *)
Definition unescape (s : str) : result str :=
  if negb (mem (ch "&") s) then Ok s
  else re_sub_try charref_re replace_charref s.

End Html.

(** ** JSON values *)

(** What [json.loads] builds.  A float is known by the two things this
    program does with one: it is tested for truth, and [json.dumps] writes
    it back as text.  The members of an object are listed once per key, in
    the order of the dict. *)
Inductive json : Type :=
| JNull
| JBool (b : bool)
| JInt (z : Z)
| JFloat (text : str) (nonzero : bool)
| JStr (s : str)
| JArr (items : list json)
| JObj (members : list (str * json)).


(** [bool(v)] *)
Definition truthy (v : json) : bool :=
  match v with
  | JNull => false
  | JBool b => b
  | JInt z => negb (Z.eqb z 0)
  | JFloat _ nonzero => nonzero
  | JStr s => match s with [] => false | _ => true end
  | JArr l => match l with [] => false | _ => true end
  | JObj o => match o with [] => false | _ => true end
  end.

Fixpoint lookup (key : str) (o : list (str * json)) : option json :=
  match o with
  | [] => None
  | (k, v) :: o' => if str_eqb k key then Some v else lookup key o'
  end.

(** [v.get(key, default)]: only a dict has the method. *)
Definition py_get (v : json) (key : string) (default : json) : result json :=
  match v with
  | JObj o =>
      match lookup (py key) o with
      | Some x => Ok x
      | None => Ok default
      end
  | _ => Err AttributeError
  end.

(** [v[key]] on a dict *)
Definition py_item (v : json) (key : string) : result json :=
  match v with
  | JObj o =>
      match lookup (py key) o with
      | Some x => Ok x
      | None => Err KeyError
      end
  | _ => Err TypeError
  end.

(** One character of a JSON string literal with [ensure_ascii]. *)
Definition escape_char (c : char) : str :=
  if N.eqb c dquote then [ch "\"; dquote]
  else if N.eqb c (ch "\") then [ch "\"; ch "\"]
  else if N.eqb c 10%N then py "\n"
  else if N.eqb c 13%N then py "\r"
  else if N.eqb c 9%N then py "\t"
  else if N.eqb c 8%N then py "\b"
  else if N.eqb c 12%N then py "\f"
  else if in_range 0x20%N 0x7e%N c then [c]
  else if N.ltb c 0x10000%N then py "\u" ++ hex_fixed true 4 c
  else
    let n := (c - 0x10000)%N in
    py "\u" ++ hex_fixed true 4 (0xd800 + (n / 1024) mod 1024)%N ++
    py "\u" ++ hex_fixed true 4 (0xdc00 + n mod 1024)%N.

Definition encode_string (s : str) : str :=
  dquote :: flat_map escape_char s ++ [dquote].

(** The line break and indentation that [json.dumps] puts before an item
    at nesting depth [level]; nothing without [indent]. *)
Definition newline_indent (indent : option nat) (level : nat) : str :=
  match indent with
  | None => []
  | Some n => newline :: repeat (ch " ") (n * level)
  end.

Definition item_separator (indent : option nat) (level : nat) : str :=
  match indent with
  | None => py ", "
  | Some _ => ch "," :: newline_indent indent level
  end.

(** [json.dumps(v, indent=indent)] at nesting depth [level]. *)
Fixpoint dumps_at (indent : option nat) (level : nat) (v : json) : str :=
  match v with
  | JNull => py "null"
  | JBool true => py "true"
  | JBool false => py "false"
  | JInt z => str_of_Z z
  | JFloat text _ => text
  | JStr s => encode_string s
  | JArr [] => py "[]"
  | JArr (x :: l) =>
      py "[" ++ newline_indent indent (S level) ++
      dumps_at indent (S level) x ++
      (fix rest (l : list json) : str :=
         match l with
         | [] => []
         | y :: l' =>
             item_separator indent (S level) ++
             dumps_at indent (S level) y ++ rest l'
         end) l ++
      newline_indent indent level ++ py "]"
  | JObj [] => py "{}"
  | JObj ((k, x) :: o) =>
      py "{" ++ newline_indent indent (S level) ++
      encode_string k ++ py ": " ++ dumps_at indent (S level) x ++
      (fix rest (o : list (str * json)) : str :=
         match o with
         | [] => []
         | (k', y) :: o' =>
             item_separator indent (S level) ++
             encode_string k' ++ py ": " ++
             dumps_at indent (S level) y ++ rest o'
         end) o ++
      newline_indent indent level ++ py "}"
  end.

Definition dumps (indent : option nat) (v : json) : str := dumps_at indent 0 v.

(** * The script *)

(** A sequence of patterns. *)
Fixpoint Seq (rs : list regex) : regex :=
  match rs with
  | [] => Eps
  | r :: rs' => Cat r (Seq rs')
  end.

(** ** parse_url *)

Record url_components : Type := UrlComponents {
  organization : str;
  project : str;
  work_item_id : Z
}.

(** [https?://dev\.azure\.com/([^/]+)/([^/]+)/_workitems/(?:edit|view)/(\d+)] *)
Definition url_re : regex :=
  Seq [ Str (py "http"); Opt (Lit (ch "s")); Str (py "://dev.azure.com/");
        Grp 1 (Plus (NoneOf (py "/"))); Lit (ch "/");
        Grp 2 (Plus (NoneOf (py "/"))); Str (py "/_workitems/");
        Alt (Str (py "edit")) (Str (py "view")); Lit (ch "/");
        Grp 3 (Plus (Cls is_digit)) ].

Definition invalid_url_message (url : str) : str :=
  py "Invalid Azure DevOps URL: " ++ url ++ [newline] ++
  py "Expected format: https://dev.azure.com/{org}/{project}/_workitems/edit/{id}".

Definition parse_url (url : str) : result url_components :=
  match re_match url_re (strip url) with
  | None => Err (ValueError (invalid_url_message url))
  | Some m =>
      match group 1 (m_groups m), group 2 (m_groups m), group 3 (m_groups m) with
      | Some org, Some proj, Some id =>
          match py_int id with
          | Ok n => Ok (UrlComponents org (unquote proj) n)
          | Err e => Err e
          end
      | _, _, _ => Err TypeError
      end
  end.

(** ** extract_figma_url *)

Definition id_char (c : char) : bool :=
  (in_range (ch "a") (ch "z") c || in_range (ch "A") (ch "Z") c
   || in_range (ch "0") (ch "9") c || mem c (py "-_"))%bool.

Definition path_char (c : char) : bool :=
  negb (is_space c || mem c (dquote :: py "'<>)}]")).

(** The pattern of [extract_figma_url]: [https?://], an optional [www.],
    [figma.com/], one of [file], [design] and [proto], a slash, one or more
    of [a-zA-Z0-9\-_] and, optionally, a slash followed by any number of
    characters that are neither whitespace nor one of the two quotes,
    [<], [>], [)], [}] and the closing square bracket. *)
Definition figma_re : regex :=
  Seq [ Str (py "http"); Opt (Lit (ch "s")); Str (py "://");
        Opt (Str (py "www.")); Str (py "figma.com/");
        Alt (Str (py "file")) (Alt (Str (py "design")) (Str (py "proto")));
        Lit (ch "/"); Plus (Cls id_char);
        Opt (Cat (Lit (ch "/")) (Star (Cls path_char))) ].

(** The argument is whatever the caller passes; [re.search] takes text only. *)
Definition extract_figma_url (text : json) : result (option str) :=
  if negb (truthy text) then Ok None
  else
    match text with
    | JStr s =>
        match re_search figma_re s with
        | Some (_, m) => Ok (Some (m_text m))
        | None => Ok None
        end
    | _ => Err TypeError
    end.

(** ** strip_html *)

(** [<[^>]+>] *)
Definition tag_re : regex :=
  Seq [ Lit (ch "<"); Plus (NoneOf (py ">")); Lit (ch ">") ].

(** [\s+] *)
Definition spaces_re : regex := Plus (Cls is_space).

Definition strip_html (html_content : json) : result str :=
  if negb (truthy html_content) then Ok []
  else
    match html_content with
    | JStr s =>
        let clean := re_sub tag_re (fun _ => py " ") s in
        match unescape clean with
        | Ok clean =>
            let clean := strip (re_sub spaces_re (fun _ => py " ") clean) in
            Ok clean
        | Err e => Err e
        end
    | _ => Err TypeError
    end.

(** ** The process and the network *)

(** The arguments of [urllib.request.Request]: the URL and the headers. *)
Record request : Type := Request {
  req_url : str;
  req_headers : list (str * str)
}.

(** What [json.loads(response.read().decode())] makes of a response body:
    a value, or a [ValueError] with its message: a [UnicodeDecodeError], a
    [JSONDecodeError], or the error of [int()] for a number of more than
    4300 digits, so that every integer of a decoded body is one that [str]
    can write. *)
Inductive body : Type :=
| Json (data : json)
| NotJson (msg : str).

(** How the [with urlopen(req)] statement of [fetch_work_item] ends: with
    the body of a response of success status, with an [HTTPError] that has
    the status code and reason of the response, with a [URLError] that has
    the text of its reason, or with any other exception ([InvalidURL] or
    [UnicodeEncodeError] for a URL that cannot be sent, [RemoteDisconnected]
    for a connection that breaks, ...). *)
Inductive http_outcome : Type :=
| Response (b : body)
| HTTPError (code : Z) (reason : str)
| URLError (reason : str)
| Failure (e : exn).

(** The surroundings of one run: the command line (script name first), the
    value of [ADO_PAT] when it is set, and what the library and the remote
    end do with a request object: how the call of [urlopen] ends, and which
    requests the call puts on the wire.  These are none when the call fails
    before it connects, and more than one when [urlopen] follows
    redirections. *)
Record world : Type := World {
  argv : list str;
  ado_pat : option str;
  urlopen : request -> http_outcome;
  wire : request -> list request
}.

(** What a run has written so far, and the request objects that it has
    handed to [urlopen], one for each call. *)
Record proc : Type := Proc {
  stdout : str;
  stderr : str;
  requests : list request
}.

Inductive outcome (A : Type) : Type :=
| Return (a : A)
| Raise (e : exn)
| Exit (code : Z).

Arguments Return {A} a.
Arguments Raise {A} e.
Arguments Exit {A} code.

Definition M (A : Type) : Type := proc -> outcome A * proc.

Definition ret {A} (a : A) : M A := fun p => (Return a, p).

Definition bind {A B} (m : M A) (f : A -> M B) : M B :=
  fun p =>
    match m p with
    | (Return a, p') => f a p'
    | (Raise e, p') => (Raise e, p')
    | (Exit c, p') => (Exit c, p')
    end.

Notation "x <- m ;; k" := (bind m (fun x => k))
  (at level 61, m at next level, right associativity).
Notation "m ;;; k" := (bind m (fun _ => k))
  (at level 61, right associativity).

Definition raise {A} (e : exn) : M A := fun p => (Raise e, p).

Definition lift {A} (r : result A) : M A :=
  match r with
  | Ok a => ret a
  | Err e => raise e
  end.

(** [sys.exit(code)] *)
Definition sys_exit {A} (code : Z) : M A := fun p => (Exit code, p).

(** [print(s)] *)
Definition print (s : str) : M unit :=
  fun p => (Return tt, Proc (stdout p ++ s ++ [newline]) (stderr p) (requests p)).

(** [print(s, file=sys.stderr)] *)
Definition eprint (s : str) : M unit :=
  fun p => (Return tt, Proc (stdout p) (stderr p ++ s ++ [newline]) (requests p)).

(** One call of [urlopen]: the request object is noted, and the world
    tells how the call ends. *)
Definition send (w : world) (req : request) : M http_outcome :=
  fun p => (Return (urlopen w req),
            Proc (stdout p) (stderr p) (requests p ++ [req])).

(** [try: body except (ValueError, RuntimeError) as e: handler(str(e))] *)
Definition try_except {A} (m : M A) (handler : str -> M A) : M A :=
  fun p =>
    match m p with
    | (Raise (ValueError msg), p') => handler msg p'
    | (Raise (RuntimeError msg), p') => handler msg p'
    | r => r
    end.

(** ** fetch_work_item *)

Record ticket : Type := Ticket {
  t_id : json;
  t_title : json;
  t_description : str;
  t_state : json;
  t_type : json;
  t_assignedTo : json;
  t_url : json;
  t_figmaUrl : option str
}.

(** The dict that [fetch_work_item] returns, in the order of its keys. *)
Definition ticket_json (t : ticket) : json :=
  JObj [ (py "id", t_id t); (py "title", t_title t);
         (py "description", JStr (t_description t));
         (py "state", t_state t); (py "type", t_type t);
         (py "assignedTo", t_assignedTo t); (py "url", t_url t);
         (py "figmaUrl",
          match t_figmaUrl t with Some u => JStr u | None => JNull end) ].

Definition em_dash : char := 0x2014%N.

(** The message of an HTTP error, from the texts that the f-string puts
    together. *)
Definition http_error_text (code_text reason id_text : str) : str :=
  py "HTTP " ++ code_text ++ py " " ++ reason ++ py " " ++ [em_dash] ++
  py " failed to fetch work item " ++ id_text ++ py ". " ++
  py "Check that ADO_PAT is valid and has read access to this project.".

Definition is_dict (v : json) : bool :=
  match v with JObj _ => true | _ => false end.

Definition fetch_work_item (w : world) (organization project : str)
    (work_item_id : Z) (pat : str) : M ticket :=
  encoded_project <- lift (quote project) ;;
  id_text <- lift (py_str work_item_id) ;;
  let api_url :=
    py "https://dev.azure.com/" ++ organization ++ py "/" ++ encoded_project ++
    py "/_apis/wit/workitems/" ++ id_text ++ py "?api-version=7.0" in
  encoded_pat <- lift (utf8_encode (py ":" ++ pat)) ;;
  let credentials := b64encode encoded_pat in
  let req :=
    Request api_url
      [ (py "Authorization", py "Basic " ++ credentials);
        (py "Content-Type", py "application/json") ] in
  answer <- send w req ;;
  data <- match answer with
          | Response (Json data) => ret data
          | Response (NotJson msg) => raise (ValueError msg)
          | HTTPError code reason =>
              code_text <- lift (py_str code) ;;
              raise (RuntimeError (http_error_text code_text reason id_text))
          | URLError reason =>
              raise (RuntimeError (py "Network error: " ++ reason))
          | Failure e => raise e
          end ;;
  fields <- lift (py_get data "fields" (JObj [])) ;;
  description_field <- lift (py_get fields "System.Description" JNull) ;;
  let raw_description :=
    if truthy description_field then description_field else JStr [] in
  figma_url <- lift (extract_figma_url raw_description) ;;
  description <- lift (strip_html raw_description) ;;
  assigned_to <- lift (py_get fields "System.AssignedTo" JNull) ;;
  assigned_to <- (if is_dict assigned_to
                  then lift (py_get assigned_to "displayName" JNull)
                  else ret assigned_to) ;;
  id <- lift (py_item data "id") ;;
  title <- lift (py_get fields "System.Title" (JStr [])) ;;
  state <- lift (py_get fields "System.State" (JStr [])) ;;
  type <- lift (py_get fields "System.WorkItemType" (JStr [])) ;;
  links <- lift (py_get data "_links" (JObj [])) ;;
  html <- lift (py_get links "html" (JObj [])) ;;
  href <- lift (py_get html "href" (JStr [])) ;;
  ret (Ticket id title description state type assigned_to href figma_url).

(** ** main *)

Definition usage : list str :=
  [ py "Usage: fetch_ticket.py <azure_devops_url>";
    [];
    py "Required environment variable:";
    py "  ADO_PAT  " ++ [em_dash] ++ py " Azure DevOps Personal Access Token" ].

Definition missing_pat_message : str :=
  py "ADO_PAT environment variable is not set. " ++
  py "Export your Azure DevOps Personal Access Token: export ADO_PAT=<your_token>".

Definition error_json (msg : str) : str :=
  dumps None (JObj [(py "error", JStr msg)]).

(** The body of the [try] statement of [main]. *)
Definition pipeline (w : world) (url pat : str) : M unit :=
  components <- lift (parse_url url) ;;
  t <- fetch_work_item w (organization components)
         (project components) (work_item_id components) pat ;;
  print (dumps (Some 2) (ticket_json t)).

Definition main (w : world) : M unit :=
  if Nat.ltb (length (argv w)) 2 then
    eprint (nth 0 usage []) ;;;
    eprint (nth 1 usage []) ;;;
    eprint (nth 2 usage []) ;;;
    eprint (nth 3 usage []) ;;;
    sys_exit 1
  else
    let url := nth 1 (argv w) [] in
    match ado_pat w with
    | None => print (error_json missing_pat_message) ;;; sys_exit 1
    | Some [] => print (error_json missing_pat_message) ;;; sys_exit 1
    | Some pat =>
        try_except (pipeline w url pat)
          (fun msg => print (error_json msg) ;;; sys_exit 1)
    end.

(** How a run ends: with an exit status, or with an exception that nothing
    caught, which the interpreter reports as a traceback. *)
Inductive ending : Type :=
| Exited (code : Z)
| Traceback (e : exn).

(** What a run leaves: the two streams, the request objects handed to
    [urlopen], and how it ended. *)
Record run_result : Type := RunResult {
  r_stdout : str;
  r_stderr : str;
  r_requests : list request;
  r_ending : ending
}.

(** One run of the script from a fresh process. *)
Definition run_script (w : world) : run_result :=
  match main w (Proc [] [] []) with
  | (Return _, p) => RunResult (stdout p) (stderr p) (requests p) (Exited 0)
  | (Exit c, p) => RunResult (stdout p) (stderr p) (requests p) (Exited c)
  | (Raise e, p) => RunResult (stdout p) (stderr p) (requests p) (Traceback e)
  end.

(** * Specification vocabulary *)

(** The language of a pattern: which texts it can match, whatever the
    order in which the matcher tries them. *)
Inductive matches : regex -> str -> Prop :=
| M_eps : matches Eps []
| M_cls : forall (p : char -> bool) x, p x = true -> matches (Cls p) [x]
| M_cat : forall r1 r2 s1 s2,
    matches r1 s1 -> matches r2 s2 -> matches (Cat r1 r2) (s1 ++ s2)
| M_alt_l : forall r1 r2 s, matches r1 s -> matches (Alt r1 r2) s
| M_alt_r : forall r1 r2 s, matches r2 s -> matches (Alt r1 r2) s
| M_star_nil : forall r, matches (Star r) []
| M_star_cons : forall r s1 s2,
    matches r s1 -> matches (Star r) s2 -> matches (Star r) (s1 ++ s2)
| M_grp : forall n r s, matches r s -> matches (Grp n r) s.

(** [sub] occurs in [s]. *)
Definition contains (s sub : str) : Prop :=
  exists before after, s = before ++ sub ++ after.

(** A path segment: not empty, no slash. *)
Definition segment (s : str) : Prop := s <> [] /\ ~ In (ch "/") s.

(** A string of one or more decimal digits. *)
Definition digits (s : str) : Prop := s <> [] /\ forallb is_digit s = true.

(** The number that a string of decimal digits writes. *)
Definition decimal (s : str) : N :=
  fold_left (fun acc c =>
               match digit_value c with
               | Some d => (10 * acc + d)%N
               | None => acc
               end) s 0%N.

(** The longest prefix of [s] within the class [p]. *)
Fixpoint take_while (p : char -> bool) (s : str) : str :=
  match s with
  | [] => []
  | x :: s' => if p x then x :: take_while p s' else []
  end.

(** The text of a work-item URL with the given parts. *)
Definition work_item_url (scheme org proj kind id : str) : str :=
  scheme ++ py "://dev.azure.com/" ++ org ++ py "/" ++ proj ++
  py "/_workitems/" ++ kind ++ py "/" ++ id.

(** [s] begins with a work-item URL. *)
Definition has_url_shape (s : str) : Prop :=
  exists scheme org proj kind id rest,
    s = work_item_url scheme org proj kind id ++ rest /\
    (scheme = py "http" \/ scheme = py "https") /\
    segment org /\ segment proj /\
    (kind = py "edit" \/ kind = py "view") /\ digits id.

(** [rest] does not go on with a character of the class [p]. *)
Definition stops_at (p : char -> bool) (rest : str) : Prop :=
  match rest with
  | [] => True
  | y :: _ => p y = false
  end.

(** The second line of the message of an invalid URL. *)
Definition expected_format : str :=
  py "Expected format: https://dev.azure.com/{org}/{project}/_workitems/edit/{id}".

(** A run on a URL of another host. *)
Definition wrong_host_world : world :=
  World [py "fetch_ticket.py";
         py "https://dev.example.com/acme/web/_workitems/edit/42"]
        (Some (py "token"))
        (fun _ => Response (Json (JObj [(py "id", JInt 42)])))
        (fun req => [req]).

(** The line that reports the missing credential. *)
Definition missing_pat_line : str :=
  py "{" ++ [dquote] ++ py "error" ++ [dquote] ++ py ": " ++ [dquote] ++
  py "ADO_PAT environment variable is not set. Export your Azure DevOps Personal Access Token: export ADO_PAT=<your_token>" ++
  [dquote] ++ py "}".

(** A run without [ADO_PAT]. *)
Definition no_credential_world : world :=
  World [py "fetch_ticket.py";
         py "https://dev.azure.com/acme/web/_workitems/edit/42"]
        None
        (fun _ => Response (Json (JObj [(py "id", JInt 42)])))
        (fun req => [req]).

(** The description of the example in the specification. *)
Definition design_description : str :=
  py "See <a href=" ++ [dquote] ++
  py "https://www.figma.com/file/ABC123/My-Design?node-id=1" ++ [dquote] ++
  py ">design</a> here".

(** The request that [fetch_work_item] builds from the organization, the
    quoted project, the id and the encoded credential. *)
Definition api_request (organization encoded_project : str)
    (work_item_id : Z) (encoded_pat : list byte) : request :=
  Request
    (py "https://dev.azure.com/" ++ organization ++ py "/" ++ encoded_project ++
     py "/_apis/wit/workitems/" ++ str_of_Z work_item_id ++ py "?api-version=7.0")
    [ (py "Authorization", py "Basic " ++ b64encode encoded_pat);
      (py "Content-Type", py "application/json") ].

(** What [fetch_work_item] makes of the decoded body: the steps after the
    [try] statement, which touch neither the network nor the output. *)
Definition ticket_of (data : json) : result ticket :=
  and_then (py_get data "fields" (JObj [])) (fun fields =>
  and_then (py_get fields "System.Description" JNull) (fun description_field =>
  let raw_description :=
    if truthy description_field then description_field else JStr [] in
  and_then (extract_figma_url raw_description) (fun figma_url =>
  and_then (strip_html raw_description) (fun description =>
  and_then (py_get fields "System.AssignedTo" JNull) (fun assigned_to =>
  and_then (if is_dict assigned_to
            then py_get assigned_to "displayName" JNull
            else Ok assigned_to) (fun assigned_to =>
  and_then (py_item data "id") (fun id =>
  and_then (py_get fields "System.Title" (JStr [])) (fun title =>
  and_then (py_get fields "System.State" (JStr [])) (fun state =>
  and_then (py_get fields "System.WorkItemType" (JStr [])) (fun type =>
  and_then (py_get data "_links" (JObj [])) (fun links =>
  and_then (py_get links "html" (JObj [])) (fun html =>
  and_then (py_get html "href" (JStr [])) (fun href =>
  Ok (Ticket id title description state type assigned_to href figma_url)
  ))))))))))))).

(** The process after one more request. *)
Definition sent (p : proc) (req : request) : proc :=
  Proc (stdout p) (stderr p) (requests p ++ [req]).

(** The message of an HTTP error for a status code and an id that [str]
    can write. *)
Definition http_error_message (code : Z) (reason : str) (work_item_id : Z)
    : str :=
  http_error_text (str_of_Z code) reason (str_of_Z work_item_id).

(** What [fetch_work_item] raises or returns for the way the call of
    [urlopen] ends. *)
Definition answer_outcome (work_item_id : Z) (answer : http_outcome)
    : outcome ticket :=
  match answer with
  | Response (Json data) =>
      match ticket_of data with
      | Ok t => Return t
      | Err e => Raise e
      end
  | Response (NotJson msg) => Raise (ValueError msg)
  | HTTPError code reason =>
      match py_str code with
      | Ok _ =>
          Raise (RuntimeError (http_error_message code reason work_item_id))
      | Err e => Raise e
      end
  | URLError reason => Raise (RuntimeError (py "Network error: " ++ reason))
  | Failure e => Raise e
  end.

(** The requests that the calls of [urlopen] put on the wire. *)
Definition traffic (w : world) (calls : list request) : list request :=
  flat_map (wire w) calls.

(** A number that [str] can write: its decimal text has no more digits than
    the limit. *)
Definition writable (z : Z) : Prop :=
  length (str_of_N (Z.abs_N z)) <= int_max_str_digits.

(** The advice at the end of the message of an HTTP error. *)
Definition guidance : str :=
  py "Check that ADO_PAT is valid and has read access to this project.".

(** A run whose request is answered with status 404. *)
Definition not_found_world : world :=
  World [py "fetch_ticket.py";
         py "https://dev.azure.com/acme/web/_workitems/edit/42"]
        (Some (py "token"))
        (fun _ => HTTPError 404 (py "Not Found"))
        (fun req => [req]).

(** A run whose request is redirected once, to a place that answers with
    status 404: [urlopen] follows the redirection, with the same
    [Authorization] header, and raises the [HTTPError] of the second
    response. *)
Definition redirected_world : world :=
  World [py "fetch_ticket.py";
         py "https://dev.azure.com/acme/web/_workitems/edit/42"]
        (Some (py "token"))
        (fun _ => HTTPError 404 (py "Not Found"))
        (fun req =>
           [ req;
             Request (py "https://dev.azure.com/acme/_apis/wit/workitems/42")
               (firstn 1 (req_headers req)) ]).

(** Runs whose response carries the given members next to the title. *)
Definition jane : json := JStr (py "Jane Doe").

Definition assignee_world (assigned : list (str * json)) : world :=
  World [py "fetch_ticket.py";
         py "https://dev.azure.com/acme/web/_workitems/edit/42"]
        (Some (py "token"))
        (fun _ => Response (Json (JObj
           [ (py "id", JInt 42);
             (py "fields", JObj ((py "System.Title", JStr (py "Fix")) :: assigned)) ])))
        (fun req => [req]).

(** The record of such a run, with assignee [a]. *)
Definition assignee_ticket (a : json) : ticket :=
  Ticket (JInt 42) (JStr (py "Fix")) [] (JStr []) (JStr []) a (JStr []) None.

(** The process after [print(s)]. *)
Definition printed (p : proc) (s : str) : proc :=
  Proc (stdout p ++ s ++ [newline]) (stderr p) (requests p).

(** A run whose response has status 200 and the body [{}]. *)
Definition empty_object_world : world :=
  World [py "fetch_ticket.py";
         py "https://dev.azure.com/acme/web/_workitems/edit/42"]
        (Some (py "token"))
        (fun _ => Response (Json (JObj [])))
        (fun req => [req]).

(** A run whose request is answered with status 401. *)
Definition unauthorized_world : world :=
  World [py "fetch_ticket.py";
         py "https://dev.azure.com/acme/web/_workitems/edit/42"]
        (Some (py "token"))
        (fun _ => HTTPError 401 (py "Unauthorized"))
        (fun req => [req]).

(** A [ValueError] or [RuntimeError] with the message [msg]. *)
Definition reported (e : exn) (msg : str) : Prop :=
  e = ValueError msg \/ e = RuntimeError msg.


(** A description whose link holds a character reference. *)
Definition encoded_link_description : str :=
  py "<a href='https://figma.com/design/K7/Flow?a=1&amp;b=2'>flow</a>".

(** The last step of [strip_html], on the text that [html.unescape]
    returns. *)
Definition finished (u : str) : str :=
  strip (re_sub spaces_re (fun _ => py " ") u).

(** The three steps of [strip_html] on text without character references,
    where [html.unescape] changes nothing. *)
Definition normalized (s : str) : str :=
  finished (re_sub tag_re (fun _ => py " ") s).

(** Every run of whitespace becomes one space; [in_run] tells that the run
    in progress has already been written. *)
Fixpoint collapse (in_run : bool) (u : str) : str :=
  match u with
  | [] => []
  | x :: u' =>
      if is_space x
      then if in_run then collapse true u' else ch " " :: collapse true u'
      else x :: collapse false u'
  end.

(** All whitespace of [t] is single spaces between other characters or at
    the ends. *)
Fixpoint collapsed (t : str) : Prop :=
  match t with
  | [] => True
  | x :: t' =>
      (is_space x = true -> x = ch " " /\ stops_at is_space t') /\ collapsed t'
  end.

(** After a [<], the text [b] cannot complete a tag: it is empty, or begins
    with [>], or has no [>] at all. *)
Definition no_tag_after (b : str) : Prop :=
  match b with
  | [] => True
  | x :: b' => x = ch ">" \/ ~ In (ch ">") b'
  end.

(** No [<] of [t] opens a tag. *)
Fixpoint tagless (t : str) : Prop :=
  match t with
  | [] => True
  | x :: t' => (x = ch "<" -> no_tag_after t') /\ tagless t'
  end.

Definition decimal_step (acc : N) (c : char) : N :=
  match digit_value c with
  | Some d => (10 * acc + d)%N
  | None => acc
  end.

(** The digit [d] before the digits [u]. *)
Definition digit_uint (d : N) (u : Decimal.uint) : Decimal.uint :=
  if N.eqb d 0 then Decimal.D0 u
  else if N.eqb d 1 then Decimal.D1 u
  else if N.eqb d 2 then Decimal.D2 u
  else if N.eqb d 3 then Decimal.D3 u
  else if N.eqb d 4 then Decimal.D4 u
  else if N.eqb d 5 then Decimal.D5 u
  else if N.eqb d 6 then Decimal.D6 u
  else if N.eqb d 7 then Decimal.D7 u
  else if N.eqb d 8 then Decimal.D8 u
  else Decimal.D9 u.

(** The digits of a string of decimal digits of any script. *)
Fixpoint digits_uint (s : str) : Decimal.uint :=
  match s with
  | [] => Decimal.Nil
  | x :: s' =>
      match digit_value x with
      | Some d => digit_uint d (digits_uint s')
      | None => digits_uint s'
      end
  end.

(** [t] is trimmed text in which all whitespace is single spaces. *)
Definition tidy (t : str) : Prop :=
  collapsed t /\ stops_at is_space t /\ stops_at is_space (rev t).

(** A character that goes on with an id or opens the path of a link. *)
Definition id_or_slash (c : char) : bool :=
  (id_char c || N.eqb c (ch "/"))%bool.

(** The four lines of the usage message. *)
Definition usage_text : str :=
  py "Usage: fetch_ticket.py <azure_devops_url>" ++ [newline] ++
  [newline] ++
  py "Required environment variable:" ++ [newline] ++
  py "  ADO_PAT  " ++ [em_dash] ++ py " Azure DevOps Personal Access Token" ++
  [newline].

(** A run without the URL argument. *)
Definition no_argument_world : world :=
  World [py "fetch_ticket.py"] (Some (py "token"))
        (fun _ => Response (Json (JObj [(py "id", JInt 42)])))
        (fun req => [req]).

(** A run on the page of an organization with a space in its name:
    [urlopen] refuses the URL before it sends anything. *)
Definition invalid_url_world : world :=
  World [py "fetch_ticket.py";
         py "https://dev.azure.com/my org/web/_workitems/edit/42"]
        (Some (py "token"))
        (fun _ => Failure (OtherException (py "InvalidURL")))
        (fun _ => []).

(** A run whose connection fails. *)
Definition unreachable_world : world :=
  World [py "fetch_ticket.py";
         py "https://dev.azure.com/acme/web/_workitems/edit/42"]
        (Some (py "token"))
        (fun _ => URLError (py "[Errno 111] Connection refused"))
        (fun _ => []).

(** A member that is an object, or no member at all. *)
Definition object_or_missing (v : option json) : bool :=
  match v with
  | None => true
  | Some (JObj _) => true
  | Some _ => false
  end.

(** A member that is text or counts as false, or no member at all. *)
Definition text_or_false (v : option json) : bool :=
  match v with
  | None => true
  | Some (JStr _) => true
  | Some v => negb (truthy v)
  end.

(** The members of the object at [key], none when there is no object. *)
Definition members_at (key : string) (o : list (str * json))
    : list (str * json) :=
  match lookup (py key) o with
  | Some (JObj m) => m
  | _ => []
  end.

(** The decoded bodies that [fetch_work_item] can turn into a record: an
    object with an id, in which fields, _links and _links.html are objects
    where they occur and the description is text or counts as false. *)
Definition well_formed_body (data : json) : bool :=
  match data with
  | JObj o =>
      (match lookup (py "id") o with Some _ => true | None => false end
       && object_or_missing (lookup (py "fields") o)
       && text_or_false
            (lookup (py "System.Description") (members_at "fields" o))
       && object_or_missing (lookup (py "_links") o)
       && object_or_missing (lookup (py "html") (members_at "_links" o)))%bool
  | _ => false
  end.

(** The bodies in which [fetch_work_item] finds a description to work
    on: an object in which fields is an object where it occurs and the
    description is text or counts as false. *)
Definition has_description (data : json) : bool :=
  match data with
  | JObj o =>
      (object_or_missing (lookup (py "fields") o)
       && text_or_false
            (lookup (py "System.Description") (members_at "fields" o)))%bool
  | _ => false
  end.

(** The text that [fetch_work_item] hands to [strip_html]: the description
    when it is text, and the empty string otherwise. *)
Definition body_description (data : json) : str :=
  match data with
  | JObj o =>
      match lookup (py "System.Description") (members_at "fields" o) with
      | Some (JStr s) => s
      | _ => []
      end
  | _ => []
  end.

(** What follows the ampersand of a character reference: the group of the
    pattern. *)
Definition charref_body : regex :=
  Alt (Cat (Lit (ch "#")) (Cat (Plus (Cls ascii_digit)) (Opt (Lit (ch ";")))))
    (Alt (Cat (Lit (ch "#"))
            (Cat (OneOf (py "xX"))
               (Cat (Plus (Cls ascii_hex)) (Opt (Lit (ch ";"))))))
         (Cat (Rep1 32 (NoneOf ([9; 10; 12]%N ++ py " <&#;")))
            (Opt (Lit (ch ";"))))).

(** An exception that [main] does not catch. *)
Definition uncaught (e : exn) : Prop :=
  e = KeyError \/ e = AttributeError \/ e = TypeError.

(** A run whose response is the object with an id and nothing else. *)
Definition bare_id_world : world :=
  World [py "fetch_ticket.py";
         py "https://dev.azure.com/acme/web/_workitems/edit/42"]
        (Some (py "token"))
        (fun _ => Response (Json (JObj [(py "id", JInt 42)])))
        (fun req => [req]).

(** The record of a body that has an id and neither fields nor links. *)
Definition bare_ticket (id : json) : ticket :=
  Ticket id (JStr []) [] (JStr []) (JStr []) JNull (JStr []) None.

(** A character that prints in ASCII. *)
Definition printable (c : char) : Prop := (0x20 <= c <= 0x7e)%N.

(** A code point of Unicode, which is what a character of a Python string
    is. *)
Definition code_point (c : char) : bool := N.ltb c 0x110000.

(** A character of base64 text: a letter of the alphabet or the padding
    sign. *)
Definition b64_text (c : char) : bool :=
  (mem c b64_alphabet || N.eqb c (ch "="))%bool.

(** A run on the page of work item 0042 of the project R&D of acme. *)
Definition encoded_project_world : world :=
  World [py "fetch_ticket.py";
         py "https://dev.azure.com/acme/R%26D/_workitems/view/0042"]
        (Some (py "token"))
        (fun _ => HTTPError 404 (py "Not Found"))
        (fun req => [req]).

(** A description with a decimal character reference of 4301 digits. *)
Definition huge_reference : str :=
  py "&#" ++ repeat (ch "1") 4301 ++ py ";".

(** A run whose response has that description. *)
Definition huge_reference_world : world :=
  World [py "fetch_ticket.py";
         py "https://dev.azure.com/acme/web/_workitems/edit/42"]
        (Some (py "token"))
        (fun _ => Response (Json (JObj
           [ (py "id", JInt 42);
             (py "fields",
              JObj [(py "System.Description", JStr huge_reference)]) ])))
        (fun req => [req]).

(** * The matcher against the language of a pattern *)

Section MatcherSound.

Variable r : regex.
Variable step : str -> caps -> kont -> option (str * caps).
Hypothesis step_sound : forall s c k a,
  step s c k = Some a ->
  exists s1 s2 c', s = s1 ++ s2 /\ matches r s1 /\ k s2 c' = Some a.

Lemma star_loop_sound : forall fuel s c k a,
  star_loop step fuel s c k = Some a ->
  exists s1 s2 c', s = s1 ++ s2 /\ matches (Star r) s1 /\ k s2 c' = Some a.
Proof.
  induction fuel as [|fuel IH]; simpl; intros s c k a H.
  - exists [], s, c. repeat split; auto. constructor.
  - destruct (step s c _) as [a'|] eqn:E.
    + inversion H; subst a'; clear H.
      apply step_sound in E. destruct E as (s1 & s2 & c' & -> & Hm & Hk).
      destruct (Nat.ltb _ _); [|discriminate].
      apply IH in Hk. destruct Hk as (t1 & t2 & c'' & -> & Hm2 & Hk2).
      exists (s1 ++ t1), t2, c''. rewrite app_assoc.
      repeat split; auto. constructor; auto.
    + exists [], s, c. repeat split; auto. constructor.
Qed.

End MatcherSound.

Lemma run_sound : forall r s c k a,
  run r s c k = Some a ->
  exists s1 s2 c', s = s1 ++ s2 /\ matches r s1 /\ k s2 c' = Some a.
Proof.
  induction r as [|p|r1 IH1 r2 IH2|r1 IH1 r2 IH2|r1 IH1|n r1 IH1];
    simpl; intros s c k a H.
  - exists [], s, c. repeat split; auto. constructor.
  - destruct s as [|x s']; [discriminate|].
    destruct (p x) eqn:E; [|discriminate].
    exists [x], s', c. repeat split; auto. constructor; auto.
  - apply IH1 in H. destruct H as (s1 & s2 & c' & -> & Hm1 & H).
    apply IH2 in H. destruct H as (t1 & t2 & c'' & -> & Hm2 & H).
    exists (s1 ++ t1), t2, c''. rewrite app_assoc.
    repeat split; auto. constructor; auto.
  - destruct (run r1 s c k) as [a'|] eqn:E.
    + inversion H; subst a'. apply IH1 in E.
      destruct E as (s1 & s2 & c' & -> & Hm & Hk).
      exists s1, s2, c'. repeat split; auto. apply M_alt_l; auto.
    + apply IH2 in H. destruct H as (s1 & s2 & c' & -> & Hm & Hk).
      exists s1, s2, c'. repeat split; auto. apply M_alt_r; auto.
  - eapply star_loop_sound; eauto.
  - apply IH1 in H. destruct H as (s1 & s2 & c' & -> & Hm & Hk).
    exists s1, s2, ((n, consumed (s1 ++ s2) s2) :: c').
    repeat split; auto. constructor; auto.
Qed.

Lemma consumed_app : forall s1 s2, consumed (s1 ++ s2) s2 = s1.
Proof.
  intros. unfold consumed. rewrite length_app.
  replace (length s1 + length s2 - length s2) with (length s1 + 0) by lia.
  rewrite firstn_app_2. simpl. apply app_nil_r.
Qed.

Lemma mk_match_some : forall s o m,
  mk_match s o = Some m ->
  exists c, o = Some (m_rest m, c) /\ m_text m = consumed s (m_rest m)
            /\ m_groups m = c.
Proof.
  intros s [[s' c]|] m H; simpl in H; inversion H; subst; simpl.
  exists c; auto.
Qed.

Lemma re_match_sound : forall r s m,
  re_match r s = Some m ->
  s = m_text m ++ m_rest m /\ matches r (m_text m).
Proof.
  unfold re_match. intros r s m H.
  apply mk_match_some in H. destruct H as (c & H & Ht & _).
  apply run_sound in H. destruct H as (s1 & s2 & c' & -> & Hm & Hk).
  unfold accept in Hk. injection Hk as E1 E2.
  rewrite Ht, <- E1, consumed_app. auto.
Qed.

Lemma matches_eps_inv : forall s, matches Eps s -> s = [].
Proof. intros s H. inversion H. reflexivity. Qed.

Lemma matches_cls_inv : forall p s,
  matches (Cls p) s -> exists x, s = [x] /\ p x = true.
Proof. intros p s H. inversion H; subst. eauto. Qed.

Lemma matches_cat_inv : forall r1 r2 s,
  matches (Cat r1 r2) s ->
  exists s1 s2, s = s1 ++ s2 /\ matches r1 s1 /\ matches r2 s2.
Proof. intros r1 r2 s H. inversion H; subst. eauto. Qed.

Lemma matches_alt_inv : forall r1 r2 s,
  matches (Alt r1 r2) s -> matches r1 s \/ matches r2 s.
Proof. intros r1 r2 s H. inversion H; subst; auto. Qed.

Lemma matches_grp_inv : forall n r s, matches (Grp n r) s -> matches r s.
Proof. intros n r s H. inversion H; subst; auto. Qed.

(** A derivation for [Star r] can be cut into pieces that each consume
    something. *)
Lemma star_split : forall r0 s,
  matches r0 s ->
  forall r, r0 = Star r ->
  s = [] \/ exists a b, a <> [] /\ s = a ++ b /\ matches r a /\ matches (Star r) b.
Proof.
  induction 1; intros r' E; try discriminate.
  - left; auto.
  - inversion E; subst. destruct s1 as [|x s1].
    + simpl. apply IHmatches2; auto.
    + right. exists (x :: s1), s2. repeat split; auto. discriminate.
Qed.

Section MatcherComplete.

Variable r : regex.
Hypothesis body_complete : forall s1, matches r s1 ->
  forall s2 c k, (forall c', k s2 c' <> None) -> run r (s1 ++ s2) c k <> None.

Lemma star_loop_complete : forall n s1, length s1 <= n ->
  matches (Star r) s1 ->
  forall fuel s2 c k, length (s1 ++ s2) <= fuel ->
  (forall c', k s2 c' <> None) ->
  star_loop (run r) fuel (s1 ++ s2) c k <> None.
Proof.
  induction n as [|n IH]; intros s1 Hn Hm fuel s2 c k Hf Hk.
  - destruct s1; [|simpl in Hn; lia]. simpl.
    destruct fuel; simpl; auto.
    destruct (run r s2 c _); [discriminate|auto].
  - destruct (star_split Hm eq_refl) as [->|(a & b & Ha & -> & Hma & Hmb)].
    + simpl. destruct fuel; simpl; auto.
      destruct (run r s2 c _); [discriminate|auto].
    + destruct fuel as [|fuel].
      { rewrite !length_app in Hf. destruct a; [congruence|simpl in Hf; lia]. }
      simpl.
      match goal with |- match ?X with _ => _ end <> None =>
        assert (HX : X <> None); [|destruct X; [discriminate|congruence]] end.
      rewrite <- app_assoc. apply body_complete; auto.
      intros c'. rewrite !length_app.
      assert (La : length a > 0) by (destruct a; [congruence|simpl; lia]).
      assert (Hlt : Nat.ltb (length b + length s2)
                      (length a + (length b + length s2)) = true)
        by (apply Nat.ltb_lt; lia).
      rewrite Hlt. apply IH; auto.
      * rewrite length_app in Hn. lia.
      * rewrite <- app_assoc, !length_app in Hf. rewrite length_app. lia.
Qed.

End MatcherComplete.

Lemma run_complete : forall r s1, matches r s1 ->
  forall s2 c k, (forall c', k s2 c' <> None) -> run r (s1 ++ s2) c k <> None.
Proof.
  induction r as [|p|r1 IH1 r2 IH2|r1 IH1 r2 IH2|r1 IH1|n r1 IH1];
    intros s1 Hm s2 c k Hk; simpl.
  - apply matches_eps_inv in Hm. subst. simpl. auto.
  - apply matches_cls_inv in Hm. destruct Hm as (x & -> & Hp).
    simpl. rewrite Hp. auto.
  - apply matches_cat_inv in Hm. destruct Hm as (t1 & t2 & -> & H1 & H2).
    rewrite <- app_assoc. apply IH1; auto.
  - apply matches_alt_inv in Hm. destruct Hm as [H1|H2].
    + specialize (IH1 _ H1 s2 c k Hk).
      destruct (run r1 (s1 ++ s2) c k); [discriminate|congruence].
    + destruct (run r1 (s1 ++ s2) c k); [discriminate|]. apply IH2; auto.
  - eapply star_loop_complete; eauto.
  - apply matches_grp_inv in Hm. apply IH1; auto.
Qed.

Lemma re_match_complete : forall r s1 s2,
  matches r s1 -> re_match r (s1 ++ s2) <> None.
Proof.
  intros r s1 s2 Hm. unfold re_match.
  pose proof (run_complete Hm s2 [] accept) as H.
  destruct (run r (s1 ++ s2) [] accept) as [[s' c]|]; simpl.
  - discriminate.
  - exfalso. apply H; auto. intros c'. unfold accept. discriminate.
Qed.

(** [re.match] finds a match exactly when some prefix is in the language. *)
Lemma re_match_none : forall r s,
  re_match r s = None <-> (forall u v, s = u ++ v -> ~ matches r u).
Proof.
  intros r s. split.
  - intros H u v -> Hm. exact (re_match_complete v Hm H).
  - intros H. destruct (re_match r s) as [m|] eqn:E; auto.
    apply re_match_sound in E. destruct E as [E Hm].
    exfalso. exact (H _ _ E Hm).
Qed.

(** * How the matcher runs on the building blocks of the patterns *)

Lemma run_seq_cons : forall r rs s c k,
  run (Seq (r :: rs)) s c k = run r s c (fun s' c' => run (Seq rs) s' c' k).
Proof. reflexivity. Qed.

Lemma run_seq_nil : forall s c k, run (Seq []) s c k = k s c.
Proof. reflexivity. Qed.

Lemma run_str_app : forall l s c k, run (Str l) (l ++ s) c k = k s c.
Proof.
  induction l as [|x l IH]; intros s c k; simpl.
  - reflexivity.
  - rewrite N.eqb_refl. apply IH.
Qed.

Lemma run_lit_cons : forall x s c k, run (Lit x) (x :: s) c k = k s c.
Proof. intros. simpl. rewrite N.eqb_refl. reflexivity. Qed.

Lemma run_alt_l : forall r1 r2 s c k a,
  run r1 s c k = Some a -> run (Alt r1 r2) s c k = Some a.
Proof. intros r1 r2 s c k a H. simpl. rewrite H. reflexivity. Qed.

Lemma run_alt_r : forall r1 r2 s c k,
  run r1 s c k = None -> run (Alt r1 r2) s c k = run r2 s c k.
Proof. intros r1 r2 s c k H. simpl. rewrite H. reflexivity. Qed.

Lemma run_opt_skip : forall r s c k,
  run r s c k = None -> run (Opt r) s c k = k s c.
Proof. intros r s c k H. unfold Opt. rewrite run_alt_r; auto. Qed.

(** A greedy run over a class takes every character of the class that is
    there, and the rest of the pattern is tried from that point first. *)
Lemma star_loop_step : forall step fuel s c k,
  star_loop step (S fuel) s c k =
  match step s c (fun s' c' =>
                    if Nat.ltb (length s') (length s)
                    then star_loop step fuel s' c' k
                    else None) with
  | Some a => Some a
  | None => k s c
  end.
Proof. reflexivity. Qed.

Lemma run_cls_cons : forall p x s c k,
  run (Cls p) (x :: s) c k = if p x then k s c else None.
Proof. reflexivity. Qed.

Lemma star_cls_greedy : forall p xs rest c k a fuel,
  forallb p xs = true -> stops_at p rest ->
  length (xs ++ rest) <= fuel ->
  k rest c = Some a ->
  star_loop (run (Cls p)) fuel (xs ++ rest) c k = Some a.
Proof.
  induction xs as [|x xs IH]; intros rest c k a fuel Hall Hstop Hfuel Hk.
  - simpl app. destruct fuel; [exact Hk|].
    rewrite star_loop_step.
    destruct rest as [|y rest]; [simpl; exact Hk|].
    rewrite run_cls_cons. simpl in Hstop. rewrite Hstop. exact Hk.
  - simpl in Hall. apply andb_true_iff in Hall. destruct Hall as [Hx Hall].
    destruct fuel as [|fuel]; [simpl in Hfuel; lia|].
    simpl app. rewrite star_loop_step, run_cls_cons, Hx.
    assert (L : Nat.ltb (length (xs ++ rest)) (length (x :: xs ++ rest)) = true)
      by (apply Nat.ltb_lt; simpl; lia).
    rewrite L. rewrite (IH rest c k a fuel); auto.
    simpl in Hfuel. lia.
Qed.

Lemma run_star_cls : forall p xs rest c k a,
  forallb p xs = true -> stops_at p rest ->
  k rest c = Some a ->
  run (Star (Cls p)) (xs ++ rest) c k = Some a.
Proof.
  intros. simpl. apply star_cls_greedy; auto.
Qed.

Lemma run_plus_cls : forall p xs rest c k a,
  xs <> [] -> forallb p xs = true -> stops_at p rest ->
  k rest c = Some a ->
  run (Plus (Cls p)) (xs ++ rest) c k = Some a.
Proof.
  intros p [|x xs] rest c k a Hne Hall Hstop Hk; [congruence|].
  simpl in Hall. apply andb_true_iff in Hall. destruct Hall as [Hx Hall].
  change (run (Plus (Cls p)) ((x :: xs) ++ rest) c k)
    with (run (Cls p) (x :: xs ++ rest) c
            (fun s' c' => run (Star (Cls p)) s' c' k)).
  rewrite run_cls_cons, Hx. apply run_star_cls; auto.
Qed.

Lemma run_grp_plus_cls : forall n p xs rest c k a,
  xs <> [] -> forallb p xs = true -> stops_at p rest ->
  k rest ((n, xs) :: c) = Some a ->
  run (Grp n (Plus (Cls p))) (xs ++ rest) c k = Some a.
Proof.
  intros n p xs rest c k a Hne Hall Hstop Hk.
  change (run (Grp n (Plus (Cls p))) (xs ++ rest) c k)
    with (run (Plus (Cls p)) (xs ++ rest) c
            (fun s' c' => k s' ((n, consumed (xs ++ rest) s') :: c'))).
  apply run_plus_cls; auto.
  rewrite consumed_app. exact Hk.
Qed.

(** * Facts about characters *)

Lemma mem_In : forall c l, mem c l = true <-> In c l.
Proof.
  induction l as [|x l IH]; simpl.
  - split; [discriminate|tauto].
  - rewrite orb_true_iff, N.eqb_eq, IH. split; intros [H|H]; auto.
Qed.

Lemma segment_chars : forall s,
  segment s -> forallb (fun c => negb (mem c (py "/"))) s = true.
Proof.
  intros s [_ H]. apply forallb_forall. intros x Hx.
  destruct (mem x (py "/")) eqn:E; auto.
  apply mem_In in E. simpl in E. destruct E as [E|[]].
  subst x. contradiction.
Qed.

Lemma digit_not_space : forall c, is_digit c = true -> is_space c = false.
Proof.
  intros c H. destruct (is_space c) eqn:E; auto.
  unfold is_space in E. apply mem_In in E.
  unfold whitespace in E. simpl in E.
  repeat (destruct E as [E|E]; [subst c; vm_compute in H; discriminate|]).
  contradiction.
Qed.

Lemma digit_value_bound : forall c d, digit_value c = Some d -> (d < 10)%N.
Proof.
  unfold digit_value. intros c d.
  induction digit_zeros as [|z zs IH]; simpl; [discriminate|].
  destruct (in_range z (z + 9)%N c) eqn:E; auto.
  intros H. injection H as <-.
  unfold in_range in E. apply andb_true_iff in E.
  rewrite !N.leb_le in E. lia.
Qed.

Lemma digit_alnum : forall c, is_digit c = true ->
  exists d, digit_value c = Some d /\ alnum_value c = Some d /\ (d < 10)%N.
Proof.
  unfold is_digit, alnum_value. intros c H.
  destruct (digit_value c) as [d|] eqn:E; [|discriminate].
  exists d. repeat split; auto. eapply digit_value_bound; eauto.
Qed.

(** * Stripping *)

Lemma drop_while_stop : forall p s, stops_at p s -> drop_while p s = s.
Proof.
  intros p [|x s] H; simpl; auto. simpl in H. rewrite H. reflexivity.
Qed.

Lemma strip_fixed : forall s,
  stops_at is_space s -> stops_at is_space (rev s) -> strip s = s.
Proof.
  intros s H1 H2. unfold strip, lstrip, rstrip.
  rewrite (drop_while_stop _ _ H1), (drop_while_stop _ _ H2).
  apply rev_involutive.
Qed.

(** * parse_url *)

Lemma url_tail_matches : forall org proj kind id rest,
  segment org -> segment proj ->
  (kind = py "edit" \/ kind = py "view") -> digits id ->
  stops_at is_digit rest ->
  run (Seq [ Str (py "://dev.azure.com/");
             Grp 1 (Plus (NoneOf (py "/"))); Lit (ch "/");
             Grp 2 (Plus (NoneOf (py "/"))); Str (py "/_workitems/");
             Alt (Str (py "edit")) (Str (py "view")); Lit (ch "/");
             Grp 3 (Plus (Cls is_digit)) ])
      (py "://dev.azure.com/" ++ org ++ py "/" ++ proj ++
       py "/_workitems/" ++ kind ++ py "/" ++ id ++ rest) [] accept
  = Some (rest, [(3, id); (2, proj); (1, org)]).
Proof.
  intros org proj kind id rest Horg Hproj Hkind [Hid1 Hid2] Hrest.
  rewrite run_seq_cons, run_str_app.
  rewrite run_seq_cons.
  apply run_grp_plus_cls;
    [apply Horg | apply segment_chars; exact Horg | reflexivity |].
  rewrite run_seq_cons.
  change (py "/" ++ proj ++ py "/_workitems/" ++ kind ++ py "/" ++ id ++ rest)
    with (ch "/" :: proj ++ py "/_workitems/" ++ kind ++ py "/" ++ id ++ rest).
  rewrite run_lit_cons, run_seq_cons.
  apply run_grp_plus_cls;
    [apply Hproj | apply segment_chars; exact Hproj | reflexivity |].
  rewrite run_seq_cons, run_str_app, run_seq_cons.
  assert (Hlast : forall c,
    run (Seq [Lit (ch "/"); Grp 3 (Plus (Cls is_digit))])
        (py "/" ++ id ++ rest) c accept = Some (rest, (3, id) :: c)).
  { intros c.
    change (py "/" ++ id ++ rest) with (ch "/" :: id ++ rest).
    rewrite run_seq_cons, run_lit_cons, run_seq_cons.
    apply run_grp_plus_cls; auto. }
  destruct Hkind as [-> | ->].
  - apply run_alt_l. rewrite run_str_app. apply Hlast.
  - rewrite run_alt_r by reflexivity. rewrite run_str_app. apply Hlast.
Qed.

Lemma url_re_matches : forall scheme org proj kind id rest,
  (scheme = py "http" \/ scheme = py "https") ->
  segment org -> segment proj ->
  (kind = py "edit" \/ kind = py "view") -> digits id ->
  stops_at is_digit rest ->
  run url_re (work_item_url scheme org proj kind id ++ rest) [] accept
  = Some (rest, [(3, id); (2, proj); (1, org)]).
Proof.
  intros scheme org proj kind id rest Hs Horg Hproj Hkind Hid Hrest.
  pose proof (@url_tail_matches org proj kind id rest Horg Hproj Hkind Hid Hrest) as T.
  unfold work_item_url, url_re. rewrite <- !app_assoc.
  destruct Hs as [-> | ->].
  - rewrite run_seq_cons, run_str_app, run_seq_cons.
    rewrite run_opt_skip by reflexivity. exact T.
  - change (py "https") with (py "http" ++ [ch "s"]). rewrite <- app_assoc.
    rewrite run_seq_cons, run_str_app, run_seq_cons.
    apply run_alt_l. simpl app. rewrite run_lit_cons. exact T.
Qed.

Lemma re_match_url : forall scheme org proj kind id rest,
  (scheme = py "http" \/ scheme = py "https") ->
  segment org -> segment proj ->
  (kind = py "edit" \/ kind = py "view") -> digits id ->
  stops_at is_digit rest ->
  re_match url_re (work_item_url scheme org proj kind id ++ rest)
  = Some (MatchObj (work_item_url scheme org proj kind id)
            [(3, id); (2, proj); (1, org)] rest).
Proof.
  intros. unfold re_match. rewrite url_re_matches; auto.
  simpl. rewrite consumed_app. reflexivity.
Qed.

Lemma int_scan_digits : forall s acc count b,
  forallb is_digit s = true -> s <> [] \/ b = false ->
  int_scan 10 s acc count b =
  Some (fold_left (fun acc c =>
                     match digit_value c with
                     | Some d => (10 * acc + d)%N
                     | None => acc
                     end) s acc, count + length s, []).
Proof.
  induction s as [|x s IH]; intros acc count b Hall Hne.
  - destruct Hne as [Hne | ->]; [congruence|]. simpl. rewrite Nat.add_0_r.
    reflexivity.
  - simpl in Hall. apply andb_true_iff in Hall. destruct Hall as [Hx Hall].
    destruct (digit_alnum _ Hx) as (d & Hd & Ha & Hlt).
    cbn [int_scan fold_left length].
    destruct (N.eqb_spec x (ch "_")) as [->|_];
      [vm_compute in Hx; discriminate|].
    rewrite Ha, Hd. apply N.ltb_lt in Hlt. rewrite Hlt.
    rewrite IH by auto. rewrite Nat.add_succ_r. reflexivity.
Qed.

Lemma forallb_rev : forall (p : char -> bool) s,
  forallb p s = true -> forallb p (rev s) = true.
Proof.
  intros p s H. apply forallb_forall. intros x Hx.
  apply in_rev in Hx. rewrite forallb_forall in H. auto.
Qed.

Lemma digits_stripped : forall s, digits s -> strip s = s.
Proof.
  intros s [Hne Hall]. apply strip_fixed.
  - destruct s as [|x s]; simpl; auto.
    simpl in Hall. apply andb_true_iff in Hall.
    apply digit_not_space. tauto.
  - apply forallb_rev in Hall. destruct (rev s) as [|x t]; simpl; auto.
    simpl in Hall. apply andb_true_iff in Hall.
    apply digit_not_space. tauto.
Qed.

(** [int()] reads a string of decimal digits as the number it writes, when
    the digits are no more than the limit allows. *)
Lemma py_int_digits_limit : forall s,
  digits s ->
  py_int s =
  if Nat.ltb int_max_str_digits (length s)
  then Err (ValueError (int_limit_message (length s)))
  else Ok (Z.of_N (decimal s)).
Proof.
  intros s [Hne Hall]. unfold py_int.
  destruct s as [|x t]; [congruence|].
  assert (Hx : is_digit x = true)
    by (simpl in Hall; apply andb_true_iff in Hall; tauto).
  assert (Hsp : int_space x = false).
  { unfold int_space. rewrite (digit_not_space _ Hx). reflexivity. }
  cbn [drop_while]. rewrite Hsp.
  destruct (N.eqb_spec x (ch "-")) as [->|_];
    [vm_compute in Hx; discriminate|].
  destruct (N.eqb_spec x (ch "+")) as [->|_];
    [vm_compute in Hx; discriminate|].
  cbn [orb]. cbv zeta.
  destruct (N.eqb_spec x (ch "_")) as [->|_];
    [vm_compute in Hx; discriminate|].
  rewrite int_scan_digits; [| exact Hall | right; reflexivity].
  cbn [Nat.add].
  destruct (Nat.ltb int_max_str_digits (length (x :: t))); reflexivity.
Qed.

Lemma py_int_digits : forall s,
  digits s -> length s <= int_max_str_digits ->
  py_int s = Ok (Z.of_N (decimal s)).
Proof.
  intros s H L. rewrite (py_int_digits_limit H).
  apply Nat.ltb_ge in L. rewrite L. reflexivity.
Qed.

Lemma take_while_split : forall p s,
  exists rest, s = take_while p s ++ rest /\ stops_at p rest
               /\ forallb p (take_while p s) = true.
Proof.
  induction s as [|x s (rest & E & Hs & Ha)]; simpl.
  - exists []. simpl. auto.
  - destruct (p x) eqn:Hx.
    + exists rest. simpl. rewrite Hx, Ha. rewrite <- E. auto.
    + exists (x :: s). simpl. auto.
Qed.

(** What [parse_url] does with a text that, once stripped, begins with a
    work-item URL: the digits go to [int()]. *)
Lemma parse_url_shaped : forall url scheme org proj kind id rest,
  strip url = work_item_url scheme org proj kind id ++ rest ->
  (scheme = py "http" \/ scheme = py "https") ->
  segment org -> segment proj ->
  (kind = py "edit" \/ kind = py "view") -> digits id ->
  parse_url url =
  if Nat.ltb int_max_str_digits (length (id ++ take_while is_digit rest))
  then Err (ValueError
              (int_limit_message (length (id ++ take_while is_digit rest))))
  else Ok (UrlComponents org (unquote proj)
             (Z.of_N (decimal (id ++ take_while is_digit rest)))).
Proof.
  intros url scheme org proj kind id rest E Hs Horg Hproj Hkind Hid.
  destruct (take_while_split is_digit rest) as (rest' & Er & Hstop & Hall).
  set (more := take_while is_digit rest) in *.
  assert (Hid' : digits (id ++ more)).
  { destruct Hid as [Hne Hd]. split.
    - destruct id; [congruence|discriminate].
    - rewrite forallb_app, Hd, Hall. reflexivity. }
  assert (E' : strip url = work_item_url scheme org proj kind (id ++ more) ++ rest').
  { rewrite E. rewrite Er at 1. unfold work_item_url.
    rewrite <- !app_assoc. reflexivity. }
  unfold parse_url. rewrite E'.
  rewrite re_match_url; auto.
  cbn [m_groups group Nat.eqb]. rewrite (py_int_digits_limit Hid').
  destruct (Nat.ltb int_max_str_digits (length (id ++ more))); reflexivity.
Qed.

Lemma parse_url_complete : forall url scheme org proj kind id rest,
  strip url = work_item_url scheme org proj kind id ++ rest ->
  (scheme = py "http" \/ scheme = py "https") ->
  segment org -> segment proj ->
  (kind = py "edit" \/ kind = py "view") -> digits id ->
  length (id ++ take_while is_digit rest) <= int_max_str_digits ->
  parse_url url =
  Ok (UrlComponents org (unquote proj)
        (Z.of_N (decimal (id ++ take_while is_digit rest)))).
Proof.
  intros url scheme org proj kind id rest E Hs Horg Hproj Hkind Hid L.
  rewrite (@parse_url_shaped url scheme org proj kind id rest); auto.
  apply Nat.ltb_ge in L. rewrite L. reflexivity.
Qed.

(** Beyond the limit, [int()] raises, and so does [parse_url]. *)
Lemma parse_url_too_long : forall url scheme org proj kind id rest,
  strip url = work_item_url scheme org proj kind id ++ rest ->
  (scheme = py "http" \/ scheme = py "https") ->
  segment org -> segment proj ->
  (kind = py "edit" \/ kind = py "view") -> digits id ->
  int_max_str_digits < length (id ++ take_while is_digit rest) ->
  parse_url url =
  Err (ValueError
         (int_limit_message (length (id ++ take_while is_digit rest)))).
Proof.
  intros url scheme org proj kind id rest E Hs Horg Hproj Hkind Hid L.
  rewrite (@parse_url_shaped url scheme org proj kind id rest); auto.
  apply Nat.ltb_lt in L. rewrite L. reflexivity.
Qed.

(** * Reading a derivation back *)

Lemma matches_lit_inv : forall x s, matches (Lit x) s -> s = [x].
Proof.
  intros x s H. apply matches_cls_inv in H. destruct H as (y & -> & E).
  apply N.eqb_eq in E. subst. reflexivity.
Qed.

Lemma matches_str_inv : forall l s, matches (Str l) s -> s = l.
Proof.
  induction l as [|x l IH]; intros s H; simpl in H.
  - apply matches_eps_inv in H. exact H.
  - apply matches_cat_inv in H. destruct H as (s1 & s2 & -> & H1 & H2).
    apply matches_lit_inv in H1. apply IH in H2. subst. reflexivity.
Qed.

Lemma matches_opt_inv : forall r s, matches (Opt r) s -> matches r s \/ s = [].
Proof.
  intros r s H. apply matches_alt_inv in H. destruct H as [H|H]; auto.
  right. apply matches_eps_inv. exact H.
Qed.

Lemma matches_star_cls_inv : forall r0 s,
  matches r0 s -> forall p, r0 = Star (Cls p) -> forallb p s = true.
Proof.
  induction 1; intros q E; try discriminate.
  - reflexivity.
  - injection E as ->. apply matches_cls_inv in H.
    destruct H as (x & -> & Hx). simpl. rewrite Hx. simpl.
    apply IHmatches2. reflexivity.
Qed.

Lemma matches_plus_cls_inv : forall p s,
  matches (Plus (Cls p)) s -> s <> [] /\ forallb p s = true.
Proof.
  intros p s H. apply matches_cat_inv in H.
  destruct H as (s1 & s2 & -> & H1 & H2).
  apply matches_cls_inv in H1. destruct H1 as (x & -> & Hx).
  split; [discriminate|]. simpl. rewrite Hx. simpl.
  eapply matches_star_cls_inv; eauto.
Qed.

Lemma chars_segment : forall s,
  s <> [] -> forallb (fun c => negb (mem c (py "/"))) s = true -> segment s.
Proof.
  intros s Hne H. split; auto. intros Hin.
  rewrite forallb_forall in H. specialize (H _ Hin).
  vm_compute in H. discriminate.
Qed.

(** Every text in the language of the URL pattern is a work-item URL. *)
Lemma url_re_shape : forall s,
  matches url_re s ->
  exists scheme org proj kind id,
    s = work_item_url scheme org proj kind id /\
    (scheme = py "http" \/ scheme = py "https") /\
    segment org /\ segment proj /\
    (kind = py "edit" \/ kind = py "view") /\ digits id.
Proof.
  intros s H. unfold url_re in H. cbn [Seq] in H.
  apply matches_cat_inv in H. destruct H as (a1 & s1 & -> & A1 & H).
  apply matches_cat_inv in H. destruct H as (a2 & s2 & -> & A2 & H).
  apply matches_cat_inv in H. destruct H as (a3 & s3 & -> & A3 & H).
  apply matches_cat_inv in H. destruct H as (a4 & s4 & -> & A4 & H).
  apply matches_cat_inv in H. destruct H as (a5 & s5 & -> & A5 & H).
  apply matches_cat_inv in H. destruct H as (a6 & s6 & -> & A6 & H).
  apply matches_cat_inv in H. destruct H as (a7 & s7 & -> & A7 & H).
  apply matches_cat_inv in H. destruct H as (a8 & s8 & -> & A8 & H).
  apply matches_cat_inv in H. destruct H as (a9 & s9 & -> & A9 & H).
  apply matches_cat_inv in H. destruct H as (a10 & s10 & -> & A10 & H).
  apply matches_eps_inv in H. subst s10.
  apply matches_str_inv in A1, A3, A7. apply matches_lit_inv in A5, A9.
  apply matches_grp_inv in A4, A6, A10.
  apply matches_plus_cls_inv in A4, A6, A10.
  destruct A4 as [N4 C4], A6 as [N6 C6], A10 as [N10 C10].
  subst a1 a3 a5 a7 a9.
  exists (py "http" ++ a2), a4, a6, a8, a10.
  split; [|split; [|split; [|split; [|split]]]].
  - unfold work_item_url. rewrite <- !app_assoc. rewrite app_nil_r. reflexivity.
  - apply matches_opt_inv in A2. destruct A2 as [A2 | ->].
    + apply matches_lit_inv in A2. subst. right. reflexivity.
    + left. reflexivity.
  - apply chars_segment; auto.
  - apply chars_segment; auto.
  - apply matches_alt_inv in A8. destruct A8 as [A8|A8];
      apply matches_str_inv in A8; auto.
  - split; auto.
Qed.

Lemma re_match_url_shape : forall s m,
  re_match url_re s = Some m -> has_url_shape s.
Proof.
  intros s m H. apply re_match_sound in H. destruct H as [E H].
  apply url_re_shape in H.
  destruct H as (scheme & org & proj & kind & id & Et & W).
  exists scheme, org, proj, kind, id, (m_rest m).
  rewrite <- Et. auto.
Qed.

(** [parse_url] rejects exactly the texts that do not begin, once stripped,
    with a work-item URL. *)
Lemma parse_url_rejects : forall url,
  ~ has_url_shape (strip url) ->
  parse_url url = Err (ValueError (invalid_url_message url)).
Proof.
  intros url H. unfold parse_url.
  destruct (re_match url_re (strip url)) as [m|] eqn:E; auto.
  exfalso. apply H. eapply re_match_url_shape; eauto.
Qed.

Lemma parse_url_accepts : forall url,
  has_url_shape (strip url) ->
  parse_url url <> Err (ValueError (invalid_url_message url)).
Proof.
  intros url (scheme & org & proj & kind & id & rest & E & Hs & Ho & Hp & Hk & Hi).
  rewrite (@parse_url_shaped url scheme org proj kind id rest); auto.
  destruct (Nat.ltb _ _); [|discriminate].
  intros H. injection H as H _. discriminate H.
Qed.

(** * Numbers and their decimal text *)

Lemma decimal_uint_acc : forall u a,
  fold_left decimal_step (uint_str u) (Npos a) = Npos (Pos.of_uint_acc u a).
Proof.
  induction u; intros a; cbn [uint_str Pos.of_uint_acc];
    try reflexivity; cbn [fold_left]; rewrite <- IHu; f_equal;
    match goal with
    | |- decimal_step _ ?c = _ =>
        let v := eval vm_compute in (digit_value c) in
        unfold decimal_step; change (digit_value c) with v
    end; cbv iota beta; lia.
Qed.

Lemma decimal_uint : forall u,
  fold_left decimal_step (uint_str u) 0%N = Pos.of_uint u.
Proof.
  induction u; cbn [uint_str Pos.of_uint]; try reflexivity;
    cbn [fold_left];
    try (change (decimal_step 0 (ch "0")) with 0%N; exact IHu);
    match goal with
    | |- fold_left _ _ (decimal_step _ ?c) = _ =>
        let v := eval vm_compute in (decimal_step 0 c) in
        change (decimal_step 0 c) with v
    end; apply decimal_uint_acc.
Qed.

(** Reading the decimal text of a number gives the number back. *)
Lemma decimal_str_of_N : forall n, decimal (str_of_N n) = n.
Proof.
  intros n. unfold decimal, str_of_N.
  change (fun acc c => match digit_value c with
                       | Some d => (10 * acc + d)%N
                       | None => acc
                       end) with decimal_step.
  rewrite decimal_uint. apply DecimalN.Unsigned.of_to.
Qed.

Lemma uint_str_length : forall u, length (uint_str u) = Decimal.nb_digits u.
Proof. induction u; simpl; congruence. Qed.

Lemma digits_uint_length : forall s,
  forallb is_digit s = true -> Decimal.nb_digits (digits_uint s) = length s.
Proof.
  induction s as [|x s IH]; intros H; [reflexivity|].
  simpl in H. apply andb_true_iff in H. destruct H as [Hx H].
  cbn [digits_uint length]. unfold is_digit in Hx.
  destruct (digit_value x) as [d|]; [|discriminate].
  rewrite <- (IH H). unfold digit_uint.
  repeat (destruct (N.eqb d _); [reflexivity|]). reflexivity.
Qed.

Lemma digits_uint_value : forall s acc,
  forallb is_digit s = true ->
  fold_left decimal_step s acc =
  fold_left decimal_step (uint_str (digits_uint s)) acc.
Proof.
  induction s as [|x s IH]; intros acc H; [reflexivity|].
  simpl in H. apply andb_true_iff in H. destruct H as [Hx H].
  cbn [digits_uint fold_left].
  pose proof (@digit_value_bound x) as B.
  unfold is_digit in Hx. unfold decimal_step at 2.
  destruct (digit_value x) as [d|]; [|discriminate].
  specialize (B d eq_refl). rewrite (IH _ H). unfold digit_uint.
  destruct (N.eqb_spec d 0) as [->|N0]; [reflexivity|].
  destruct (N.eqb_spec d 1) as [->|N1]; [reflexivity|].
  destruct (N.eqb_spec d 2) as [->|N2]; [reflexivity|].
  destruct (N.eqb_spec d 3) as [->|N3]; [reflexivity|].
  destruct (N.eqb_spec d 4) as [->|N4]; [reflexivity|].
  destruct (N.eqb_spec d 5) as [->|N5]; [reflexivity|].
  destruct (N.eqb_spec d 6) as [->|N6]; [reflexivity|].
  destruct (N.eqb_spec d 7) as [->|N7]; [reflexivity|].
  destruct (N.eqb_spec d 8) as [->|N8]; [reflexivity|].
  assert (d = 9%N) as -> by lia. reflexivity.
Qed.

(** The number that a string of digits writes has no more digits than the
    string. *)
Lemma decimal_length : forall s,
  digits s -> length (str_of_N (decimal s)) <= length s.
Proof.
  intros s [Hne Hall]. unfold decimal, str_of_N.
  change (fun acc c => match digit_value c with
                       | Some d => (10 * acc + d)%N
                       | None => acc
                       end) with decimal_step.
  rewrite (@digits_uint_value s 0%N Hall), decimal_uint.
  change (Pos.of_uint (digits_uint s)) with (N.of_uint (digits_uint s)).
  rewrite DecimalN.Unsigned.to_of, uint_str_length.
  rewrite <- (@digits_uint_length s Hall).
  apply DecimalFacts.nb_digits_unorm.
  apply DecimalFacts.nb_digits_n0. rewrite (@digits_uint_length s Hall).
  destruct s; [congruence|discriminate].
Qed.

(** What a successful [parse_url] tells about its argument. *)
Lemma parse_url_ok_shape : forall url c,
  parse_url url = Ok c ->
  exists scheme org proj kind id rest,
    strip url = work_item_url scheme org proj kind id ++ rest /\
    (scheme = py "http" \/ scheme = py "https") /\
    segment org /\ segment proj /\
    (kind = py "edit" \/ kind = py "view") /\ digits id /\
    length (id ++ take_while is_digit rest) <= int_max_str_digits /\
    c = UrlComponents org (unquote proj)
          (Z.of_N (decimal (id ++ take_while is_digit rest))).
Proof.
  intros url c H.
  destruct (re_match url_re (strip url)) as [m|] eqn:E.
  - destruct (@re_match_url_shape _ _ E)
      as (scheme & org & proj & kind & id & rest & Es & Hs & Ho & Hp & Hk & Hi).
    exists scheme, org, proj, kind, id, rest.
    repeat (split; [assumption|]).
    rewrite (@parse_url_shaped url scheme org proj kind id rest
               Es Hs Ho Hp Hk Hi) in H.
    destruct (Nat.ltb _ _) eqn:L; [discriminate|].
    apply Nat.ltb_ge in L. split; [exact L|].
    injection H as <-. reflexivity.
  - unfold parse_url in H. rewrite E in H. discriminate.
Qed.

(** The id that [parse_url] returns can be written back by [str]. *)
Lemma parse_url_writable : forall url c,
  parse_url url = Ok c -> writable (work_item_id c).
Proof.
  intros url c H. apply parse_url_ok_shape in H.
  destruct H as (scheme & org & proj & kind & id & rest &
                 _ & _ & _ & _ & _ & Hi & L & ->).
  unfold writable. cbn [work_item_id]. rewrite Zabs2N.id.
  destruct (take_while_split is_digit rest) as (rest' & _ & _ & Hall).
  assert (Hd : digits (id ++ take_while is_digit rest)).
  { destruct Hi as [Hne Hd]. split.
    - destruct id; [congruence|discriminate].
    - rewrite forallb_app, Hd, Hall. reflexivity. }
  pose proof (@decimal_length _ Hd). lia.
Qed.

(** * Runs of the script *)

Lemma run_script_parse_error : forall w prog url more pat msg,
  argv w = prog :: url :: more ->
  ado_pat w = Some pat -> pat <> [] ->
  parse_url url = Err (ValueError msg) ->
  run_script w = RunResult (error_json msg ++ [newline]) [] [] (Exited 1).
Proof.
  intros w prog url more pat msg Ha Hp Hne Hu.
  unfold run_script, main. rewrite Ha, Hp. simpl.
  destruct pat as [|x pat]; [congruence|].
  unfold try_except, pipeline, bind. rewrite Hu. reflexivity.
Qed.

Lemma run_script_no_pat : forall w prog url more,
  argv w = prog :: url :: more ->
  ado_pat w = None \/ ado_pat w = Some [] ->
  run_script w =
  RunResult (error_json missing_pat_message ++ [newline]) [] [] (Exited 1).
Proof.
  intros w prog url more Ha Hp.
  unfold run_script, main. rewrite Ha. simpl.
  destruct Hp as [-> | ->]; reflexivity.
Qed.

Lemma stops_at_rev_app : forall (p : char -> bool) a n,
  n <> [] -> (forall c, In c n -> p c = false) -> stops_at p (rev (a ++ n)).
Proof.
  intros p a n Hne H. rewrite rev_app_distr.
  destruct (rev n) as [|x t] eqn:E.
  - apply (f_equal (@rev char)) in E. rewrite rev_involutive in E.
    simpl in E. congruence.
  - simpl. apply H. apply in_rev. rewrite E. left. reflexivity.
Qed.

Lemma work_item_url_stripped : forall org proj kind n,
  digits n ->
  strip (work_item_url (py "https") org proj kind n) =
  work_item_url (py "https") org proj kind n.
Proof.
  intros org proj kind n [Hne Hall]. apply strip_fixed.
  - reflexivity.
  - unfold work_item_url. rewrite !app_assoc. apply stops_at_rev_app; auto.
    intros c Hc. apply digit_not_space.
    rewrite forallb_forall in Hall. auto.
Qed.

(** C1, as the code has it: for every URL of the exact form
    https://dev.azure.com/{org}/{proj}/_workitems/edit/{n} (or view), with
    org and proj non-empty and free of slashes and n a string of at most
    4300 decimal digits, parse_url succeeds with organization org, project
    the percent-decoded proj and work item id the number that n writes. *)
Theorem parse_url_recovers_parts : forall org proj kind n,
  segment org -> segment proj ->
  (kind = py "edit" \/ kind = py "view") -> digits n ->
  length n <= int_max_str_digits ->
  parse_url (work_item_url (py "https") org proj kind n) =
  Ok (UrlComponents org (unquote proj) (Z.of_N (decimal n))).
Proof.
  intros org proj kind n Horg Hproj Hkind Hn L.
  rewrite <- (app_nil_r n) at 2.
  change (@nil char) with (take_while is_digit []).
  apply parse_url_complete with (scheme := py "https") (kind := kind); auto.
  - rewrite app_nil_r. apply work_item_url_stripped. exact Hn.
  - cbn [take_while]. rewrite app_nil_r. exact L.
Qed.

Lemma parse_url_recovers_parts_witness :
  parse_url (py "https://dev.azure.com/acme/My%20Project/_workitems/edit/4201")
  = Ok (UrlComponents (py "acme") (py "My Project") 4201).
Proof.
  apply (@parse_url_recovers_parts (py "acme") (py "My%20Project")
           (py "edit") (py "4201")).
  - split; [discriminate|]. simpl. intuition discriminate.
  - split; [discriminate|]. simpl. intuition discriminate.
  - left. reflexivity.
  - split; [discriminate|]. reflexivity.
  - unfold int_max_str_digits. simpl. lia.
Defined.

(** C1 as stated fails: an id of 4301 digits is a string of decimal digits,
    and int() refuses it. *)
Lemma parse_url_refuses_long_id :
  segment (py "acme") /\ segment (py "web") /\
  digits (repeat (ch "7") 4301) /\
  parse_url (work_item_url (py "https") (py "acme") (py "web") (py "edit")
               (repeat (ch "7") 4301)) =
  Err (ValueError (int_limit_message 4301)).
Proof.
  assert (Ho : segment (py "acme"))
    by (split; [discriminate|]; simpl; intuition discriminate).
  assert (Hp : segment (py "web"))
    by (split; [discriminate|]; simpl; intuition discriminate).
  assert (Hd : digits (repeat (ch "7") 4301))
    by (split; [discriminate | vm_compute; reflexivity]).
  split; [exact Ho|]. split; [exact Hp|]. split; [exact Hd|].
  assert (E : strip (work_item_url (py "https") (py "acme") (py "web")
                       (py "edit") (repeat (ch "7") 4301)) =
              work_item_url (py "https") (py "acme") (py "web") (py "edit")
                (repeat (ch "7") 4301) ++ [])
    by (rewrite app_nil_r; apply work_item_url_stripped; exact Hd).
  assert (N : length (repeat (ch "7") 4301 ++ take_while is_digit []) = 4301)
    by (cbn [take_while]; rewrite app_nil_r; apply repeat_length).
  assert (L : int_max_str_digits <
              length (repeat (ch "7") 4301 ++ take_while is_digit []))
    by (rewrite N; apply Nat.ltb_lt; vm_compute; reflexivity).
  rewrite (@parse_url_too_long _ (py "https") (py "acme") (py "web")
             (py "edit") (repeat (ch "7") 4301) []
             E (or_intror eq_refl) Ho Hp (or_introl eq_refl) Hd L).
  rewrite N. reflexivity.
Qed.

(** C10, as the code has it: the parser strips the input and then matches
    a prefix only: when the stripped text begins with a work-item URL,
    whatever follows, and the longest run of digits at the place of the id
    has at most 4300 digits, parse_url succeeds and the id is the number
    that this run writes. *)
Theorem parse_url_matches_prefix : forall url org proj kind id rest,
  strip url = work_item_url (py "https") org proj kind id ++ rest ->
  segment org -> segment proj ->
  (kind = py "edit" \/ kind = py "view") -> digits id ->
  length (id ++ take_while is_digit rest) <= int_max_str_digits ->
  parse_url url =
  Ok (UrlComponents org (unquote proj)
        (Z.of_N (decimal (id ++ take_while is_digit rest)))).
Proof.
  intros url org proj kind id rest E Horg Hproj Hkind Hid L.
  apply parse_url_complete with (scheme := py "https") (kind := kind); auto.
Qed.

Lemma parse_url_matches_prefix_witness :
  parse_url ([32; 10]%N ++
             py "https://dev.azure.com/acme/web/_workitems/view/42" ++
             py "7x/history?tab=1" ++ [9; 32]%N)
  = Ok (UrlComponents (py "acme") (py "web") 427).
Proof.
  apply (@parse_url_matches_prefix _ (py "acme") (py "web") (py "view")
           (py "42") (py "7x/history?tab=1")).
  - reflexivity.
  - split; [discriminate|]. simpl. intuition discriminate.
  - split; [discriminate|]. simpl. intuition discriminate.
  - right. reflexivity.
  - split; [discriminate|]. reflexivity.
  - unfold int_max_str_digits. simpl. lia.
Defined.

(** C10 as stated fails: the stripped text begins with a work-item URL and
    goes on, but the run of digits is 4301 long. *)
Lemma parse_url_refuses_long_prefix :
  strip ([32]%N ++
         work_item_url (py "https") (py "acme") (py "web") (py "view")
           (py "4") ++ repeat (ch "2") 4300 ++ py "/history" ++ [10]%N) =
  work_item_url (py "https") (py "acme") (py "web") (py "view") (py "4") ++
  repeat (ch "2") 4300 ++ py "/history" /\
  parse_url ([32]%N ++
             work_item_url (py "https") (py "acme") (py "web") (py "view")
               (py "4") ++ repeat (ch "2") 4300 ++ py "/history" ++ [10]%N) =
  Err (ValueError (int_limit_message 4301)).
Proof.
  assert (E : strip ([32]%N ++
         work_item_url (py "https") (py "acme") (py "web") (py "view")
           (py "4") ++ repeat (ch "2") 4300 ++ py "/history" ++ [10]%N) =
  work_item_url (py "https") (py "acme") (py "web") (py "view") (py "4") ++
  repeat (ch "2") 4300 ++ py "/history") by (vm_compute; reflexivity).
  split; [exact E|].
  assert (Ho : segment (py "acme"))
    by (split; [discriminate|]; simpl; intuition discriminate).
  assert (Hp : segment (py "web"))
    by (split; [discriminate|]; simpl; intuition discriminate).
  assert (Hd : digits (py "4")) by (split; [discriminate | reflexivity]).
  assert (N : length (py "4" ++ take_while is_digit
                        (repeat (ch "2") 4300 ++ py "/history")) = 4301)
    by (vm_compute; reflexivity).
  assert (L : int_max_str_digits <
              length (py "4" ++ take_while is_digit
                        (repeat (ch "2") 4300 ++ py "/history")))
    by (rewrite N; apply Nat.ltb_lt; vm_compute; reflexivity).
  rewrite (@parse_url_too_long _ (py "https") (py "acme") (py "web")
             (py "view") (py "4") (repeat (ch "2") 4300 ++ py "/history")
             E (or_intror eq_refl) Ho Hp (or_intror eq_refl) Hd L).
  rewrite N. reflexivity.
Qed.

(** C4: an input that does not match the URL pattern makes parse_url fail
    with the error that carries the input and the expected format, and a run
    on such an input sends no request. *)
Theorem invalid_url_rejected_before_network : forall url,
  ~ has_url_shape (strip url) ->
  parse_url url = Err (ValueError (invalid_url_message url)) /\
  contains (invalid_url_message url) url /\
  contains (invalid_url_message url) expected_format /\
  forall w prog more,
    argv w = prog :: url :: more -> r_requests (run_script w) = [].
Proof.
  intros url H. pose proof (@parse_url_rejects url H) as E.
  split; [exact E|]. split; [|split].
  - exists (py "Invalid Azure DevOps URL: "), (newline :: expected_format).
    reflexivity.
  - exists (py "Invalid Azure DevOps URL: " ++ url ++ [newline]), [].
    unfold invalid_url_message. rewrite app_nil_r, <- !app_assoc. reflexivity.
  - intros w prog more Ha.
    destruct (ado_pat w) as [[|x pat]|] eqn:Hp.
    + rewrite (@run_script_no_pat w prog url more); auto.
    + rewrite (@run_script_parse_error w prog url more (x :: pat)
                 (invalid_url_message url)); auto. discriminate.
    + rewrite (@run_script_no_pat w prog url more); auto.
Qed.

Lemma invalid_url_rejected_before_network_witness :
  parse_url (py "https://dev.example.com/acme/web/_workitems/edit/42")
  = Err (ValueError (invalid_url_message
           (py "https://dev.example.com/acme/web/_workitems/edit/42"))) /\
  r_requests (run_script wrong_host_world) = [].
Proof.
  assert (H : ~ has_url_shape
                (strip (py "https://dev.example.com/acme/web/_workitems/edit/42"))).
  { intros H. apply parse_url_accepts in H. apply H.
    vm_compute. reflexivity. }
  destruct (@invalid_url_rejected_before_network _ H) as (E & _ & _ & R).
  split; [exact E|].
  apply (R wrong_host_world (py "fetch_ticket.py") []). reflexivity.
Defined.

(** The other two ways of missing the pattern that the specification
    names: no numeric id, and a wrong path segment. *)
Example parse_url_missing_id :
  parse_url (py "https://dev.azure.com/acme/web/_workitems/edit/") =
  Err (ValueError (invalid_url_message
         (py "https://dev.azure.com/acme/web/_workitems/edit/"))).
Proof. vm_compute. reflexivity. Qed.

Example parse_url_wrong_segment :
  parse_url (py "https://dev.azure.com/acme/web/_boards/edit/42") =
  Err (ValueError (invalid_url_message
         (py "https://dev.azure.com/acme/web/_boards/edit/42"))).
Proof. vm_compute. reflexivity. Qed.

(** C5: with the URL argument present and the credential unset or empty,
    the run writes one line, a JSON object with the key error that names
    ADO_PAT and how to set it, to standard output, writes nothing to
    standard error, sends no request and exits with status 1. *)
Theorem missing_credential_reported_on_stdout : forall w prog url more,
  argv w = prog :: url :: more ->
  ado_pat w = None \/ ado_pat w = Some [] ->
  run_script w = RunResult (missing_pat_line ++ [newline]) [] [] (Exited 1) /\
  ~ In newline missing_pat_line /\
  contains missing_pat_line (py "ADO_PAT") /\
  contains missing_pat_line (py "export ADO_PAT=<your_token>").
Proof.
  intros w prog url more Ha Hp. split; [|split; [|split]].
  - rewrite (@run_script_no_pat w prog url more); auto.
  - intros H. apply mem_In in H. vm_compute in H. discriminate.
  - exists (py "{" ++ [dquote] ++ py "error" ++ [dquote] ++ py ": " ++ [dquote]),
           (py " environment variable is not set. Export your Azure DevOps Personal Access Token: export ADO_PAT=<your_token>" ++ [dquote] ++ py "}").
    reflexivity.
  - exists (py "{" ++ [dquote] ++ py "error" ++ [dquote] ++ py ": " ++ [dquote]
            ++ py "ADO_PAT environment variable is not set. Export your Azure DevOps Personal Access Token: "),
           ([dquote] ++ py "}").
    reflexivity.
Qed.

Lemma missing_credential_reported_on_stdout_witness :
  run_script no_credential_world =
  RunResult (missing_pat_line ++ [newline]) [] [] (Exited 1).
Proof.
  apply (@missing_credential_reported_on_stdout no_credential_world
           (py "fetch_ticket.py")
           (py "https://dev.azure.com/acme/web/_workitems/edit/42") []).
  - reflexivity.
  - left. reflexivity.
Defined.

(** C8: on the description
    See <a href=(quote)https://www.figma.com/file/ABC123/My-Design?node-id=1(quote)>design</a> here
    the extractor returns the link without the characters that close the
    tag, and the normalizer returns See design here. *)
Theorem design_link_example :
  extract_figma_url (JStr design_description) =
  Ok (Some (py "https://www.figma.com/file/ABC123/My-Design?node-id=1")) /\
  strip_html (JStr design_description) = Ok (py "See design here").
Proof. split; vm_compute; reflexivity. Qed.

(** * fetch_work_item, step by step *)

Lemma bind_lift : forall A B (r : result A) (f : A -> M B) p,
  bind (lift r) f p = match r with Ok a => f a p | Err e => (Raise e, p) end.
Proof. intros A B [a|e] f p; reflexivity. Qed.

Lemma fetch_after_answer : forall data p,
  (fields <- lift (py_get data "fields" (JObj [])) ;;
   description_field <- lift (py_get fields "System.Description" JNull) ;;
   let raw_description :=
     if truthy description_field then description_field else JStr [] in
   figma_url <- lift (extract_figma_url raw_description) ;;
   description <- lift (strip_html raw_description) ;;
   assigned_to <- lift (py_get fields "System.AssignedTo" JNull) ;;
   assigned_to <- (if is_dict assigned_to
                   then lift (py_get assigned_to "displayName" JNull)
                   else ret assigned_to) ;;
   id <- lift (py_item data "id") ;;
   title <- lift (py_get fields "System.Title" (JStr [])) ;;
   state <- lift (py_get fields "System.State" (JStr [])) ;;
   type <- lift (py_get fields "System.WorkItemType" (JStr [])) ;;
   links <- lift (py_get data "_links" (JObj [])) ;;
   html <- lift (py_get links "html" (JObj [])) ;;
   href <- lift (py_get html "href" (JStr [])) ;;
   ret (Ticket id title description state type assigned_to href figma_url)) p
  = (match ticket_of data with Ok t => Return t | Err e => Raise e end, p).
Proof.
  intros data p. unfold ticket_of.
  rewrite bind_lift.
  destruct (py_get data "fields" (JObj [])) as [fields|e]; [|reflexivity].
  cbn [and_then]. rewrite bind_lift.
  destruct (py_get fields "System.Description" JNull) as [df|e]; [|reflexivity].
  cbn [and_then]. cbv zeta. rewrite bind_lift.
  destruct (extract_figma_url _) as [fu|e]; [|reflexivity].
  cbn [and_then]. rewrite bind_lift.
  destruct (strip_html _) as [d|e]; [|reflexivity].
  cbn [and_then]. rewrite bind_lift.
  destruct (py_get fields "System.AssignedTo" JNull) as [a|e]; [|reflexivity].
  cbn [and_then].
  assert (E : (if is_dict a then lift (py_get a "displayName" JNull) else ret a)
              = lift (if is_dict a then py_get a "displayName" JNull else Ok a)).
  { destruct (is_dict a); reflexivity. }
  rewrite E, bind_lift.
  destruct (if is_dict a then py_get a "displayName" JNull else Ok a)
    as [a'|e]; [|reflexivity].
  cbn [and_then]. rewrite bind_lift.
  destruct (py_item data "id") as [i|e]; [|reflexivity].
  cbn [and_then]. rewrite bind_lift.
  destruct (py_get fields "System.Title" (JStr [])) as [ti|e]; [|reflexivity].
  cbn [and_then]. rewrite bind_lift.
  destruct (py_get fields "System.State" (JStr [])) as [st|e]; [|reflexivity].
  cbn [and_then]. rewrite bind_lift.
  destruct (py_get fields "System.WorkItemType" (JStr [])) as [ty|e]; [|reflexivity].
  cbn [and_then]. rewrite bind_lift.
  destruct (py_get data "_links" (JObj [])) as [l|e]; [|reflexivity].
  cbn [and_then]. rewrite bind_lift.
  destruct (py_get l "html" (JObj [])) as [h|e]; [|reflexivity].
  cbn [and_then]. rewrite bind_lift.
  destruct (py_get h "href" (JStr [])) as [hr|e]; reflexivity.
Qed.

Lemma below_enum : forall (P : N -> bool) n,
  forallb P (map N.of_nat (seq 0 n)) = true ->
  forall d, (d < N.of_nat n)%N -> P d = true.
Proof.
  intros P n H d Hd. rewrite forallb_forall in H. apply H.
  apply in_map_iff. exists (N.to_nat d). split; [apply N2Nat.id|].
  apply in_seq. lia.
Qed.

(** The status code of a response has three digits. *)
Lemma status_writable : forall code, (100 <= code <= 999)%Z -> writable code.
Proof.
  intros code H. unfold writable. apply Nat.leb_le.
  apply (@below_enum
           (fun n => Nat.leb (length (str_of_N n)) int_max_str_digits) 1000
           ltac:(vm_compute; reflexivity) (Z.abs_N code)).
  lia.
Qed.

Lemma py_str_ok : forall z t, py_str z = Ok t -> t = str_of_Z z.
Proof.
  intros z t H. unfold py_str in H.
  destruct (Nat.ltb _ _); [discriminate|]. injection H as <-. reflexivity.
Qed.

Lemma py_str_writable : forall z, writable z -> py_str z = Ok (str_of_Z z).
Proof.
  intros z H. unfold py_str. apply Nat.ltb_ge in H. rewrite H. reflexivity.
Qed.

Lemma py_str_error : forall z e,
  py_str z = Err e -> e = ValueError str_limit_message /\ ~ writable z.
Proof.
  intros z e H. unfold py_str in H.
  destruct (Nat.ltb _ _) eqn:L; [|discriminate]. injection H as <-.
  split; [reflexivity|]. apply Nat.ltb_lt in L. unfold writable. lia.
Qed.

(** The whole of [fetch_work_item]: an error of [quote], [str] or [encode]
    before [urlopen] is called, and otherwise one call and what its end
    gives. *)
Lemma fetch_work_item_unfold : forall w org proj id pat p,
  fetch_work_item w org proj id pat p =
  match quote proj with
  | Err e => (Raise e, p)
  | Ok ep =>
      match py_str id with
      | Err e => (Raise e, p)
      | Ok _ =>
          match utf8_encode (py ":" ++ pat) with
          | Err e => (Raise e, p)
          | Ok bs =>
              let req := api_request org ep id bs in
              (answer_outcome id (urlopen w req), sent p req)
          end
      end
  end.
Proof.
  intros w org proj id pat p. unfold fetch_work_item.
  rewrite bind_lift. destruct (quote proj) as [ep|e]; [|reflexivity].
  rewrite bind_lift. destruct (py_str id) as [t|e] eqn:Ei; [|reflexivity].
  apply py_str_ok in Ei. subst t.
  rewrite bind_lift. destruct (utf8_encode (py ":" ++ pat)) as [bs|e]; [|reflexivity].
  cbv zeta. fold (api_request org ep id bs).
  unfold bind at 1. unfold send at 1. fold (sent p (api_request org ep id bs)).
  destruct (urlopen w (api_request org ep id bs))
    as [[data|msg]|code reason|reason|e]; try reflexivity.
  - unfold bind at 1. unfold ret at 1.
    apply fetch_after_answer.
  - unfold bind at 1. rewrite bind_lift. cbn [answer_outcome].
    destruct (py_str code) as [t|e] eqn:Ec; [|reflexivity].
    apply py_str_ok in Ec. subst t. reflexivity.
Qed.

(** C7, as the code has it: when the call of urlopen ends with an HTTP
    error status, fetch_work_item raises the error whose message holds the
    status code, the reason, the work item id and the advice on the
    credential; urlopen has been called once, with this request, and is not
    called again.  What goes over the wire is what that one call sends. *)
Theorem http_error_reported_once :
  forall w org proj id pat p ep bs code reason,
  quote proj = Ok ep -> writable id ->
  utf8_encode (py ":" ++ pat) = Ok bs ->
  urlopen w (api_request org ep id bs) = HTTPError code reason ->
  (100 <= code <= 999)%Z ->
  let msg := http_error_message code reason id in
  let req := api_request org ep id bs in
  fetch_work_item w org proj id pat p = (Raise (RuntimeError msg), sent p req) /\
  requests (sent p req) = requests p ++ [req] /\
  traffic w (requests (sent p req)) = traffic w (requests p) ++ wire w req /\
  contains msg (str_of_Z code) /\ contains msg reason /\
  contains msg (str_of_Z id) /\ contains msg guidance.
Proof.
  intros w org proj id pat p ep bs code reason Hq Hi He Hu Hc msg req.
  split; [|split; [|split; [|split; [|split; [|split]]]]].
  - rewrite fetch_work_item_unfold, Hq, (py_str_writable Hi), He. cbv zeta.
    rewrite Hu. cbn [answer_outcome].
    rewrite (py_str_writable (status_writable Hc)). reflexivity.
  - reflexivity.
  - unfold traffic. cbn [sent requests]. rewrite flat_map_app.
    cbn [flat_map]. rewrite app_nil_r. reflexivity.
  - exists (py "HTTP "),
      (py " " ++ reason ++ py " " ++ [em_dash] ++
       py " failed to fetch work item " ++ str_of_Z id ++ py ". " ++ guidance).
    reflexivity.
  - exists (py "HTTP " ++ str_of_Z code ++ py " "),
      (py " " ++ [em_dash] ++
       py " failed to fetch work item " ++ str_of_Z id ++ py ". " ++ guidance).
    unfold msg, http_error_message, http_error_text.
    rewrite <- !app_assoc. reflexivity.
  - exists (py "HTTP " ++ str_of_Z code ++ py " " ++ reason ++ py " " ++
            [em_dash] ++ py " failed to fetch work item "),
      (py ". " ++ guidance).
    unfold msg, http_error_message, http_error_text.
    rewrite <- !app_assoc. reflexivity.
  - exists (py "HTTP " ++ str_of_Z code ++ py " " ++ reason ++ py " " ++
            [em_dash] ++ py " failed to fetch work item " ++ str_of_Z id ++
            py ". "), [].
    unfold msg, http_error_message, http_error_text.
    rewrite app_nil_r, <- !app_assoc. reflexivity.
Qed.

Lemma http_error_reported_once_witness :
  fetch_work_item not_found_world (py "acme") (py "web") 42 (py "token")
    (Proc [] [] []) =
  (Raise (RuntimeError (http_error_message 404 (py "Not Found") 42)),
   sent (Proc [] [] [])
     (api_request (py "acme") (py "web") 42 (py ":token"))).
Proof.
  apply (@http_error_reported_once not_found_world (py "acme") (py "web") 42
           (py "token") (Proc [] [] []) (py "web") (py ":token") 404
           (py "Not Found")); try reflexivity.
  - unfold writable, int_max_str_digits. simpl. lia.
  - lia.
Defined.

(** C7 as stated fails: one call of urlopen can make more than one
    request.  Here the first response redirects, urlopen follows, and the
    HTTP error that fetch_work_item reports is that of the second
    request. *)
Lemma http_error_after_two_requests :
  fetch_work_item redirected_world (py "acme") (py "web") 42 (py "token")
    (Proc [] [] []) =
  (Raise (RuntimeError (http_error_message 404 (py "Not Found") 42)),
   sent (Proc [] [] [])
     (api_request (py "acme") (py "web") 42 (py ":token"))) /\
  length (traffic redirected_world
            (requests (sent (Proc [] [] [])
               (api_request (py "acme") (py "web") 42 (py ":token"))))) = 2.
Proof. split; vm_compute; reflexivity. Qed.

(** The same failure seen from outside: one JSON error line with the status
    code and the advice, exit status 1, one call of urlopen. *)
Example not_found_run :
  run_script not_found_world =
  RunResult
    (py "{" ++ [dquote] ++ py "error" ++ [dquote] ++ py ": " ++ [dquote] ++
     py "HTTP 404 Not Found \u2014 failed to fetch work item 42. " ++
     guidance ++ [dquote] ++ py "}" ++ [newline])
    []
    [api_request (py "acme") (py "web") 42 (py ":token")]
    (Exited 1).
Proof. vm_compute. reflexivity. Qed.

(** * The assignee *)

Lemma ticket_of_assignee : forall data t,
  ticket_of data = Ok t ->
  exists fs,
    py_get data "fields" (JObj []) = Ok (JObj fs) /\
    t_assignedTo t =
      match lookup (py "System.AssignedTo") fs with
      | Some (JObj o) =>
          match lookup (py "displayName") o with
          | Some v => v
          | None => JNull
          end
      | Some v => v
      | None => JNull
      end.
Proof.
  intros data t H. unfold ticket_of in H.
  destruct (py_get data "fields" (JObj [])) as [fields|e] eqn:Ef; [|discriminate].
  cbn [and_then] in H.
  destruct fields as [| | | | | |fs]; try discriminate.
  exists fs. split; [reflexivity|].
  destruct (py_get (JObj fs) "System.Description" JNull) as [df|e]; [|discriminate].
  cbn [and_then] in H. cbv zeta in H.
  destruct (extract_figma_url _) as [fu|e]; [|discriminate].
  cbn [and_then] in H.
  destruct (strip_html _) as [d|e]; [|discriminate].
  cbn [and_then] in H.
  unfold py_get at 1 in H.
  destruct (lookup (py "System.AssignedTo") fs) as [a|]; cbn [and_then] in H.
  - destruct a as [| | | | | |o]; cbn [is_dict and_then] in H;
      try (repeat match type of H with
                  | and_then ?r _ = _ => destruct r; [cbn [and_then] in H|discriminate]
                  end; injection H as <-; reflexivity).
    unfold py_get at 1 in H.
    destruct (lookup (py "displayName") o) as [v|]; cbn [and_then] in H;
      repeat match type of H with
             | and_then ?r _ = _ => destruct r; [cbn [and_then] in H|discriminate]
             end; injection H as <-; reflexivity.
  - cbn [is_dict and_then] in H.
    repeat match type of H with
           | and_then ?r _ = _ => destruct r; [cbn [and_then] in H|discriminate]
           end; injection H as <-; reflexivity.
Qed.

(** C6: in the record of a successful fetch, assignedTo is the displayName
    of the raw System.AssignedTo when that is an object, the string itself
    when it is a string, and null (the key is always there) when the field
    is missing or is an object without displayName. *)
Theorem assignee_resolution : forall w org proj id pat p t p',
  fetch_work_item w org proj id pat p = (Return t, p') ->
  lookup (py "assignedTo")
    match ticket_json t with JObj o => o | _ => [] end = Some (t_assignedTo t) /\
  exists req data fs,
    p' = sent p req /\
    urlopen w req = Response (Json data) /\
    py_get data "fields" (JObj []) = Ok (JObj fs) /\
    (forall o v, lookup (py "System.AssignedTo") fs = Some (JObj o) ->
                 lookup (py "displayName") o = Some v -> t_assignedTo t = v) /\
    (forall s, lookup (py "System.AssignedTo") fs = Some (JStr s) ->
               t_assignedTo t = JStr s) /\
    (lookup (py "System.AssignedTo") fs = None -> t_assignedTo t = JNull) /\
    (forall o, lookup (py "System.AssignedTo") fs = Some (JObj o) ->
               lookup (py "displayName") o = None -> t_assignedTo t = JNull).
Proof.
  intros w org proj id pat p t p' H. split; [reflexivity|].
  rewrite fetch_work_item_unfold in H.
  destruct (quote proj) as [ep|e]; [|discriminate].
  destruct (py_str id) as [it|e]; [|discriminate].
  destruct (utf8_encode (py ":" ++ pat)) as [bs|e]; [|discriminate].
  cbv zeta in H. injection H as Ho Hp.
  destruct (urlopen w (api_request org ep id bs))
    as [[data|msg]|code reason|reason|e] eqn:Eu; try discriminate.
  2:{ cbn [answer_outcome] in Ho. destruct (py_str code); discriminate. }
  simpl in Ho. destruct (ticket_of data) as [t'|e] eqn:Et; [|discriminate].
  injection Ho as ->.
  destruct (@ticket_of_assignee data t Et) as (fs & Ef & Ea).
  exists (api_request org ep id bs), data, fs.
  split; [auto|]. split; [exact Eu|]. split; [exact Ef|].
  rewrite Ea. repeat split.
  - intros o v -> ->. reflexivity.
  - intros s ->. reflexivity.
  - intros ->. reflexivity.
  - intros o -> ->. reflexivity.
Qed.

Lemma assignee_resolution_witness :
  fetch_work_item
    (assignee_world [(py "System.AssignedTo", JObj [(py "displayName", jane)])])
    (py "acme") (py "web") 42 (py "token") (Proc [] [] [])
  = (Return (assignee_ticket jane),
     sent (Proc [] [] [])
       (api_request (py "acme") (py "web") 42 (py ":token"))) /\
  lookup (py "assignedTo")
    match ticket_json (assignee_ticket jane) with JObj o => o | _ => [] end
  = Some jane.
Proof.
  assert (H : fetch_work_item
    (assignee_world [(py "System.AssignedTo", JObj [(py "displayName", jane)])])
    (py "acme") (py "web") 42 (py "token") (Proc [] [] [])
  = (Return (assignee_ticket jane),
     sent (Proc [] [] [])
       (api_request (py "acme") (py "web") 42 (py ":token")))).
  { reflexivity. }
  split; [exact H|].
  exact (proj1 (@assignee_resolution _ _ _ _ _ _ _ _ H)).
Defined.

(** The three shapes of the field that the specification lists. *)
Example assignee_object :
  fst (fetch_work_item
         (assignee_world
            [(py "System.AssignedTo", JObj [(py "displayName", jane)])])
         (py "acme") (py "web") 42 (py "token") (Proc [] [] []))
  = Return (assignee_ticket jane).
Proof. vm_compute. reflexivity. Qed.

Example assignee_string :
  fst (fetch_work_item (assignee_world [(py "System.AssignedTo", jane)])
         (py "acme") (py "web") 42 (py "token") (Proc [] [] []))
  = Return (assignee_ticket jane).
Proof. vm_compute. reflexivity. Qed.

Example assignee_absent :
  fst (fetch_work_item (assignee_world [])
         (py "acme") (py "web") 42 (py "token") (Proc [] [] []))
  = Return (assignee_ticket JNull).
Proof. vm_compute. reflexivity. Qed.

(** * Runs with the argument and the credential present *)

Lemma pipeline_unfold : forall w url pat p,
  pipeline w url pat p =
  match parse_url url with
  | Err e => (Raise e, p)
  | Ok c =>
      match fetch_work_item w (organization c) (project c)
              (work_item_id c) pat p with
      | (Return t, p1) =>
          (Return tt, printed p1 (dumps (Some 2) (ticket_json t)))
      | (Raise e, p1) => (Raise e, p1)
      | (Exit code, p1) => (Exit code, p1)
      end
  end.
Proof.
  intros w url pat p. unfold pipeline. rewrite bind_lift.
  destruct (parse_url url) as [c|e]; [|reflexivity].
  unfold bind.
  destruct (fetch_work_item w (organization c) (project c)
              (work_item_id c) pat p) as [[t|e|code] p1]; reflexivity.
Qed.

(** Nothing is written before the pipeline raises. *)
Lemma pipeline_raise_quiet : forall w url pat p e p',
  pipeline w url pat p = (Raise e, p') ->
  stdout p' = stdout p /\ stderr p' = stderr p.
Proof.
  intros w url pat p e p' H. rewrite pipeline_unfold in H.
  destruct (parse_url url) as [c|e0].
  - rewrite fetch_work_item_unfold in H.
    destruct (quote (project c)) as [ep|e1];
      [|injection H as _ <-; auto].
    destruct (py_str (work_item_id c)) as [it|e1];
      [|injection H as _ <-; auto].
    destruct (utf8_encode (py ":" ++ pat)) as [bs|e1];
      [|injection H as _ <-; auto].
    cbv zeta in H.
    destruct (answer_outcome _ _) as [t|e1|code]; try discriminate.
    injection H as _ <-. auto.
  - injection H as _ <-. auto.
Qed.

Lemma answer_outcome_not_exit : forall id a code,
  answer_outcome id a <> Exit code.
Proof.
  intros id [[data|msg]|c r|r|e] code; simpl; try discriminate.
  - destruct (ticket_of data); discriminate.
  - destruct (py_str c); discriminate.
Qed.

Lemma pipeline_never_exits : forall w url pat p code p',
  pipeline w url pat p <> (Exit code, p').
Proof.
  intros w url pat p code p' H. rewrite pipeline_unfold in H.
  destruct (parse_url url) as [c|e0]; [|simpl in H; discriminate].
  rewrite fetch_work_item_unfold in H.
  destruct (quote (project c)) as [ep|e1]; [|simpl in H; discriminate].
  destruct (py_str (work_item_id c)) as [it|e1]; [|simpl in H; discriminate].
  destruct (utf8_encode (py ":" ++ pat)) as [bs|e1]; [|simpl in H; discriminate].
  cbv zeta in H.
  destruct (answer_outcome _ _) as [t|e1|c'] eqn:E; simpl in H;
    try discriminate.
  exact (answer_outcome_not_exit _ _ E).
Qed.

Lemma pipeline_return_output : forall w url pat p u p',
  pipeline w url pat p = (Return u, p') ->
  exists t, stdout p' = stdout p ++ dumps (Some 2) (ticket_json t) ++ [newline]
            /\ stderr p' = stderr p.
Proof.
  intros w url pat p u p' H. rewrite pipeline_unfold in H.
  destruct (parse_url url) as [c|e0]; [|simpl in H; discriminate].
  rewrite fetch_work_item_unfold in H.
  destruct (quote (project c)) as [ep|e1]; [|simpl in H; discriminate].
  destruct (py_str (work_item_id c)) as [it|e1]; [|simpl in H; discriminate].
  destruct (utf8_encode (py ":" ++ pat)) as [bs|e1]; [|simpl in H; discriminate].
  cbv zeta in H.
  destruct (answer_outcome _ _) as [t|e1|c']; simpl in H; try discriminate.
  injection H as _ <-. exists t. auto.
Qed.

(** How the outcome of the pipeline decides the run. *)
Lemma run_script_pipeline : forall w prog url more pat,
  argv w = prog :: url :: more -> ado_pat w = Some pat -> pat <> [] ->
  run_script w =
  match pipeline w url pat (Proc [] [] []) with
  | (Return _, p) => RunResult (stdout p) (stderr p) (requests p) (Exited 0)
  | (Raise (ValueError msg), p) =>
      RunResult (stdout p ++ error_json msg ++ [newline]) (stderr p)
        (requests p) (Exited 1)
  | (Raise (RuntimeError msg), p) =>
      RunResult (stdout p ++ error_json msg ++ [newline]) (stderr p)
        (requests p) (Exited 1)
  | (Raise e, p) => RunResult (stdout p) (stderr p) (requests p) (Traceback e)
  | (Exit code, p) =>
      RunResult (stdout p) (stderr p) (requests p) (Exited code)
  end.
Proof.
  intros w prog url more pat Ha Hp Hne.
  unfold run_script, main. rewrite Ha, Hp. simpl.
  destruct pat as [|x pat]; [congruence|].
  unfold try_except.
  destruct (pipeline w url (x :: pat) (Proc [] [] [])) as [[u|e|code] p];
    try reflexivity.
  destruct e; reflexivity.
Qed.

(** * The error object is one line *)

Lemma hex_digit_not_newline : forall lower d,
  (d < 16)%N -> hex_digit lower d <> newline.
Proof.
  intros lower d H. unfold hex_digit, newline.
  destruct (N.ltb d 10) eqn:E.
  - change (ch "0") with 48%N. lia.
  - apply N.ltb_ge in E. destruct lower.
    + change (ch "a") with 97%N. lia.
    + change (ch "A") with 65%N. lia.
Qed.

Lemma hex_fixed_no_newline : forall lower w n,
  ~ In newline (hex_fixed lower w n).
Proof.
  induction w as [|w IH]; intros n H; simpl in H; auto.
  apply in_app_or in H. destruct H as [H|[H|[]]].
  - exact (IH _ H).
  - apply (@hex_digit_not_newline lower (n mod 16)%N); auto.
    apply N.mod_lt. discriminate.
Qed.

Lemma literal_no_newline : forall l : str,
  mem newline l = false -> ~ In newline l.
Proof.
  intros l E H. apply mem_In in H. congruence.
Qed.

Lemma escape_char_no_newline : forall c, ~ In newline (escape_char c).
Proof.
  intros c H. unfold escape_char in H.
  destruct (N.eqb c dquote); [revert H; apply literal_no_newline; reflexivity|].
  destruct (N.eqb c (ch "\")); [revert H; apply literal_no_newline; reflexivity|].
  destruct (N.eqb c 10%N) eqn:E10; [revert H; apply literal_no_newline; reflexivity|].
  destruct (N.eqb c 13%N); [revert H; apply literal_no_newline; reflexivity|].
  destruct (N.eqb c 9%N); [revert H; apply literal_no_newline; reflexivity|].
  destruct (N.eqb c 8%N); [revert H; apply literal_no_newline; reflexivity|].
  destruct (N.eqb c 12%N); [revert H; apply literal_no_newline; reflexivity|].
  destruct (in_range 32%N 126%N c).
  { destruct H as [H|[]]. subst c. discriminate E10. }
  destruct (N.ltb c 65536%N).
  - apply in_app_or in H. destruct H as [H|H].
    + revert H. apply literal_no_newline. reflexivity.
    + exact (@hex_fixed_no_newline _ _ _ H).
  - cbv zeta in H.
    apply in_app_or in H. destruct H as [H|H];
      [revert H; apply literal_no_newline; reflexivity|].
    apply in_app_or in H. destruct H as [H|H];
      [exact (@hex_fixed_no_newline _ _ _ H)|].
    apply in_app_or in H. destruct H as [H|H];
      [revert H; apply literal_no_newline; reflexivity|].
    exact (@hex_fixed_no_newline _ _ _ H).
Qed.

Lemma encode_string_no_newline : forall s, ~ In newline (encode_string s).
Proof.
  intros s H. unfold encode_string in H. destruct H as [H|H]; [discriminate|].
  apply in_app_or in H. destruct H as [H|[H|[]]]; [|discriminate].
  apply in_flat_map in H. destruct H as (c & _ & H).
  exact (@escape_char_no_newline _ H).
Qed.

Lemma error_json_one_line : forall msg, ~ In newline (error_json msg).
Proof.
  intros msg H.
  change (error_json msg)
    with (py "{" ++ [] ++ encode_string (py "error") ++ py ": " ++
          encode_string msg ++ [] ++ [] ++ py "}") in H.
  apply in_app_or in H. destruct H as [H|H];
    [revert H; apply literal_no_newline; reflexivity|].
  apply in_app_or in H. destruct H as [[]|H].
  apply in_app_or in H. destruct H as [H|H];
    [exact (@encode_string_no_newline _ H)|].
  apply in_app_or in H. destruct H as [H|H];
    [revert H; apply literal_no_newline; reflexivity|].
  apply in_app_or in H. destruct H as [H|H];
    [exact (@encode_string_no_newline _ H)|].
  revert H. apply literal_no_newline. reflexivity.
Qed.

(** C2, as the code has it: with the URL argument and the credential
    present, every ValueError or RuntimeError that the pipeline raises (an
    invalid URL, an HTTP error status, a URLError, a body that is not JSON
    text) is caught and becomes one JSON object with the key error, on one
    line of standard output, followed by exit status 1; nothing is written
    before it, no such exception escapes, and a run that ends with status 0
    has written the record and nothing else. *)
Theorem errors_become_json : forall w prog url more pat,
  argv w = prog :: url :: more -> ado_pat w = Some pat -> pat <> [] ->
  (forall e msg p',
     pipeline w url pat (Proc [] [] []) = (Raise e, p') -> reported e msg ->
     run_script w =
       RunResult (error_json msg ++ [newline]) [] (requests p') (Exited 1) /\
     ~ In newline (error_json msg)) /\
  (forall msg, parse_url url = Err (ValueError msg) ->
     run_script w = RunResult (error_json msg ++ [newline]) [] [] (Exited 1)) /\
  (forall c ep bs e msg,
     parse_url url = Ok c -> quote (project c) = Ok ep ->
     utf8_encode (py ":" ++ pat) = Ok bs ->
     answer_outcome (work_item_id c)
       (urlopen w (api_request (organization c) ep (work_item_id c) bs))
       = Raise e ->
     reported e msg ->
     run_script w =
       RunResult (error_json msg ++ [newline]) []
         [api_request (organization c) ep (work_item_id c) bs] (Exited 1)) /\
  (forall msg, r_ending (run_script w) <> Traceback (ValueError msg) /\
               r_ending (run_script w) <> Traceback (RuntimeError msg)) /\
  (forall code, r_ending (run_script w) = Exited code ->
     r_stderr (run_script w) = [] /\
     ((code = 1%Z /\
       exists msg, r_stdout (run_script w) = error_json msg ++ [newline]) \/
      (code = 0%Z /\
       exists t, r_stdout (run_script w) =
                 dumps (Some 2) (ticket_json t) ++ [newline]))).
Proof.
  intros w prog url more pat Ha Hp Hne.
  pose proof (@run_script_pipeline w prog url more pat Ha Hp Hne) as R.
  assert (Caught : forall e msg p',
     pipeline w url pat (Proc [] [] []) = (Raise e, p') -> reported e msg ->
     run_script w =
       RunResult (error_json msg ++ [newline]) [] (requests p') (Exited 1)).
  { intros e msg p' H Hr. rewrite R, H.
    destruct (pipeline_raise_quiet _ _ _ _ H) as [Ho He].
    simpl in Ho, He. rewrite Ho, He.
    destruct Hr as [-> | ->]; reflexivity. }
  split; [|split; [|split; [|split]]].
  - intros e msg p' H Hr. split; [eapply Caught; eauto|].
    apply error_json_one_line.
  - intros msg Hu.
    apply (Caught (ValueError msg) msg (Proc [] [] [])); [|left; reflexivity].
    rewrite pipeline_unfold, Hu. reflexivity.
  - intros c ep bs e msg Hu Hq He Ho Hr.
    apply (Caught e msg
             (sent (Proc [] [] [])
                (api_request (organization c) ep (work_item_id c) bs)));
      auto.
    rewrite pipeline_unfold, Hu, fetch_work_item_unfold, Hq,
      (@py_str_writable _ (@parse_url_writable url c Hu)), He.
    cbv zeta. rewrite Ho. reflexivity.
  - intros msg. rewrite R.
    destruct (pipeline w url pat (Proc [] [] [])) as [[u|e|code] p];
      [| destruct e |]; simpl; split; discriminate.
  - intros code. rewrite R.
    destruct (pipeline w url pat (Proc [] [] [])) as [[u|e|code'] p] eqn:E.
    + simpl. intros H. injection H as <-.
      destruct (pipeline_return_output _ _ _ _ E) as (t & Ho & He).
      simpl in Ho, He. split; [exact He|]. right. split; [reflexivity|].
      exists t. exact Ho.
    + destruct (pipeline_raise_quiet _ _ _ _ E) as [Ho He].
      simpl in Ho, He.
      destruct e; simpl; intros H; try discriminate;
        injection H as <-; (split; [exact He|]); left;
        (split; [reflexivity|]); exists msg; rewrite Ho; reflexivity.
    + exfalso. exact (pipeline_never_exits _ _ _ _ E).
Qed.

Lemma errors_become_json_witness :
  run_script unauthorized_world =
  RunResult
    (error_json (http_error_message 401 (py "Unauthorized") 42) ++ [newline])
    []
    [api_request (py "acme") (py "web") 42 (py ":token")]
    (Exited 1).
Proof.
  destruct (@errors_become_json unauthorized_world (py "fetch_ticket.py")
              (py "https://dev.azure.com/acme/web/_workitems/edit/42") []
              (py "token") eq_refl eq_refl)
    as (_ & _ & H & _).
  { discriminate. }
  apply (H (UrlComponents (py "acme") (py "web") 42) (py "web") (py ":token")
           (RuntimeError (http_error_message 401 (py "Unauthorized") 42))).
  - reflexivity.
  - reflexivity.
  - reflexivity.
  - reflexivity.
  - right. reflexivity.
Defined.

(** C2 as stated fails: a response with a success status whose body is the
    JSON object without members makes the run end with a KeyError that
    nothing catches. *)
Lemma empty_object_traceback :
  argv empty_object_world =
    [py "fetch_ticket.py";
     py "https://dev.azure.com/acme/web/_workitems/edit/42"] /\
  ado_pat empty_object_world = Some (py "token") /\
  run_script empty_object_world =
    RunResult [] []
      [api_request (py "acme") (py "web") 42 (py ":token")]
      (Traceback KeyError).
Proof. repeat split. Qed.

(** * Searching *)

Lemma re_search_from_some : forall r s before pre m,
  re_search_from r before s = Some (pre, m) ->
  exists mid,
    pre = rev before ++ mid /\
    s = mid ++ m_text m ++ m_rest m /\
    matches r (m_text m) /\
    forall a b, mid = a ++ b -> b <> [] ->
                re_match r (b ++ m_text m ++ m_rest m) = None.
Proof.
  induction s as [|x s IH]; intros before pre m H; simpl in H.
  - destruct (re_match r []) as [m'|] eqn:E; [|discriminate].
    injection H as <- <-. apply re_match_sound in E. destruct E as [E Hm].
    exists []. rewrite app_nil_r. repeat split; auto.
    intros a b Hab Hb. destruct a; destruct b; simpl in Hab; congruence.
  - destruct (re_match r (x :: s)) as [m'|] eqn:E.
    + injection H as <- <-. apply re_match_sound in E. destruct E as [E Hm].
      exists []. rewrite app_nil_r. repeat split; auto.
      intros a b Hab Hb. destruct a; destruct b; simpl in Hab; congruence.
    + apply IH in H. destruct H as (mid & Hpre & Hs & Hm & Hearlier).
      exists (x :: mid). repeat split; auto.
      * rewrite Hpre. simpl. rewrite <- app_assoc. reflexivity.
      * simpl. rewrite <- Hs. reflexivity.
      * intros a b Hab Hb. destruct a as [|y a]; simpl in Hab.
        { subst b. simpl. rewrite <- Hs. exact E. }
        { injection Hab as _ Hab. eapply Hearlier; eauto. }
Qed.


(** [re.search] returns a text of the language at the leftmost place where
    one starts. *)
Lemma re_search_some : forall r s pre m,
  re_search r s = Some (pre, m) ->
  s = pre ++ m_text m ++ m_rest m /\ matches r (m_text m) /\
  forall pre' u post, s = pre' ++ u ++ post -> matches r u ->
                      length pre <= length pre'.
Proof.
  intros r s pre m H. unfold re_search in H.
  apply re_search_from_some in H.
  destruct H as (mid & Hpre & Hs & Hm & Hearlier).
  simpl in Hpre. subst mid. repeat split; auto.
  intros pre' u post Hs' Hu.
  destruct (Nat.le_gt_cases (length pre) (length pre')) as [L|L]; auto.
  exfalso. rewrite Hs in Hs'.
  apply app_eq_app in Hs'. destruct Hs' as (l & [[H1 H2]|[H1 H2]]).
  - assert (Hl : l <> []).
    { intros ->. rewrite app_nil_r in H1. subst. lia. }
    specialize (Hearlier pre' l H1 Hl). rewrite <- H2 in Hearlier.
    exact (re_match_complete post Hu Hearlier).
  - subst pre'. rewrite length_app in L. lia.
Qed.


(** * extract_figma_url *)





(** The link is taken from the markup as it stands: an entity inside the
    link is returned as written, not decoded. *)
Example figma_link_keeps_entities :
  extract_figma_url (JStr encoded_link_description) =
  Ok (Some (py "https://figma.com/design/K7/Flow?a=1&amp;b=2")) /\
  strip_html (JStr encoded_link_description) = Ok (py "flow").
Proof. split; vm_compute; reflexivity. Qed.

(** * Whitespace *)

Lemma take_drop_while : forall p s, take_while p s ++ drop_while p s = s.
Proof.
  induction s as [|x s IH]; simpl; auto.
  destruct (p x); simpl; try rewrite IH; reflexivity.
Qed.

Lemma take_while_all : forall p s, forallb p (take_while p s) = true.
Proof.
  induction s as [|x s IH]; simpl; auto.
  destruct (p x) eqn:E; simpl; auto. rewrite E. exact IH.
Qed.

Lemma drop_while_stops : forall p s, stops_at p (drop_while p s).
Proof.
  induction s as [|x s IH]; simpl; auto.
  destruct (p x) eqn:E; [exact IH | exact E].
Qed.

Lemma take_while_length : forall p s,
  length (take_while p s) = count_while p s.
Proof.
  induction s as [|x s IH]; simpl; auto.
  destruct (p x); simpl; auto.
Qed.

Lemma re_match_spaces_none : forall u,
  stops_at is_space u -> re_match spaces_re u = None.
Proof.
  intros [|x u] H; [reflexivity|]. simpl in H.
  unfold re_match, spaces_re, Plus.
  change (run (Cat (Cls is_space) (Star (Cls is_space))) (x :: u) [] accept)
    with (run (Cls is_space) (x :: u) []
            (fun s' c' => run (Star (Cls is_space)) s' c' accept)).
  rewrite run_cls_cons, H. reflexivity.
Qed.

Lemma re_match_spaces_some : forall x u,
  is_space x = true ->
  re_match spaces_re (x :: u) =
  Some (MatchObj (x :: take_while is_space u) [] (drop_while is_space u)).
Proof.
  intros x u H.
  assert (E : x :: u = (x :: take_while is_space u) ++ drop_while is_space u).
  { simpl. rewrite take_drop_while. reflexivity. }
  rewrite E at 1. unfold re_match, spaces_re.
  rewrite (@run_plus_cls is_space (x :: take_while is_space u)
             (drop_while is_space u) [] accept (drop_while is_space u, [])).
  - unfold mk_match. rewrite consumed_app. reflexivity.
  - discriminate.
  - simpl. rewrite H. apply take_while_all.
  - apply drop_while_stops.
  - reflexivity.
Qed.

(** [re.sub(r'\s+', ' ', u)] is [collapse]. *)
Lemma sub_spaces_collapse : forall u,
  sub_from spaces_re (fun _ => py " ") 0 u = collapse false u /\
  sub_from spaces_re (fun _ => py " ") (count_while is_space u) u
    = collapse true u.
Proof.
  induction u as [|x u [IH0 IH1]].
  - split; reflexivity.
  - assert (H0 : sub_from spaces_re (fun _ => py " ") 0 (x :: u)
                 = collapse false (x :: u)).
    { cbn [sub_from collapse]. destruct (is_space x) eqn:E.
      - rewrite (@re_match_spaces_some x u E). cbn [m_text length].
        rewrite take_while_length, IH1. reflexivity.
      - rewrite re_match_spaces_none by exact E. rewrite IH0. reflexivity. }
    split; [exact H0|].
    cbn [count_while collapse]. destruct (is_space x) eqn:E.
    + cbn [sub_from]. exact IH1.
    + rewrite H0. cbn [collapse]. rewrite E. reflexivity.
Qed.

Lemma collapse_stops : forall u, stops_at is_space (collapse true u).
Proof.
  induction u as [|x u IH]; simpl; auto.
  destruct (is_space x) eqn:E; [exact IH | exact E].
Qed.

Lemma collapse_collapsed : forall u b, collapsed (collapse b u).
Proof.
  induction u as [|x u IH]; intros b; simpl; auto.
  destruct (is_space x) eqn:E.
  - destruct b; [apply IH|]. simpl. split; [|apply IH].
    intros _. split; [reflexivity|apply collapse_stops].
  - simpl. split; [|apply IH]. rewrite E. discriminate.
Qed.

Lemma collapsed_fixed : forall t,
  collapsed t ->
  collapse false t = t /\ (stops_at is_space t -> collapse true t = t).
Proof.
  induction t as [|x t IH]; intros H; [split; reflexivity|].
  simpl in H. destruct H as [Hx Ht]. destruct (IH Ht) as [IH0 IH1].
  simpl. destruct (is_space x) eqn:E.
  - destruct (Hx eq_refl) as [-> Hs]. split.
    + rewrite (IH1 Hs). reflexivity.
    + intros Hc. simpl in Hc. congruence.
  - rewrite IH0. split; reflexivity.
Qed.

Lemma collapse_chars : forall c u b,
  In c (collapse b u) -> c = ch " " \/ In c u.
Proof.
  induction u as [|x u IH]; intros b H; simpl in H; [contradiction|].
  destruct (is_space x).
  - destruct b.
    + destruct (IH _ H); auto. right. right. assumption.
    + destruct H as [H|H]; auto. destruct (IH _ H); auto.
      right. right. assumption.
  - destruct H as [H|H]; [right; left; exact H|].
    destruct (IH _ H); auto. right. right. assumption.
Qed.

(** * Stripping *)

Lemma lstrip_suffix : forall s, exists a, s = a ++ lstrip s.
Proof.
  intros s. exists (take_while is_space s). unfold lstrip.
  symmetry. apply take_drop_while.
Qed.

Lemma rstrip_prefix : forall s, exists w, s = rstrip s ++ w.
Proof.
  intros s. exists (rev (take_while is_space (rev s))). unfold rstrip.
  rewrite <- rev_app_distr, take_drop_while. symmetry. apply rev_involutive.
Qed.

Lemma strip_inside : forall s, exists a w, s = a ++ strip s ++ w.
Proof.
  intros s. destruct (lstrip_suffix s) as [a Ha].
  destruct (rstrip_prefix (lstrip s)) as [w Hw].
  exists a, w. unfold strip. rewrite <- Hw. exact Ha.
Qed.

Lemma stops_at_prefix : forall (p : char -> bool) a w,
  stops_at p (a ++ w) -> a <> [] -> stops_at p a.
Proof.
  intros p [|x a] w H Hne; [congruence|exact H].
Qed.

Lemma strip_stops : forall s,
  stops_at is_space (strip s) /\ stops_at is_space (rev (strip s)).
Proof.
  intros s. split.
  - destruct (rstrip_prefix (lstrip s)) as [w Hw]. fold (strip s) in Hw.
    destruct (strip s) as [|x t] eqn:E; [exact I|].
    apply stops_at_prefix with (w := w); [|discriminate].
    rewrite <- Hw. apply drop_while_stops.
  - unfold strip, rstrip. rewrite rev_involutive. apply drop_while_stops.
Qed.

Lemma strip_idempotent : forall s, strip (strip s) = strip s.
Proof.
  intros s. destruct (strip_stops s). apply strip_fixed; assumption.
Qed.

Lemma collapsed_app : forall a w, collapsed (a ++ w) -> collapsed a /\ collapsed w.
Proof.
  induction a as [|x a IH]; intros w H; simpl in *; [auto|].
  destruct H as [Hx H]. destruct (IH _ H) as [Ha Hw].
  repeat split; auto; destruct (Hx H0) as [E S]; auto.
  destruct a; simpl in *; auto.
Qed.

Lemma strip_collapsed : forall s, collapsed s -> collapsed (strip s).
Proof.
  intros s H. destruct (strip_inside s) as (a & w & E).
  rewrite E in H. apply collapsed_app in H. destruct H as [_ H].
  apply collapsed_app in H. tauto.
Qed.

(** * Tags *)

Lemma re_match_tag_nil : re_match tag_re [] = None.
Proof. reflexivity. Qed.

Lemma re_match_tag_other : forall x s,
  x <> ch "<" -> re_match tag_re (x :: s) = None.
Proof.
  intros x s H. unfold re_match, tag_re.
  rewrite run_seq_cons. unfold Lit. rewrite run_cls_cons.
  destruct (N.eqb (ch "<") x) eqn:E; [|reflexivity].
  apply N.eqb_eq in E. congruence.
Qed.

Lemma not_gt_chars : forall xs,
  forallb (fun c => negb (mem c (py ">"))) xs = true -> ~ In (ch ">") xs.
Proof.
  intros xs H Hin. rewrite forallb_forall in H. specialize (H _ Hin).
  vm_compute in H. discriminate.
Qed.

(** A text of the language of the tag pattern. *)
Lemma tag_re_shape : forall u,
  matches tag_re u ->
  exists x xs, u = ch "<" :: x :: xs ++ [ch ">"] /\ ~ In (ch ">") (x :: xs).
Proof.
  intros u H. unfold tag_re in H. cbn [Seq] in H.
  apply matches_cat_inv in H. destruct H as (a1 & s1 & -> & A1 & H).
  apply matches_cat_inv in H. destruct H as (a2 & s2 & -> & A2 & H).
  apply matches_cat_inv in H. destruct H as (a3 & s3 & -> & A3 & H).
  apply matches_eps_inv in H. subst s3.
  apply matches_lit_inv in A1, A3. subst a1 a3.
  apply matches_plus_cls_inv in A2. destruct A2 as [Hne Hall].
  destruct a2 as [|x xs]; [congruence|].
  exists x, xs. split; [|apply not_gt_chars; exact Hall].
  reflexivity.
Qed.

Lemma re_match_tag_nonempty : forall s m,
  re_match tag_re s = Some m -> exists n, length (m_text m) = S n.
Proof.
  intros s m H. apply re_match_sound in H. destruct H as [_ H].
  apply tag_re_shape in H. destruct H as (x & xs & -> & _).
  simpl. eauto.
Qed.

Lemma no_tag_after_no_match : forall b,
  no_tag_after b -> re_match tag_re (ch "<" :: b) = None.
Proof.
  intros b H. destruct (re_match tag_re (ch "<" :: b)) as [m|] eqn:E; auto.
  exfalso. apply re_match_sound in E. destruct E as [E Hm].
  apply tag_re_shape in Hm. destruct Hm as (x & xs & Et & Hx).
  rewrite Et in E. simpl in E. injection E as E. subst b.
  simpl in H. destruct H as [H|H].
  - apply Hx. left. exact H.
  - apply H. rewrite <- app_assoc. apply in_or_app. right. left. reflexivity.
Qed.

Lemma take_while_until : forall (p : char -> bool) c s,
  In c s -> p c = false -> (forall y, p y = false -> y = c) ->
  exists rest, s = take_while p s ++ c :: rest.
Proof.
  intros p c s Hin Hc Hp. induction s as [|y s IH]; [contradiction|].
  simpl. destruct (p y) eqn:E.
  - destruct Hin as [Hin|Hin]; [congruence|].
    destruct (IH Hin) as [rest Hr]. exists rest. simpl. rewrite <- Hr.
    reflexivity.
  - exists s. rewrite (Hp _ E). reflexivity.
Qed.

Lemma take_while_not_gt : forall s,
  In (ch ">") s ->
  exists rest, s = take_while (fun c => negb (mem c (py ">"))) s
                   ++ ch ">" :: rest.
Proof.
  intros s H. apply take_while_until; auto.
  intros y E. apply negb_false_iff in E. apply mem_In in E.
  destruct E as [E|[]]. symmetry. exact E.
Qed.

Lemma no_match_no_tag_after : forall b,
  re_match tag_re (ch "<" :: b) = None -> no_tag_after b.
Proof.
  intros [|x b] H; [exact I|]. simpl.
  destruct (N.eq_dec x (ch ">")) as [E|E]; [left; exact E|].
  right. intros Hin. destruct (@take_while_not_gt b Hin) as [rest Hr].
  set (xs := take_while (fun c => negb (mem c (py ">"))) b) in *.
  assert (Hm : matches tag_re (ch "<" :: x :: xs ++ [ch ">"])).
  { unfold tag_re. cbn [Seq].
    change (ch "<" :: x :: xs ++ [ch ">"])
      with ([ch "<"] ++ (x :: xs) ++ [ch ">"] ++ []).
    apply M_cat; [apply M_cls; apply N.eqb_refl|].
    apply M_cat.
    - change (x :: xs) with ([x] ++ xs). apply M_cat.
      + apply M_cls. simpl. rewrite orb_false_r.
        apply negb_true_iff. apply N.eqb_neq. exact E.
      + clear Hr. assert (Hall : forallb (fun c => negb (mem c (py ">"))) xs = true)
          by apply take_while_all.
        clearbody xs. induction xs as [|y ys IHy]; [apply M_star_nil|].
        simpl in Hall. apply andb_true_iff in Hall. destruct Hall as [Hy Hall].
        change (y :: ys) with ([y] ++ ys). apply M_star_cons; auto.
        apply M_cls. exact Hy.
    - apply M_cat; [apply M_cls; apply N.eqb_refl|apply M_eps]. }
  apply (@re_match_complete tag_re _ rest) in Hm.
  apply Hm. rewrite <- H. f_equal. simpl. rewrite <- app_assoc. simpl.
  rewrite Hr at 1. reflexivity.
Qed.

(** * What [re.sub] leaves of the tags *)

Lemma sub_chars : forall r c s skip,
  In c (sub_from r (fun _ => py " ") skip s) -> c = ch " " \/ In c s.
Proof.
  induction s as [|x s IH]; intros skip H.
  - destruct skip; simpl in H; [|contradiction].
    destruct (re_match r []) as [m|]; [|contradiction].
    destruct (length (m_text m)); simpl in H; intuition.
  - destruct skip as [|n]; cbn [sub_from] in H.
    + destruct (re_match r (x :: s)) as [m|].
      * destruct (length (m_text m)).
        { destruct (re_match_nonempty r (x :: s)) as [m'|].
          - apply in_app_or in H. destruct H as [H|H];
              [simpl in H; intuition|].
            apply in_app_or in H. destruct H as [H|H];
              [simpl in H; intuition|].
            destruct (IH _ H); auto. right. right. assumption.
          - apply in_app_or in H. destruct H as [H|H];
              [simpl in H; intuition|].
            destruct H as [H|H]; [right; left; exact H|].
            destruct (IH _ H); auto. right. right. assumption. }
        { apply in_app_or in H. destruct H as [H|H];
            [simpl in H; intuition|].
          destruct (IH _ H); auto. right. right. assumption. }
      * destruct H as [H|H]; [right; left; exact H|].
        destruct (IH _ H); auto. right. right. assumption.
    + destruct (IH _ H); auto. right. right. assumption.
Qed.

Lemma no_gt_no_tag_after : forall o, ~ In (ch ">") o -> no_tag_after o.
Proof.
  intros [|z o] H; simpl; auto. right. intros Hin. apply H. right. exact Hin.
Qed.

Lemma no_tag_after_sub : forall b,
  no_tag_after b -> no_tag_after (sub_from tag_re (fun _ => py " ") 0 b).
Proof.
  intros [|y b] H; [exact I|]. simpl in H.
  destruct (N.eq_dec y (ch ">")) as [E|E].
  - subst y. cbn [sub_from].
    rewrite re_match_tag_other by discriminate. simpl. left. reflexivity.
  - destruct H as [H|H]; [exfalso; apply E; exact H|].
    apply no_gt_no_tag_after. intros Hin. apply sub_chars in Hin.
    destruct Hin as [Hin|[Hin|Hin]]; try discriminate; auto.
Qed.

Lemma sub_tags_tagless : forall s skip,
  tagless (sub_from tag_re (fun _ => py " ") skip s).
Proof.
  induction s as [|x s IH]; intros skip.
  - destruct skip; simpl; exact I.
  - destruct skip as [|n]; cbn [sub_from]; [|apply IH].
    destruct (re_match tag_re (x :: s)) as [m|] eqn:E.
    + destruct (@re_match_tag_nonempty _ m E) as [n ->].
      simpl. split; [discriminate|apply IH].
    + simpl. split; [|apply IH].
      intros ->. apply no_tag_after_sub. apply no_match_no_tag_after. exact E.
Qed.

Lemma tagless_sub_fixed : forall t,
  tagless t -> sub_from tag_re (fun _ => py " ") 0 t = t.
Proof.
  induction t as [|x t IH]; intros H; [reflexivity|].
  simpl in H. destruct H as [Hx Ht]. cbn [sub_from].
  assert (E : re_match tag_re (x :: t) = None).
  { destruct (N.eq_dec x (ch "<")) as [->|Hn].
    - apply no_tag_after_no_match. auto.
    - apply re_match_tag_other. exact Hn. }
  rewrite E, (IH Ht). reflexivity.
Qed.

Lemma no_tag_after_prefix : forall a w, no_tag_after (a ++ w) -> no_tag_after a.
Proof.
  intros [|y a] w H; [exact I|]. simpl in *. destruct H as [H|H]; auto.
  right. intros Hin. apply H. apply in_or_app. left. exact Hin.
Qed.

Lemma tagless_app : forall a w, tagless (a ++ w) -> tagless a /\ tagless w.
Proof.
  induction a as [|x a IH]; intros w H; simpl in *; [auto|].
  destruct H as [Hx H]. destruct (IH _ H) as [Ha Hw].
  repeat split; auto. intros E. eapply no_tag_after_prefix; eauto.
Qed.

Lemma strip_tagless : forall s, tagless s -> tagless (strip s).
Proof.
  intros s H. destruct (strip_inside s) as (a & w & E).
  rewrite E in H. apply tagless_app in H. destruct H as [_ H].
  apply tagless_app in H. tauto.
Qed.

Lemma no_tag_after_collapse : forall u,
  no_tag_after u -> no_tag_after (collapse false u).
Proof.
  intros [|y u] H; [exact I|]. simpl in H.
  destruct (N.eq_dec y (ch ">")) as [E|E].
  - subst y. simpl. left. reflexivity.
  - destruct H as [H|H]; [exfalso; apply E; exact H|].
    apply no_gt_no_tag_after. intros Hin. apply collapse_chars in Hin.
    destruct Hin as [Hin|[Hin|Hin]]; try discriminate; auto.
Qed.

Lemma collapse_tagless : forall u b, tagless u -> tagless (collapse b u).
Proof.
  induction u as [|x u IH]; intros b H; [exact I|].
  simpl in H. destruct H as [Hx Hu]. simpl.
  destruct (is_space x) eqn:E.
  - destruct b; [apply IH; exact Hu|].
    simpl. split; [discriminate|apply IH; exact Hu].
  - simpl. split; [|apply IH; exact Hu].
    intros Ex. apply no_tag_after_collapse. auto.
Qed.

(** * strip_html, twice *)

Lemma strip_html_text : forall s,
  strip_html (JStr s) =
  match unescape (re_sub tag_re (fun _ => py " ") s) with
  | Ok u => Ok (finished u)
  | Err e => Err e
  end.
Proof.
  intros [|x s]; reflexivity.
Qed.

Lemma unescape_plain : forall s, ~ In (ch "&") s -> unescape s = Ok s.
Proof.
  intros s H. unfold unescape.
  destruct (mem (ch "&") s) eqn:E; [|reflexivity].
  apply mem_In in E. contradiction.
Qed.

(** Without an ampersand there is nothing to decode, and nothing that can
    raise. *)
Lemma strip_html_plain : forall s,
  ~ In (ch "&") s -> strip_html (JStr s) = Ok (normalized s).
Proof.
  intros s H. rewrite strip_html_text, unescape_plain; [reflexivity|].
  intros Hin. apply sub_chars in Hin.
  destruct Hin as [Hin|Hin]; [discriminate|contradiction].
Qed.

Lemma strip_chars : forall c s, In c (strip s) -> In c s.
Proof.
  intros c s H. destruct (strip_inside s) as (a & w & E). rewrite E.
  apply in_or_app. right. apply in_or_app. left. exact H.
Qed.

(** Without character references, normalizing is: tags to spaces, runs of
    whitespace to one space, and the ends stripped. *)
Lemma normalized_plain : forall s,
  ~ In (ch "&") s ->
  normalized s =
  strip (collapse false (sub_from tag_re (fun _ => py " ") 0 s)).
Proof.
  intros s H. unfold normalized, finished, re_sub.
  rewrite (proj1 (@sub_spaces_collapse _)). reflexivity.
Qed.






(** The same with named references, and a reference that decodes to a
    reference. *)
Example strip_html_named_references :
  strip_html (JStr (py "&lt;b&gt;")) = Ok (py "<b>") /\
  strip_html (JStr (py "&amp;lt;")) = Ok (py "&lt;") /\
  strip_html (JStr (py "&lt;")) = Ok (py "<").
Proof. repeat split; vm_compute; reflexivity. Qed.

(** * More about parse_url *)

(** parse_url, completely: it succeeds exactly on the texts that begin,
    once stripped, with http or https, the host dev.azure.com, two
    non-empty segments, _workitems, edit or view and a run of at most 4300
    digits; the result is the first segment, the percent-decoded second one
    and the number written by the longest run of digits. *)
Theorem parse_url_characterised : forall url c,
  parse_url url = Ok c <->
  exists scheme org proj kind id rest,
    strip url = work_item_url scheme org proj kind id ++ rest /\
    (scheme = py "http" \/ scheme = py "https") /\
    segment org /\ segment proj /\
    (kind = py "edit" \/ kind = py "view") /\ digits id /\
    length (id ++ take_while is_digit rest) <= int_max_str_digits /\
    c = UrlComponents org (unquote proj)
          (Z.of_N (decimal (id ++ take_while is_digit rest))).
Proof.
  intros url c. split.
  - apply parse_url_ok_shape.
  - intros (scheme & org & proj & kind & id & rest &
            Es & Hs & Ho & Hp & Hk & Hi & L & ->).
    exact (@parse_url_complete url scheme org proj kind id rest
             Es Hs Ho Hp Hk Hi L).
Qed.

(** parse_url raises nothing but a ValueError, which main catches, and
    that in two ways only: the error of an invalid URL, when the stripped
    text does not begin with a work-item URL, and the error of int(), when
    it does and the run of digits is longer than 4300.  The reading of the
    groups never fails. *)
Theorem parse_url_two_errors : forall url,
  (exists c, parse_url url = Ok c) \/
  (~ has_url_shape (strip url) /\
   parse_url url = Err (ValueError (invalid_url_message url))) \/
  (has_url_shape (strip url) /\
   exists n, int_max_str_digits < n /\
             parse_url url = Err (ValueError (int_limit_message n))).
Proof.
  intros url.
  destruct (re_match url_re (strip url)) as [m|] eqn:E.
  - pose proof (@re_match_url_shape _ _ E) as S.
    destruct S as (scheme & org & proj & kind & id & rest &
                   Es & Hs & Ho & Hp & Hk & Hi).
    rewrite (@parse_url_shaped url scheme org proj kind id rest
               Es Hs Ho Hp Hk Hi).
    destruct (Nat.ltb _ _) eqn:L.
    + right. right. split.
      * exists scheme, org, proj, kind, id, rest.
        exact (conj Es (conj Hs (conj Ho (conj Hp (conj Hk Hi))))).
      * apply Nat.ltb_lt in L. eauto.
    + left. eauto.
  - right. left. split.
    + intros S. apply parse_url_accepts in S. apply S.
      unfold parse_url. rewrite E. reflexivity.
    + unfold parse_url. rewrite E. reflexivity.
Qed.

(** The parts that parse_url returns: the organization is a non-empty
    segment without slash and the id is not negative. *)
Theorem parse_url_components_invariant : forall url c,
  parse_url url = Ok c ->
  segment (organization c) /\ (0 <= work_item_id c)%Z.
Proof.
  intros url c H. apply parse_url_ok_shape in H.
  destruct H as (scheme & org & proj & kind & id & rest &
                 _ & _ & Ho & _ & _ & _ & _ & ->).
  simpl. split; [exact Ho|]. apply N2Z.is_nonneg.
Qed.

Lemma parse_url_components_invariant_witness :
  segment (py "acme") /\ (0 <= 42)%Z.
Proof.
  apply (@parse_url_components_invariant
           (py "http://dev.azure.com/acme/a%2Fb/_workitems/view/042")
           (UrlComponents (py "acme") (py "a/b") 42)).
  reflexivity.
Defined.

(** The project is decoded after the match, so it can hold a slash that
    the pattern would not let through. *)
Example parse_url_decoded_slash :
  parse_url (py "http://dev.azure.com/acme/a%2Fb/_workitems/view/042")
  = Ok (UrlComponents (py "acme") (py "a/b") 42).
Proof. vm_compute. reflexivity. Qed.

(** Only the stripped text decides whether and how parse_url succeeds. *)
Theorem parse_url_ignores_outer_whitespace : forall url c,
  parse_url url = Ok c <-> parse_url (strip url) = Ok c.
Proof.
  intros url c. unfold parse_url. rewrite strip_idempotent.
  destruct (re_match url_re (strip url)) as [m|]; [tauto|].
  split; discriminate.
Qed.

(** * More about strip_html *)

Lemma finished_collapse : forall u,
  finished u = strip (collapse false u).
Proof.
  intros u. unfold finished, re_sub.
  rewrite (proj1 (@sub_spaces_collapse _)). reflexivity.
Qed.

Lemma finished_tidy : forall u, tidy (finished u).
Proof.
  intros u. rewrite finished_collapse. split; [|apply strip_stops].
  apply strip_collapsed. apply collapse_collapsed.
Qed.

(** Whatever the text, with or without character references, the result
    of strip_html has no whitespace at its ends and no whitespace inside but
    single spaces. *)
Theorem strip_html_output_tidy : forall s t,
  strip_html (JStr s) = Ok t -> tidy t.
Proof.
  intros s t H. rewrite strip_html_text in H.
  destruct (unescape _) as [u|e]; [|discriminate].
  injection H as <-. apply finished_tidy.
Qed.

Lemma strip_html_output_tidy_witness :
  tidy (py "a < b & c").
Proof.
  apply (@strip_html_output_tidy
           ([9; 10]%N ++ py "<p>a  &lt; b</p>" ++ [160; 10]%N
            ++ py "&amp;<br/>c ")
           (py "a < b & c")).
  vm_compute. reflexivity.
Defined.

(** On text without an ampersand, strip_html returns its argument
    unchanged exactly when no less-than sign opens a tag in it and it is
    trimmed with all whitespace single spaces. *)
Theorem strip_html_fixed_points : forall t,
  ~ In (ch "&") t ->
  (strip_html (JStr t) = Ok t <-> tagless t /\ tidy t).
Proof.
  intros t Hamp. rewrite (@strip_html_plain t Hamp). split.
  - intros H. injection H as H. split.
    + rewrite <- H. rewrite (@normalized_plain t Hamp).
      apply strip_tagless. apply collapse_tagless. apply sub_tags_tagless.
    + rewrite <- H. apply finished_tidy.
  - intros (Htag & Hcol & Hl & Hr). f_equal.
    rewrite (@normalized_plain t Hamp).
    rewrite (@tagless_sub_fixed t Htag).
    rewrite (proj1 (@collapsed_fixed t Hcol)).
    apply strip_fixed; assumption.
Qed.

Lemma strip_html_fixed_points_witness :
  tagless (py "if a <> b then c > d <") /\
  tidy (py "if a <> b then c > d <").
Proof.
  assert (H : ~ In (ch "&") (py "if a <> b then c > d <")).
  { intros H. apply mem_In in H. vm_compute in H. discriminate. }
  destruct (@strip_html_fixed_points _ H) as [H1 _].
  apply H1. vm_compute. reflexivity.
Defined.

(** * More about extract_figma_url *)

Lemma id_char_path_char : forall c, id_char c = true -> path_char c = true.
Proof.
  intros c H. unfold path_char. apply negb_true_iff.
  apply orb_false_iff. split.
  - destruct (is_space c) eqn:Es; [|reflexivity].
    unfold is_space in Es. apply mem_In in Es. unfold whitespace in Es.
    simpl in Es.
    repeat (destruct Es as [Es|Es]; [subst c; vm_compute in H; discriminate|]).
    contradiction.
  - destruct (mem c (dquote :: py "'<>)}]")) eqn:Em; [|reflexivity].
    apply mem_In in Em. simpl in Em.
    repeat (destruct Em as [Em|Em]; [subst c; vm_compute in H; discriminate|]).
    contradiction.
Qed.

Lemma forallb_impl : forall (p q : char -> bool) l,
  (forall c, p c = true -> q c = true) ->
  forallb p l = true -> forallb q l = true.
Proof.
  intros p q l H Hp. apply forallb_forall. intros x Hx.
  rewrite forallb_forall in Hp. auto.
Qed.

Lemma matches_star_cls : forall p s,
  matches (Star (Cls p)) s -> forallb p s = true.
Proof.
  intros p s H. eapply matches_star_cls_inv; eauto.
Qed.

(** Every text in the language of the Figma pattern. *)
Lemma figma_re_shape : forall u,
  matches figma_re u ->
  exists s www kind id tail,
    u = py "http" ++ s ++ py "://" ++ www ++ py "figma.com/" ++ kind ++
        py "/" ++ id ++ tail /\
    (s = [] \/ s = py "s") /\
    (www = [] \/ www = py "www.") /\
    (kind = py "file" \/ kind = py "design" \/ kind = py "proto") /\
    id <> [] /\ forallb id_char id = true /\
    (tail = [] \/
     exists path, tail = ch "/" :: path /\ forallb path_char path = true).
Proof.
  intros u H. unfold figma_re in H. cbn [Seq] in H.
  apply matches_cat_inv in H. destruct H as (a1 & s1 & -> & A1 & H).
  apply matches_cat_inv in H. destruct H as (a2 & s2 & -> & A2 & H).
  apply matches_cat_inv in H. destruct H as (a3 & s3 & -> & A3 & H).
  apply matches_cat_inv in H. destruct H as (a4 & s4 & -> & A4 & H).
  apply matches_cat_inv in H. destruct H as (a5 & s5 & -> & A5 & H).
  apply matches_cat_inv in H. destruct H as (a6 & s6 & -> & A6 & H).
  apply matches_cat_inv in H. destruct H as (a7 & s7 & -> & A7 & H).
  apply matches_cat_inv in H. destruct H as (a8 & s8 & -> & A8 & H).
  apply matches_cat_inv in H. destruct H as (a9 & s9 & -> & A9 & H).
  apply matches_eps_inv in H. subst s9.
  apply matches_str_inv in A1, A3, A5. apply matches_lit_inv in A7.
  apply matches_plus_cls_inv in A8. destruct A8 as [N8 C8].
  subst a1 a3 a5 a7.
  exists a2, a4, a6, a8, a9. rewrite app_nil_r.
  split; [reflexivity|]. split; [|split; [|split; [|split; [|split]]]]; auto.
  - apply matches_opt_inv in A2. destruct A2 as [A2|A2]; auto.
    apply matches_lit_inv in A2. auto.
  - apply matches_opt_inv in A4. destruct A4 as [A4|A4]; auto.
    apply matches_str_inv in A4. auto.
  - apply matches_alt_inv in A6. destruct A6 as [A6|A6].
    + apply matches_str_inv in A6. auto.
    + apply matches_alt_inv in A6. destruct A6 as [A6|A6];
        apply matches_str_inv in A6; auto.
  - apply matches_opt_inv in A9. destruct A9 as [A9|A9]; auto.
    right. apply matches_cat_inv in A9. destruct A9 as (b1 & b2 & -> & B1 & B2).
    apply matches_lit_inv in B1. subst b1. exists b2. split; [reflexivity|].
    apply matches_star_cls. exact B2.
Qed.

Lemma figma_re_chars : forall u,
  matches figma_re u -> forallb path_char u = true.
Proof.
  intros u H. apply figma_re_shape in H.
  destruct H as (s & www & kind & id & tail & -> & Hs & Hw & Hk & _ & Hid & Ht).
  rewrite !forallb_app.
  assert (Es : forallb path_char s = true)
    by (destruct Hs as [-> | ->]; reflexivity).
  assert (Ew : forallb path_char www = true)
    by (destruct Hw as [-> | ->]; reflexivity).
  assert (Ek : forallb path_char kind = true)
    by (destruct Hk as [-> | [-> | ->]]; reflexivity).
  assert (Ei : forallb path_char id = true)
    by (eapply forallb_impl; [apply id_char_path_char | exact Hid]).
  assert (Et : forallb path_char tail = true).
  { destruct Ht as [-> | (path & -> & Hp)]; [reflexivity|].
    simpl. exact Hp. }
  rewrite Es, Ew, Ek, Ei, Et. reflexivity.
Qed.

Lemma extract_figma_url_some : forall text u,
  extract_figma_url (JStr text) = Ok (Some u) ->
  matches figma_re u /\ contains text u.
Proof.
  intros text u H. unfold extract_figma_url in H.
  destruct (negb (truthy (JStr text))); [discriminate|].
  destruct (re_search figma_re text) as [[pre m]|] eqn:E; [|discriminate].
  injection H as <-. apply re_search_some in E. destruct E as (Es & Hm & _).
  split; [exact Hm|]. exists pre, (m_rest m). exact Es.
Qed.

(** A link that extract_figma_url returns is a piece of the text made of
    http or https, an optional www., figma.com, one of the three kinds, an
    id and an optional path; it holds no whitespace, no quote and none of
    the characters that close a tag or a bracket. *)
Theorem figma_link_shape : forall text u,
  extract_figma_url (JStr text) = Ok (Some u) ->
  contains text u /\
  (exists s www kind id tail,
     u = py "http" ++ s ++ py "://" ++ www ++ py "figma.com/" ++ kind ++
         py "/" ++ id ++ tail /\
     (s = [] \/ s = py "s") /\
     (www = [] \/ www = py "www.") /\
     (kind = py "file" \/ kind = py "design" \/ kind = py "proto") /\
     id <> [] /\ forallb id_char id = true /\
     (tail = [] \/
      exists path, tail = ch "/" :: path /\ forallb path_char path = true)) /\
  forall c, In c u ->
    is_space c = false /\ ~ In c (dquote :: py "'<>)}]").
Proof.
  intros text u H. apply extract_figma_url_some in H. destruct H as [Hm Hc].
  split; [exact Hc|]. split; [apply figma_re_shape; exact Hm|].
  intros c Hin. pose proof (figma_re_chars Hm) as Hall.
  rewrite forallb_forall in Hall. specialize (Hall _ Hin).
  unfold path_char in Hall. apply negb_true_iff in Hall.
  apply orb_false_iff in Hall. destruct Hall as [Hs Hq].
  split; [exact Hs|]. intros Hin'. apply mem_In in Hin'. congruence.
Qed.

Lemma figma_link_shape_witness :
  contains (py "(see http://figma.com/proto/a_b-9/x?y=(1) now)")
           (py "http://figma.com/proto/a_b-9/x?y=(1").
Proof.
  apply (@figma_link_shape
           (py "(see http://figma.com/proto/a_b-9/x?y=(1) now)")
           (py "http://figma.com/proto/a_b-9/x?y=(1")).
  vm_compute. reflexivity.
Defined.

(** * The link is as long as it can be *)

Lemma re_search_from_match : forall r s before pre m,
  re_search_from r before s = Some (pre, m) ->
  re_match r (m_text m ++ m_rest m) = Some m.
Proof.
  induction s as [|x s IH]; intros before pre m H; simpl in H.
  - destruct (re_match r []) as [m'|] eqn:E; [|discriminate].
    injection H as _ <-. pose proof (re_match_sound _ _ E) as [Es _].
    rewrite <- Es. exact E.
  - destruct (re_match r (x :: s)) as [m'|] eqn:E.
    + injection H as _ <-. pose proof (re_match_sound _ _ E) as [Es _].
      rewrite <- Es. exact E.
    + eapply IH; eauto.
Qed.

Lemma run_opt_take : forall r s c k a,
  run r s c k = Some a -> run (Opt r) s c k = Some a.
Proof. intros. unfold Opt. apply run_alt_l. assumption. Qed.

(** The end of the pattern, from the id on: the run takes the longest id
    and, when a slash follows it, the longest path. *)
Lemma figma_tail_longest : forall id r0 c,
  id <> [] -> forallb id_char id = true ->
  exists id' tail rest,
    id ++ r0 = id' ++ tail ++ rest /\
    id' <> [] /\ forallb id_char id' = true /\
    run (Seq [Plus (Cls id_char);
              Opt (Cat (Lit (ch "/")) (Star (Cls path_char)))])
        (id ++ r0) c accept = Some (rest, c) /\
    ((tail = [] /\ stops_at id_or_slash rest) \/
     (exists path, tail = ch "/" :: path /\ forallb path_char path = true /\
                   stops_at path_char rest)).
Proof.
  intros id r0 c Hne Hid.
  set (id' := id ++ take_while id_char r0).
  set (r1 := drop_while id_char r0).
  assert (E0 : id ++ r0 = id' ++ r1).
  { unfold id', r1. rewrite <- app_assoc, take_drop_while. reflexivity. }
  assert (Hne' : id' <> []) by (unfold id'; destruct id; [congruence|discriminate]).
  assert (Hid' : forallb id_char id' = true).
  { unfold id'. rewrite forallb_app, Hid, take_while_all. reflexivity. }
  assert (Hstop : stops_at id_char r1) by apply drop_while_stops.
  rewrite E0. rewrite run_seq_cons.
  destruct r1 as [|y r2] eqn:Er.
  - exists id', [], []. split; [reflexivity|]. split; [exact Hne'|].
    split; [exact Hid'|]. split.
    + apply run_plus_cls; auto.
    + left. split; [reflexivity|exact I].
  - destruct (N.eq_dec y (ch "/")) as [->|Hy].
    + set (path := take_while path_char r2).
      set (rest := drop_while path_char r2).
      exists id', (ch "/" :: path), rest. split; [|split; [|split; [|split]]].
      * simpl. unfold path, rest. rewrite take_drop_while. reflexivity.
      * exact Hne'.
      * exact Hid'.
      * apply run_plus_cls; auto.
        rewrite run_seq_cons. apply run_opt_take.
        change (run (Cat (Lit (ch "/")) (Star (Cls path_char))) (ch "/" :: r2) c
                  (fun s' c' => run (Seq []) s' c' accept))
          with (run (Lit (ch "/")) (ch "/" :: r2) c
                  (fun s' c' => run (Star (Cls path_char)) s' c'
                     (fun s'' c'' => run (Seq []) s'' c'' accept))).
        rewrite run_lit_cons.
        rewrite <- (take_drop_while path_char r2).
        apply run_star_cls.
        { apply take_while_all. }
        { apply drop_while_stops. }
        { reflexivity. }
      * right. exists path. split; [reflexivity|].
        split; [apply take_while_all|apply drop_while_stops].
    + exists id', [], (y :: r2). split; [|split; [|split; [|split]]].
      * reflexivity.
      * exact Hne'.
      * exact Hid'.
      * apply run_plus_cls; auto.
        rewrite run_seq_cons. rewrite run_opt_skip.
        { reflexivity. }
        { change (run (Cat (Lit (ch "/")) (Star (Cls path_char))) (y :: r2) c
                    (fun s' c' => run (Seq []) s' c' accept))
            with (run (Cls (N.eqb (ch "/"))) (y :: r2) c
                    (fun s' c' => run (Star (Cls path_char)) s' c'
                       (fun s'' c'' => run (Seq []) s'' c'' accept))).
          rewrite run_cls_cons.
          destruct (N.eqb (ch "/") y) eqn:E; [|reflexivity].
          apply N.eqb_eq in E. congruence. }
      * left. split; [reflexivity|].
        simpl. unfold id_or_slash. simpl in Hstop. rewrite Hstop.
        simpl. apply N.eqb_neq. exact Hy.
Qed.

Lemma figma_longest_run : forall s www kind id r0,
  (s = [] \/ s = py "s") ->
  (www = [] \/ www = py "www.") ->
  (kind = py "file" \/ kind = py "design" \/ kind = py "proto") ->
  id <> [] -> forallb id_char id = true ->
  exists id' tail rest,
    id ++ r0 = id' ++ tail ++ rest /\
    id' <> [] /\ forallb id_char id' = true /\
    run figma_re
        (py "http" ++ s ++ py "://" ++ www ++ py "figma.com/" ++ kind ++
         py "/" ++ id ++ r0) [] accept = Some (rest, []) /\
    ((tail = [] /\ stops_at id_or_slash rest) \/
     (exists path, tail = ch "/" :: path /\ forallb path_char path = true /\
                   stops_at path_char rest)).
Proof.
  intros s www kind id r0 Hs Hw Hk Hne Hid.
  destruct (@figma_tail_longest id r0 [] Hne Hid)
    as (id' & tail & rest & E & Hne' & Hid' & Hrun & Hstop).
  exists id', tail, rest. split; [exact E|]. split; [exact Hne'|].
  split; [exact Hid'|]. split; [|exact Hstop].
  unfold figma_re.
  rewrite run_seq_cons, run_str_app, run_seq_cons.
  assert (T3 : run (Seq [Alt (Str (py "file"))
                           (Alt (Str (py "design")) (Str (py "proto")));
                         Lit (ch "/"); Plus (Cls id_char);
                         Opt (Cat (Lit (ch "/")) (Star (Cls path_char)))])
                 (kind ++ py "/" ++ id ++ r0) [] accept = Some (rest, [])).
  { rewrite run_seq_cons.
    assert (L : run (Seq [Lit (ch "/"); Plus (Cls id_char);
                          Opt (Cat (Lit (ch "/")) (Star (Cls path_char)))])
                  (py "/" ++ id ++ r0) [] accept = Some (rest, [])).
    { change (py "/" ++ id ++ r0) with (ch "/" :: id ++ r0).
      rewrite run_seq_cons, run_lit_cons. exact Hrun. }
    destruct Hk as [-> | [-> | ->]].
    - apply run_alt_l. rewrite run_str_app. exact L.
    - rewrite run_alt_r by reflexivity. apply run_alt_l.
      rewrite run_str_app. exact L.
    - rewrite run_alt_r by reflexivity. rewrite run_alt_r by reflexivity.
      rewrite run_str_app. exact L. }
  assert (T2 : run (Seq [Opt (Str (py "www.")); Str (py "figma.com/");
                         Alt (Str (py "file"))
                           (Alt (Str (py "design")) (Str (py "proto")));
                         Lit (ch "/"); Plus (Cls id_char);
                         Opt (Cat (Lit (ch "/")) (Star (Cls path_char)))])
                 (www ++ py "figma.com/" ++ kind ++ py "/" ++ id ++ r0)
                 [] accept = Some (rest, [])).
  { rewrite run_seq_cons. destruct Hw as [-> | ->].
    - rewrite run_opt_skip by reflexivity. cbv beta. rewrite app_nil_l.
      rewrite run_seq_cons, run_str_app. exact T3.
    - apply run_opt_take. rewrite run_str_app, run_seq_cons, run_str_app.
      exact T3. }
  destruct Hs as [-> | ->].
  - rewrite run_opt_skip by reflexivity. cbv beta. rewrite app_nil_l.
    rewrite run_seq_cons, run_str_app. exact T2.
  - apply run_opt_take.
    change (py "s" ++ py "://" ++ www ++ py "figma.com/" ++ kind ++ py "/" ++ id ++ r0)
      with (ch "s" :: py "://" ++ www ++ py "figma.com/" ++ kind ++ py "/" ++ id ++ r0).
    rewrite run_lit_cons, run_seq_cons, run_str_app. exact T2.
Qed.

(** The link that extract_figma_url returns is not cut short.  It is the
    beginning of a link (the scheme, the host, the kind and a slash), an id
    and what comes after the id.  When the link ends with its id, what
    follows it in the text is nothing or a character that can neither go on
    with the id nor open a path.  When the link has a path, what follows it
    in the text is nothing or a character that cannot go on with a path: a
    query string or a fragment after the path is part of the link. *)
Theorem figma_link_is_longest : forall text u,
  extract_figma_url (JStr text) = Ok (Some u) ->
  exists before after s www kind id tail,
    text = before ++ u ++ after /\
    u = py "http" ++ s ++ py "://" ++ www ++ py "figma.com/" ++ kind ++
        py "/" ++ id ++ tail /\
    (s = [] \/ s = py "s") /\
    (www = [] \/ www = py "www.") /\
    (kind = py "file" \/ kind = py "design" \/ kind = py "proto") /\
    id <> [] /\ forallb id_char id = true /\
    ((tail = [] /\ stops_at id_or_slash after) \/
     (exists path, tail = ch "/" :: path /\ forallb path_char path = true /\
                   stops_at path_char after)).
Proof.
  intros text u H. unfold extract_figma_url in H.
  destruct (negb (truthy (JStr text))); [discriminate|].
  destruct (re_search figma_re text) as [[pre m]|] eqn:E; [|discriminate].
  injection H as <-.
  pose proof (re_search_from_match _ _ _ E) as Hm.
  apply re_search_some in E. destruct E as (Es & Hlang & _).
  apply figma_re_shape in Hlang.
  destruct Hlang as (s & www & kind & id & tail & Eu & Hs & Hw & Hk & Hne & Hid & _).
  destruct (@figma_longest_run s www kind id (tail ++ m_rest m) Hs Hw Hk Hne Hid)
    as (id' & tail' & rest & E & Hne' & Hid' & Hrun & Hstop).
  unfold re_match in Hm. rewrite Eu in Hm.
  rewrite <- !app_assoc in Hm. rewrite Hrun in Hm.
  cbn [mk_match] in Hm. injection Hm as Hm.
  assert (Er : m_rest m = rest) by (rewrite <- Hm; reflexivity).
  exists pre, (m_rest m), s, www, kind, id', tail'.
  split; [exact Es|]. split.
  - rewrite Er in E. rewrite Eu.
    assert (E' : (id ++ tail) ++ rest = (id' ++ tail') ++ rest)
      by (rewrite <- !app_assoc; exact E).
    apply app_inv_tail in E'. rewrite E'. reflexivity.
  - split; [exact Hs|]. split; [exact Hw|]. split; [exact Hk|].
    split; [exact Hne'|]. split; [exact Hid'|].
    rewrite Er. exact Hstop.
Qed.

Lemma figma_link_is_longest_witness :
  exists before after s www kind id tail,
    py "<https://www.figma.com/design/Ab1/v2?node-id=3#frame=2>" =
      before ++ py "https://www.figma.com/design/Ab1/v2?node-id=3#frame=2" ++
      after /\
    py "https://www.figma.com/design/Ab1/v2?node-id=3#frame=2" =
      py "http" ++ s ++ py "://" ++ www ++ py "figma.com/" ++ kind ++
      py "/" ++ id ++ tail /\
    (s = [] \/ s = py "s") /\
    (www = [] \/ www = py "www.") /\
    (kind = py "file" \/ kind = py "design" \/ kind = py "proto") /\
    id <> [] /\ forallb id_char id = true /\
    ((tail = [] /\ stops_at id_or_slash after) \/
     (exists path, tail = ch "/" :: path /\ forallb path_char path = true /\
                   stops_at path_char after)).
Proof.
  apply (@figma_link_is_longest
           (py "<https://www.figma.com/design/Ab1/v2?node-id=3#frame=2>")
           (py "https://www.figma.com/design/Ab1/v2?node-id=3#frame=2")).
  vm_compute. reflexivity.
Defined.

(** * The usage message *)

(** Without the URL argument the run writes the four usage lines to
    standard error and nothing to standard output, sends nothing and exits
    with status 1, whether the credential is set or not. *)
Theorem missing_argument_usage : forall w,
  length (argv w) < 2 ->
  run_script w = RunResult [] usage_text [] (Exited 1).
Proof.
  intros w H. unfold run_script, main.
  apply Nat.ltb_lt in H. rewrite H. reflexivity.
Qed.

Lemma missing_argument_usage_witness :
  run_script no_argument_world = RunResult [] usage_text [] (Exited 1).
Proof.
  apply (@missing_argument_usage no_argument_world). simpl. lia.
Defined.

(** * Failures of the exchange *)

Lemma run_script_answer : forall w prog url more pat c ep bs,
  argv w = prog :: url :: more -> ado_pat w = Some pat -> pat <> [] ->
  parse_url url = Ok c -> quote (project c) = Ok ep ->
  utf8_encode (py ":" ++ pat) = Ok bs ->
  let req := api_request (organization c) ep (work_item_id c) bs in
  run_script w =
  match answer_outcome (work_item_id c) (urlopen w req) with
  | Return t =>
      RunResult (dumps (Some 2) (ticket_json t) ++ [newline]) [] [req]
        (Exited 0)
  | Raise (ValueError msg) =>
      RunResult (error_json msg ++ [newline]) [] [req] (Exited 1)
  | Raise (RuntimeError msg) =>
      RunResult (error_json msg ++ [newline]) [] [req] (Exited 1)
  | Raise e => RunResult [] [] [req] (Traceback e)
  | Exit code => RunResult [] [] [req] (Exited code)
  end.
Proof.
  intros w prog url more pat c ep bs Ha Hp Hne Hu Hq He req.
  rewrite (@run_script_pipeline w prog url more pat Ha Hp Hne).
  rewrite pipeline_unfold, Hu, fetch_work_item_unfold, Hq,
    (@py_str_writable _ (@parse_url_writable url c Hu)), He.
  cbv zeta. fold req.
  destruct (answer_outcome (work_item_id c) (urlopen w req)) as [t|e|code];
    reflexivity.
Qed.

(** When the call of urlopen ends with a URLError the run prints the JSON
    error with Network error: and the reason; when the response has a
    success status but its body is not JSON text, or the call ends with
    another ValueError or RuntimeError, the run prints the JSON error with
    the message of that exception.  In each case: one line on standard
    output, exit status 1, and urlopen has been called once, so that what
    went over the wire is what that call sent. *)
Theorem failed_exchange_reported :
  forall w prog url more pat c ep bs msg,
  argv w = prog :: url :: more -> ado_pat w = Some pat -> pat <> [] ->
  parse_url url = Ok c -> quote (project c) = Ok ep ->
  utf8_encode (py ":" ++ pat) = Ok bs ->
  let req := api_request (organization c) ep (work_item_id c) bs in
  (exists reason, urlopen w req = URLError reason /\
                  msg = py "Network error: " ++ reason) \/
  urlopen w req = Response (NotJson msg) \/
  urlopen w req = Failure (ValueError msg) \/
  urlopen w req = Failure (RuntimeError msg) ->
  run_script w = RunResult (error_json msg ++ [newline]) [] [req] (Exited 1) /\
  traffic w (r_requests (run_script w)) = wire w req.
Proof.
  intros w prog url more pat c ep bs msg Ha Hp Hne Hu Hq He req H.
  assert (R : run_script w =
              RunResult (error_json msg ++ [newline]) [] [req] (Exited 1)).
  { rewrite (@run_script_answer w prog url more pat c ep bs Ha Hp Hne Hu Hq He).
    fold req. destruct H as [(reason & -> & ->) | [-> | [-> | ->]]];
      reflexivity. }
  split; [exact R|]. rewrite R. cbn [r_requests]. unfold traffic.
  cbn [flat_map]. apply app_nil_r.
Qed.

Lemma failed_exchange_reported_witness :
  run_script unreachable_world =
  RunResult
    (error_json (py "Network error: [Errno 111] Connection refused")
     ++ [newline])
    [] [api_request (py "acme") (py "web") 42 (py ":token")] (Exited 1) /\
  traffic unreachable_world (r_requests (run_script unreachable_world)) = [].
Proof.
  apply (@failed_exchange_reported unreachable_world (py "fetch_ticket.py")
           (py "https://dev.azure.com/acme/web/_workitems/edit/42") []
           (py "token") (UrlComponents (py "acme") (py "web") 42)
           (py "web") (py ":token")
           (py "Network error: [Errno 111] Connection refused"));
    try reflexivity.
  - discriminate.
  - left. exists (py "[Errno 111] Connection refused"). split; reflexivity.
Defined.

(** When the call of urlopen ends with an exception that is neither an
    HTTPError nor a URLError, neither a ValueError nor a RuntimeError (the
    InvalidURL for an organization with a space in it, a connection that the
    remote end drops), nothing catches it: the run prints nothing and ends
    with the traceback of that exception. *)
Theorem other_failure_uncaught :
  forall w prog url more pat c ep bs e,
  argv w = prog :: url :: more -> ado_pat w = Some pat -> pat <> [] ->
  parse_url url = Ok c -> quote (project c) = Ok ep ->
  utf8_encode (py ":" ++ pat) = Ok bs ->
  let req := api_request (organization c) ep (work_item_id c) bs in
  urlopen w req = Failure e ->
  (forall msg, e <> ValueError msg /\ e <> RuntimeError msg) ->
  run_script w = RunResult [] [] [req] (Traceback e).
Proof.
  intros w prog url more pat c ep bs e Ha Hp Hne Hu Hq He req H N.
  rewrite (@run_script_answer w prog url more pat c ep bs Ha Hp Hne Hu Hq He).
  fold req. rewrite H. cbn [answer_outcome].
  destruct e as [msg|msg| | | |name]; try reflexivity.
  - destruct (N msg) as [N1 _]. congruence.
  - destruct (N msg) as [_ N2]. congruence.
Qed.

Lemma other_failure_uncaught_witness :
  run_script invalid_url_world =
  RunResult [] []
    [api_request (py "my org") (py "web") 42 (py ":token")]
    (Traceback (OtherException (py "InvalidURL"))).
Proof.
  apply (@other_failure_uncaught invalid_url_world (py "fetch_ticket.py")
           (py "https://dev.azure.com/my org/web/_workitems/edit/42") []
           (py "token") (UrlComponents (py "my org") (py "web") 42)
           (py "web") (py ":token") (OtherException (py "InvalidURL")));
    try reflexivity.
  - discriminate.
  - intros msg. split; discriminate.
Defined.

(** * Surrogates *)

Lemma utf8_encode_from_surrogate : forall s pos,
  existsb is_surrogate s = true ->
  exists msg, utf8_encode_from pos s = Err (ValueError msg).
Proof.
  induction s as [|c s IH]; intros pos H; [discriminate|].
  simpl in H. cbn [utf8_encode_from].
  destruct (is_surrogate c) eqn:E; [eauto|].
  simpl in H. destruct (IH (S pos) H) as [msg Hm]. rewrite Hm. eauto.
Qed.

Lemma utf8_encode_from_plain : forall s pos,
  existsb is_surrogate s = false ->
  utf8_encode_from pos s = Ok (flat_map utf8_char s).
Proof.
  induction s as [|c s IH]; intros pos H; [reflexivity|].
  simpl in H. apply orb_false_iff in H. destruct H as [Hc Hs].
  cbn [utf8_encode_from]. rewrite Hc, (IH _ Hs). reflexivity.
Qed.

(** fetch_work_item reaches its call of urlopen exactly when neither the
    project nor the credential holds a surrogate code point and the id has
    no more digits than str() writes; otherwise quote, str or encode raises
    a ValueError and urlopen has not been called.  The organization plays no
    part: what urlopen makes of the URL is how the call ends. *)
Theorem fetch_reaches_urlopen : forall w org proj id pat p,
  (existsb is_surrogate (proj ++ pat) = true \/ ~ writable id ->
   exists msg,
     fetch_work_item w org proj id pat p = (Raise (ValueError msg), p)) /\
  (existsb is_surrogate (proj ++ pat) = false -> writable id ->
   exists ep bs,
     quote proj = Ok ep /\ utf8_encode (py ":" ++ pat) = Ok bs /\
     fetch_work_item w org proj id pat p =
       (answer_outcome id (urlopen w (api_request org ep id bs)),
        sent p (api_request org ep id bs))).
Proof.
  intros w org proj id pat p. rewrite existsb_app.
  rewrite fetch_work_item_unfold. unfold quote, utf8_encode. split.
  - intros H. destruct (existsb is_surrogate proj) eqn:Ep.
    { destruct (@utf8_encode_from_surrogate proj 0 Ep) as [msg ->]. eauto. }
    rewrite (@utf8_encode_from_plain proj 0 Ep).
    destruct (py_str id) as [it|e] eqn:Ei.
    + destruct H as [H|H].
      * simpl in H.
        assert (Hs : existsb is_surrogate (py ":" ++ pat) = true) by exact H.
        destruct (@utf8_encode_from_surrogate _ 0 Hs) as [msg ->]. eauto.
      * exfalso. apply H. unfold py_str in Ei. unfold writable.
        destruct (Nat.ltb _ _) eqn:L; [discriminate|].
        apply Nat.ltb_ge in L. exact L.
    + apply py_str_error in Ei. destruct Ei as [-> _]. eauto.
  - intros H Hi. apply orb_false_iff in H. destruct H as [Ep Hp].
    rewrite (@utf8_encode_from_plain proj 0 Ep), (py_str_writable Hi).
    assert (Hs : existsb is_surrogate (py ":" ++ pat) = false) by exact Hp.
    rewrite (@utf8_encode_from_plain _ 0 Hs).
    eexists. eexists. repeat split.
Qed.

Lemma fetch_reaches_urlopen_witness :
  exists ep bs,
    quote (py "web") = Ok ep /\ utf8_encode (py ":" ++ py "token") = Ok bs /\
    fetch_work_item invalid_url_world (py "my org") (py "web") 42 (py "token")
      (Proc [] [] []) =
    (answer_outcome 42
       (urlopen invalid_url_world (api_request (py "my org") ep 42 bs)),
     sent (Proc [] [] []) (api_request (py "my org") ep 42 bs)).
Proof.
  apply (@fetch_reaches_urlopen invalid_url_world (py "my org") (py "web") 42
           (py "token") (Proc [] [] [])).
  - reflexivity.
  - unfold writable, int_max_str_digits. simpl. lia.
Defined.

(** A credential with an undecodable byte of the environment, which Python
    keeps as a lone surrogate: the run reports the error of the encoder and
    sends nothing. *)
Example surrogate_in_credential :
  run_script
    (World [py "fetch_ticket.py";
            py "https://dev.azure.com/acme/web/_workitems/edit/42"]
           (Some (py "tok" ++ [0xdcff]%N))
           (fun _ => Response (Json (JObj [(py "id", JInt 42)])))
           (fun req => [req]))
  = RunResult
      (error_json
         (py "'utf-8' codec can't encode character '\udcff' in position 4: surrogates not allowed")
       ++ [newline])
      [] [] (Exited 1).
Proof. vm_compute. reflexivity. Qed.

(** * What can go wrong in strip_html *)

(** A match of the character reference pattern: the ampersand and the
    group. *)
Lemma charref_match : forall s m,
  re_match charref_re s = Some m ->
  exists g, group 1 (m_groups m) = Some g /\ m_text m = ch "&" :: g /\
            matches charref_body g /\ length (m_text m) <= length s.
Proof.
  intros s m H.
  unfold re_match in H. apply mk_match_some in H.
  destruct H as (c & H & Ht & Hg).
  change charref_re with (Cat (Lit (ch "&")) (Grp 1 charref_body)) in H.
  cbn [run Lit] in H.
  destruct s as [|x s1]; [discriminate|].
  destruct (N.eqb_spec (ch "&") x) as [<-|]; [|discriminate].
  apply run_sound in H. destruct H as (a & s2 & c' & -> & Hm & Hk).
  unfold accept in Hk. injection Hk as E1 E2.
  rewrite consumed_app in E2.
  exists a. rewrite Hg, <- E2. cbn [group Nat.eqb].
  assert (T : m_text m = ch "&" :: a).
  { rewrite Ht, <- E1.
    change (ch "&" :: a ++ s2) with ((ch "&" :: a) ++ s2).
    apply consumed_app. }
  split; [reflexivity|]. split; [exact T|]. split; [exact Hm|].
  rewrite T. cbn [length]. rewrite length_app. lia.
Qed.

Lemma ascii_digit_is_digit : forall c, ascii_digit c = true -> is_digit c = true.
Proof.
  intros c H. unfold is_digit, digit_value, digit_zeros.
  cbn [digit_in]. unfold ascii_digit in H.
  change (ch "0") with 0x30%N in H. change (ch "9") with 0x39%N in H.
  change (0x30 + 9)%N with 0x39%N. rewrite H. reflexivity.
Qed.

Lemma rstrip_semicolon_digits : forall ds semi,
  ds <> [] -> forallb ascii_digit ds = true ->
  semi = [] \/ semi = [ch ";"] ->
  rstrip_semicolon (ds ++ semi) = ds.
Proof.
  intros ds semi Hne Hd Hs. unfold rstrip_semicolon.
  assert (D : drop_while (N.eqb (ch ";")) (rev ds) = rev ds).
  { destruct (rev ds) as [|y t] eqn:E; [reflexivity|].
    assert (Hy : ascii_digit y = true).
    { rewrite forallb_forall in Hd. apply Hd. apply in_rev. rewrite E.
      left. reflexivity. }
    cbn [drop_while]. destruct (N.eqb_spec (ch ";") y) as [<-|]; [|reflexivity].
    vm_compute in Hy. discriminate. }
  destruct Hs as [-> | ->].
  - rewrite app_nil_r, D. apply rev_involutive.
  - rewrite rev_app_distr. cbn [rev app drop_while]. rewrite N.eqb_refl.
    rewrite D. apply rev_involutive.
Qed.

(** The only thing that [_replace_charref] raises: the error of [int()]
    for a decimal reference of more digits than the limit. *)
Lemma replace_charref_error : forall s m e,
  re_match charref_re s = Some m -> replace_charref m = Err e ->
  exists n, e = ValueError (int_limit_message n) /\
            int_max_str_digits < n /\ n < length s.
Proof.
  intros s m e Hm He.
  destruct (charref_match _ Hm) as (g & Hg & Ht & Hb & Hl).
  unfold replace_charref in He. rewrite Hg in He.
  assert (Lg : S (length g) <= length s) by (rewrite Ht in Hl; exact Hl).
  apply matches_alt_inv in Hb. destruct Hb as [Hb|Hb].
  - (* decimal *)
    apply matches_cat_inv in Hb. destruct Hb as (a & b & -> & Ha & Hb).
    apply matches_lit_inv in Ha. subst a.
    apply matches_cat_inv in Hb. destruct Hb as (ds & semi & -> & Hd & Hs).
    apply matches_plus_cls_inv in Hd. destruct Hd as [Hne Hd].
    apply matches_opt_inv in Hs.
    assert (Hs' : semi = [] \/ semi = [ch ";"]).
    { destruct Hs as [Hs|Hs]; [right; apply matches_lit_inv; exact Hs|left; exact Hs]. }
    cbn [app] in He. rewrite N.eqb_refl in He.
    destruct ds as [|c1 ds']; [congruence|]. cbn [app] in He.
    assert (Hc1 : ascii_digit c1 = true)
      by (simpl in Hd; apply andb_true_iff in Hd; tauto).
    assert (Hx : mem c1 (py "xX") = false).
    { destruct (mem c1 (py "xX")) eqn:E; [|reflexivity].
      apply mem_In in E. simpl in E.
      destruct E as [<-|[<-|[]]]; vm_compute in Hc1; discriminate. }
    rewrite Hx in He.
    change (c1 :: ds' ++ semi) with ((c1 :: ds') ++ semi) in He.
    rewrite (@rstrip_semicolon_digits (c1 :: ds') semi Hne Hd Hs') in He.
    assert (Dg : digits (c1 :: ds')).
    { split; [exact Hne|]. apply forallb_forall. intros x Hx'.
      apply ascii_digit_is_digit. rewrite forallb_forall in Hd. auto. }
    rewrite (py_int_digits_limit Dg) in He.
    destruct (Nat.ltb _ _) eqn:L; [|discriminate].
    injection He as <-. apply Nat.ltb_lt in L.
    exists (length (c1 :: ds')). split; [reflexivity|]. split; [exact L|].
    cbn [length app] in Lg. rewrite length_app in Lg. cbn [length]. lia.
  - exfalso. apply matches_alt_inv in Hb. destruct Hb as [Hb|Hb].
    + (* hexadecimal *)
      apply matches_cat_inv in Hb. destruct Hb as (a & b & -> & Ha & Hb).
      apply matches_lit_inv in Ha. subst a.
      apply matches_cat_inv in Hb. destruct Hb as (x & b' & -> & Hx & Hb).
      apply matches_cls_inv in Hx. destruct Hx as (c1 & -> & Hx).
      cbn [app] in He. rewrite N.eqb_refl, Hx in He. discriminate.
    + (* a name *)
      apply matches_cat_inv in Hb. destruct Hb as (a & semi & -> & Ha & _).
      unfold Rep1 in Ha.
      apply matches_cat_inv in Ha. destruct Ha as (x & b' & -> & Hx & _).
      apply matches_cls_inv in Hx. destruct Hx as (c0 & -> & Hx).
      cbn [app] in He.
      destruct (N.eqb_spec c0 (ch "#")) as [->|_];
        [vm_compute in Hx; discriminate|].
      destruct (html5_get html5 _); [discriminate|].
      destruct (longest_name _ _); discriminate.
Qed.

Lemma unescape_sub_error : forall s skip e,
  sub_from_try charref_re replace_charref skip s = Err e ->
  exists n, e = ValueError (int_limit_message n) /\
            int_max_str_digits < n /\ n < length s.
Proof.
  induction s as [|x s IH]; intros skip e H.
  - destruct skip; cbn [sub_from_try] in H; [|discriminate].
    change (re_match charref_re []) with (@None match_obj) in H.
    discriminate.
  - assert (Up : forall sk, sub_from_try charref_re replace_charref sk s = Err e ->
              exists n, e = ValueError (int_limit_message n) /\
                        int_max_str_digits < n /\ n < length (x :: s)).
    { intros sk Hs. destruct (IH _ _ Hs) as (n & E & L1 & L2).
      exists n. cbn [length]. repeat split; auto. }
    destruct skip as [|k]; cbn [sub_from_try] in H; [|eauto].
    destruct (re_match charref_re (x :: s)) as [m|] eqn:Em.
    + destruct (replace_charref m) as [a|e'] eqn:Er.
      * cbn [and_then] in H.
        destruct (charref_match _ Em) as (g & _ & Ht & _ & _).
        rewrite Ht in H. cbn [length] in H.
        destruct (sub_from_try charref_re replace_charref (length g) s)
          as [t|e'] eqn:Es; [discriminate|].
        cbn [and_then] in H. injection H as <-. eauto.
      * cbn [and_then] in H. injection H as <-.
        exact (replace_charref_error _ Em Er).
    + destruct (sub_from_try charref_re replace_charref 0 s)
        as [t|e'] eqn:Es; [discriminate|].
      cbn [and_then] in H. injection H as <-. eauto.
Qed.

Lemma sub_tags_length : forall s skip,
  length (sub_from tag_re (fun _ => py " ") skip s) <= length s.
Proof.
  induction s as [|x s IH]; intros skip.
  - destruct skip; cbn [sub_from]; [|simpl; lia].
    rewrite re_match_tag_nil. simpl. lia.
  - destruct skip as [|k]; cbn [sub_from].
    + destruct (re_match tag_re (x :: s)) as [m|] eqn:Em.
      * destruct (re_match_tag_nonempty _ Em) as [n ->].
        cbv beta. rewrite length_app. change (length (py " ")) with 1.
        cbn [length]. specialize (IH n). lia.
      * cbn [length]. specialize (IH 0). lia.
    + cbn [length]. specialize (IH k). lia.
Qed.

(** strip_html raises one thing only, on text: the ValueError of int()
    for a decimal character reference of more than 4300 digits.  Text of
    4300 characters or less never makes it raise. *)
Theorem strip_html_only_error : forall s e,
  strip_html (JStr s) = Err e ->
  exists n, e = ValueError (int_limit_message n) /\
            int_max_str_digits < n /\ n < length s.
Proof.
  intros s e H. rewrite strip_html_text in H.
  destruct (unescape _) as [u|e'] eqn:E; [discriminate|]. injection H as <-.
  unfold unescape in E. destruct (negb _); [discriminate|].
  apply unescape_sub_error in E. destruct E as (n & E & L1 & L2).
  exists n. repeat split; auto.
  pose proof (sub_tags_length s 0) as L. unfold re_sub in L2. lia.
Qed.

Lemma strip_html_only_error_witness :
  exists n,
    ValueError (int_limit_message 4301) = ValueError (int_limit_message n) /\
    int_max_str_digits < n /\ n < length huge_reference.
Proof.
  apply (@strip_html_only_error huge_reference
           (ValueError (int_limit_message 4301))).
  vm_compute. reflexivity.
Defined.

(** * Which bodies give a record *)

Lemma extract_figma_url_str : forall s, exists x,
  extract_figma_url (JStr s) = Ok x.
Proof.
  intros [|c s]; [exists None; reflexivity|].
  unfold extract_figma_url. cbn [truthy negb].
  destruct (re_search figma_re (c :: s)) as [[pre m]|]; eauto.
Qed.

(** The steps of [ticket_of] after the description has been normalized. *)
Lemma ticket_of_rest : forall o fs description x,
  let wf := (match lookup (py "id") o with Some _ => true | None => false end
             && object_or_missing (lookup (py "_links") o)
             && object_or_missing (lookup (py "html") (members_at "_links" o)))%bool in
  match
    and_then (py_get (JObj fs) "System.AssignedTo" JNull) (fun assigned_to =>
    and_then (if is_dict assigned_to
              then py_get assigned_to "displayName" JNull
              else Ok assigned_to) (fun assigned_to =>
    and_then (py_item (JObj o) "id") (fun id =>
    and_then (py_get (JObj fs) "System.Title" (JStr [])) (fun title =>
    and_then (py_get (JObj fs) "System.State" (JStr [])) (fun state =>
    and_then (py_get (JObj fs) "System.WorkItemType" (JStr [])) (fun type =>
    and_then (py_get (JObj o) "_links" (JObj [])) (fun links =>
    and_then (py_get links "html" (JObj [])) (fun html =>
    and_then (py_get html "href" (JStr [])) (fun href =>
    Ok (Ticket id title description state type assigned_to href x))))))))))
  with
  | Ok t => wf = true /\ t_description t = description
  | Err e => wf = false /\ uncaught e
  end.
Proof.
  intros o fs description x wf. subst wf.
  assert (T : forall a,
    match
      and_then (py_item (JObj o) "id") (fun id =>
      and_then (py_get (JObj fs) "System.Title" (JStr [])) (fun title =>
      and_then (py_get (JObj fs) "System.State" (JStr [])) (fun state =>
      and_then (py_get (JObj fs) "System.WorkItemType" (JStr [])) (fun type =>
      and_then (py_get (JObj o) "_links" (JObj [])) (fun links =>
      and_then (py_get links "html" (JObj [])) (fun html =>
      and_then (py_get html "href" (JStr [])) (fun href =>
      Ok (Ticket id title description state type a href x))))))))
    with
    | Ok t =>
        (match lookup (py "id") o with Some _ => true | None => false end
         && object_or_missing (lookup (py "_links") o)
         && object_or_missing (lookup (py "html") (members_at "_links" o)))%bool
        = true /\ t_description t = description
    | Err e =>
        (match lookup (py "id") o with Some _ => true | None => false end
         && object_or_missing (lookup (py "_links") o)
         && object_or_missing (lookup (py "html") (members_at "_links" o)))%bool
        = false /\ uncaught e
    end).
  { intros a. unfold py_item, members_at.
    destruct (lookup (py "id") o) as [i|]; cbn [and_then andb];
      [|split; [reflexivity|left; reflexivity]].
    unfold py_get.
    destruct (lookup (py "System.Title") fs); cbn [and_then];
    destruct (lookup (py "System.State") fs); cbn [and_then];
    destruct (lookup (py "System.WorkItemType") fs); cbn [and_then];
    (destruct (lookup (py "_links") o) as [l|]; cbn [and_then];
     [destruct l as [| | | | | |members];
      cbn [object_or_missing andb lookup];
      try (split; [reflexivity|right; left; reflexivity]);
      (destruct (lookup (py "html") members) as [h|]; cbn [and_then];
       [destruct h as [| | | | | |members0]; cbn [object_or_missing andb];
        try (split; [reflexivity|right; left; reflexivity]);
        destruct (lookup (py "href") members0); split; reflexivity
       |split; reflexivity])
     |split; reflexivity]). }
  unfold py_get at 1.
  destruct (lookup (py "System.AssignedTo") fs) as [a0|]; cbn [and_then].
  - destruct a0 as [| | | | | |members]; cbn [is_dict and_then]; try apply T.
    unfold py_get at 1.
    destruct (lookup (py "displayName") members); cbn [and_then]; apply T.
  - cbn [is_dict and_then]. apply T.
Qed.

(** The steps of [ticket_of] once the fields and the text of the
    description are at hand. *)
Lemma ticket_of_tail : forall o fs s,
  let wf := (match lookup (py "id") o with Some _ => true | None => false end
             && object_or_missing (lookup (py "_links") o)
             && object_or_missing (lookup (py "html") (members_at "_links" o)))%bool in
  match
    and_then (extract_figma_url (JStr s)) (fun figma_url =>
    and_then (strip_html (JStr s)) (fun description =>
    and_then (py_get (JObj fs) "System.AssignedTo" JNull) (fun assigned_to =>
    and_then (if is_dict assigned_to
              then py_get assigned_to "displayName" JNull
              else Ok assigned_to) (fun assigned_to =>
    and_then (py_item (JObj o) "id") (fun id =>
    and_then (py_get (JObj fs) "System.Title" (JStr [])) (fun title =>
    and_then (py_get (JObj fs) "System.State" (JStr [])) (fun state =>
    and_then (py_get (JObj fs) "System.WorkItemType" (JStr [])) (fun type =>
    and_then (py_get (JObj o) "_links" (JObj [])) (fun links =>
    and_then (py_get links "html" (JObj [])) (fun html =>
    and_then (py_get html "href" (JStr [])) (fun href =>
    Ok (Ticket id title description state type assigned_to href figma_url)
    )))))))))))
  with
  | Ok t => wf = true /\ strip_html (JStr s) = Ok (t_description t)
  | Err e =>
      strip_html (JStr s) = Err e \/
      ((exists d, strip_html (JStr s) = Ok d) /\ wf = false /\ uncaught e)
  end.
Proof.
  intros o fs s wf. subst wf.
  destruct (extract_figma_url_str s) as [x ->]. cbn [and_then].
  destruct (strip_html (JStr s)) as [d|e] eqn:Es; cbn [and_then].
  - pose proof (@ticket_of_rest o fs d x) as R. cbv zeta in R.
    match type of R with
    | match ?c with _ => _ end => destruct c as [t|e]
    end.
    + destruct R as [W D]. split; [exact W|]. rewrite D. reflexivity.
    + right. split; [exists d; reflexivity|exact R].
  - left. reflexivity.
Qed.

(** How [ticket_of] ends, told from the body and from what [strip_html]
    makes of its description. *)
Lemma ticket_of_decides : forall data,
  match ticket_of data with
  | Ok t =>
      well_formed_body data = true /\
      strip_html (JStr (body_description data)) = Ok (t_description t)
  | Err e =>
      (has_description data = false /\ uncaught e) \/
      (has_description data = true /\
       strip_html (JStr (body_description data)) = Err e) \/
      (has_description data = true /\
       (exists d, strip_html (JStr (body_description data)) = Ok d) /\
       well_formed_body data = false /\ uncaught e)
  end.
Proof.
  intros data. unfold ticket_of.
  destruct data as [| | | | | |o];
    try (left; split; [reflexivity|right; left; reflexivity]).
  assert (Tail : forall fs s,
    object_or_missing (lookup (py "fields") o) = true ->
    text_or_false (lookup (py "System.Description") (members_at "fields" o)) = true ->
    body_description (JObj o) = s ->
    match
      and_then (extract_figma_url (JStr s)) (fun figma_url =>
      and_then (strip_html (JStr s)) (fun description =>
      and_then (py_get (JObj fs) "System.AssignedTo" JNull) (fun assigned_to =>
      and_then (if is_dict assigned_to
                then py_get assigned_to "displayName" JNull
                else Ok assigned_to) (fun assigned_to =>
      and_then (py_item (JObj o) "id") (fun id =>
      and_then (py_get (JObj fs) "System.Title" (JStr [])) (fun title =>
      and_then (py_get (JObj fs) "System.State" (JStr [])) (fun state =>
      and_then (py_get (JObj fs) "System.WorkItemType" (JStr [])) (fun type =>
      and_then (py_get (JObj o) "_links" (JObj [])) (fun links =>
      and_then (py_get links "html" (JObj [])) (fun html =>
      and_then (py_get html "href" (JStr [])) (fun href =>
      Ok (Ticket id title description state type assigned_to href figma_url)
      )))))))))))
    with
    | Ok t =>
        well_formed_body (JObj o) = true /\
        strip_html (JStr (body_description (JObj o))) = Ok (t_description t)
    | Err e =>
        (has_description (JObj o) = false /\ uncaught e) \/
        (has_description (JObj o) = true /\
         strip_html (JStr (body_description (JObj o))) = Err e) \/
        (has_description (JObj o) = true /\
         (exists d, strip_html (JStr (body_description (JObj o))) = Ok d) /\
         well_formed_body (JObj o) = false /\ uncaught e)
    end).
  { intros fs s Hf Ht Hs. rewrite Hs.
    unfold well_formed_body, has_description. rewrite Hf, Ht.
    rewrite !andb_true_r. cbn [andb].
    pose proof (@ticket_of_tail o fs s) as R. cbv zeta in R.
    match type of R with
    | match ?c with _ => _ end => destruct c as [t|e]
    end.
    - exact R.
    - destruct R as [R|(D & W & U)].
      + right. left. split; [reflexivity|exact R].
      + right. right. split; [reflexivity|]. split; [exact D|].
        split; [exact W|exact U]. }
  unfold py_get at 1.
  destruct (lookup (py "fields") o) as [f|] eqn:Ef; cbn [and_then].
  - destruct f as [| | | | | |fs];
      try (cbn [py_get and_then]; left;
           split; [unfold has_description; rewrite Ef; reflexivity
                  |right; left; reflexivity]).
    assert (Mf : members_at "fields" o = fs)
      by (unfold members_at; rewrite Ef; reflexivity).
    unfold py_get at 1.
    destruct (lookup (py "System.Description") fs) as [d|] eqn:Ed;
      cbn [and_then]; cbv zeta.
    + destruct (truthy d) eqn:Et.
      * destruct d as [| | | | s | |];
          try (unfold extract_figma_url; rewrite Et;
               cbn [negb and_then]; left;
               split; [unfold has_description; rewrite Mf, Ed, Ef;
                       cbn [object_or_missing text_or_false andb];
                       rewrite Et; reflexivity
                      |right; right; reflexivity]).
        apply Tail; [try rewrite Ef; reflexivity
                    |rewrite Mf, Ed; reflexivity
                    |unfold body_description; rewrite Mf, Ed; reflexivity].
      * apply Tail; [try rewrite Ef; reflexivity | |];
          [rewrite Mf, Ed|unfold body_description; rewrite Mf, Ed].
        -- destruct d; cbn [text_or_false]; try reflexivity; rewrite Et;
             reflexivity.
        -- destruct d as [| | | | s | |]; try reflexivity.
           destruct s; [reflexivity|discriminate Et].
    + apply Tail; [try rewrite Ef; reflexivity
                  |rewrite Mf, Ed; reflexivity
                  |unfold body_description; rewrite Mf, Ed; reflexivity].
  - assert (Mf : members_at "fields" o = [])
      by (unfold members_at; rewrite Ef; reflexivity).
    unfold py_get at 1. cbn [lookup and_then truthy]. cbv zeta.
    apply Tail; [try rewrite Ef; reflexivity
                |rewrite Mf; reflexivity
                |unfold body_description; rewrite Mf; reflexivity].
Qed.

Lemma well_formed_has_description : forall data,
  well_formed_body data = true -> has_description data = true.
Proof.
  intros data H. destruct data as [| | | | | |o]; try discriminate H.
  unfold well_formed_body in H. unfold has_description.
  destruct (object_or_missing (lookup (py "fields") o));
    [|rewrite andb_false_r in H; discriminate H].
  destruct (text_or_false _);
    [reflexivity|rewrite andb_false_r in H; discriminate H].
Qed.

(** fetch_work_item turns a decoded body into a record exactly when the
    body is well formed and strip_html returns on its description, and the
    description of the record is what strip_html returned.  When it raises,
    then either the body is not well formed and the exception is a KeyError,
    an AttributeError or a TypeError, none of which main catches, or
    strip_html has raised on the description: the ValueError of int() for a
    decimal character reference of more than 4300 digits. *)
Theorem body_decides_record : forall data,
  (forall t, ticket_of data = Ok t ->
     well_formed_body data = true /\
     strip_html (JStr (body_description data)) = Ok (t_description t)) /\
  (forall d, well_formed_body data = true ->
     strip_html (JStr (body_description data)) = Ok d ->
     exists t, ticket_of data = Ok t /\ t_description t = d) /\
  (forall e, ticket_of data = Err e ->
     (well_formed_body data = false /\ uncaught e) \/
     (has_description data = true /\
      strip_html (JStr (body_description data)) = Err e /\
      exists n, e = ValueError (int_limit_message n) /\
                int_max_str_digits < n /\
                n < length (body_description data))).
Proof.
  intros data. pose proof (ticket_of_decides data) as D.
  destruct (ticket_of data) as [t|e0].
  - destruct D as [W S]. split; [|split].
    + intros t' E. injection E as <-. split; [exact W|exact S].
    + intros d _ Hd. exists t. split; [reflexivity|]. congruence.
    + discriminate.
  - split; [discriminate|]. split.
    + intros d W Hd. exfalso.
      pose proof (well_formed_has_description data W) as Hh.
      destruct D as [[Hn _]|[[_ Hs]|(_ & _ & Hw & _)]]; congruence.
    + intros e E. injection E as <-.
      destruct D as [[Hn U]|[[Hh Hs]|(_ & _ & Hw & U)]].
      * left. split; [|exact U].
        destruct (well_formed_body data) eqn:W; [|reflexivity].
        rewrite (well_formed_has_description data W) in Hn. discriminate Hn.
      * right. split; [exact Hh|]. split; [exact Hs|].
        exact (@strip_html_only_error _ _ Hs).
      * left. split; [exact Hw|exact U].
Qed.

(** * Runs on a decoded body *)

(** With a response of success status and a decoded body, urlopen has been
    called once and the run ends in one of three ways.  When the body is
    well formed and strip_html returns on its description, the run prints
    the record, with that description, and exits with status 0.  When
    strip_html raises on the description, which it does for a decimal
    character reference of more than 4300 digits, the run prints the JSON
    error with the message of int() and exits with status 1.  In every
    other case the body is not well formed, and the run ends with an
    exception that nothing catches and prints nothing. *)
Theorem decoded_body_outcome :
  forall w prog url more pat c ep bs data,
  argv w = prog :: url :: more -> ado_pat w = Some pat -> pat <> [] ->
  parse_url url = Ok c -> quote (project c) = Ok ep ->
  utf8_encode (py ":" ++ pat) = Ok bs ->
  let req := api_request (organization c) ep (work_item_id c) bs in
  urlopen w req = Response (Json data) ->
  (forall d,
     well_formed_body data = true ->
     strip_html (JStr (body_description data)) = Ok d ->
     exists t,
       ticket_of data = Ok t /\ t_description t = d /\
       run_script w =
         RunResult (dumps (Some 2) (ticket_json t) ++ [newline]) [] [req]
           (Exited 0)) /\
  (forall e,
     has_description data = true ->
     strip_html (JStr (body_description data)) = Err e ->
     exists n,
       e = ValueError (int_limit_message n) /\
       int_max_str_digits < n /\ n < length (body_description data) /\
       run_script w =
         RunResult (error_json (int_limit_message n) ++ [newline]) [] [req]
           (Exited 1)) /\
  (well_formed_body data = false ->
   (has_description data = false \/
    exists d, strip_html (JStr (body_description data)) = Ok d) ->
   exists e,
     uncaught e /\ run_script w = RunResult [] [] [req] (Traceback e)) /\
  traffic w (r_requests (run_script w)) = wire w req.
Proof.
  intros w prog url more pat c ep bs data Ha Hp Hne Hu Hq He req Hr.
  pose proof (@run_script_answer w prog url more pat c ep bs Ha Hp Hne Hu Hq He)
    as R.
  cbv zeta in R. fold req in R. rewrite Hr in R. cbn [answer_outcome] in R.
  pose proof (ticket_of_decides data) as B.
  assert (Q : r_requests (run_script w) = [req]).
  { rewrite R. destruct (ticket_of data) as [t|[m|m| | | |n]]; reflexivity. }
  split; [|split; [|split]].
  - intros d W Hd. destruct (ticket_of data) as [t|e].
    + exists t. destruct B as [_ S]. split; [reflexivity|].
      split; [congruence|exact R].
    + exfalso. pose proof (well_formed_has_description data W) as Hh.
      destruct B as [[Hn _]|[[_ Hs]|(_ & _ & Hw & _)]]; congruence.
  - intros e Hh Hs. destruct (@strip_html_only_error _ _ Hs) as (n & -> & L1 & L2).
    exists n. split; [reflexivity|]. split; [exact L1|]. split; [exact L2|].
    destruct (ticket_of data) as [t|e].
    + exfalso. destruct B as [_ S]. congruence.
    + destruct B as [[Hn _]|[[_ Hs']|(_ & [d Hd] & _ & _)]]; try congruence.
      assert (E : e = ValueError (int_limit_message n)) by congruence.
      rewrite E in R. exact R.
  - intros W Hc. destruct (ticket_of data) as [t|e].
    + exfalso. destruct B as [W' _]. congruence.
    + assert (U : uncaught e).
      { destruct B as [[_ U]|[[Hh Hs]|(_ & _ & _ & U)]]; try exact U.
        exfalso. destruct Hc as [Hn|[d Hd]]; congruence. }
      exists e. split; [exact U|].
      destruct U as [-> | [-> | ->]]; exact R.
  - rewrite Q. unfold traffic. cbn [flat_map]. apply app_nil_r.
Qed.

Lemma decoded_body_outcome_witness :
  exists t,
    ticket_of (JObj [(py "id", JInt 42)]) = Ok t /\ t_description t = [] /\
    run_script bare_id_world =
      RunResult (dumps (Some 2) (ticket_json t) ++ [newline]) []
        [api_request (py "acme") (py "web") 42 (py ":token")] (Exited 0).
Proof.
  refine (proj1 (@decoded_body_outcome bare_id_world (py "fetch_ticket.py")
           (py "https://dev.azure.com/acme/web/_workitems/edit/42") []
           (py "token") (UrlComponents (py "acme") (py "web") 42)
           (py "web") (py ":token") (JObj [(py "id", JInt 42)])
           _ _ _ _ _ _ _) [] _ _);
    try reflexivity.
  discriminate.
Defined.

(** A description with a decimal character reference of 4301 digits: the
    run reports the error of int(). *)
Example huge_reference_output :
  run_script huge_reference_world =
  RunResult (error_json (int_limit_message 4301) ++ [newline]) []
    [api_request (py "acme") (py "web") 42 (py ":token")] (Exited 1).
Proof. vm_compute. reflexivity. Qed.

(** A body with an id and neither fields nor _links gives the record with
    that id, empty title, description, state, type and url, and no assignee
    and no link. *)
Theorem missing_members_default : forall o i,
  lookup (py "id") o = Some i ->
  lookup (py "fields") o = None ->
  lookup (py "_links") o = None ->
  ticket_of (JObj o) = Ok (bare_ticket i).
Proof.
  intros o i Hi Hf Hl. unfold ticket_of, py_get, py_item.
  rewrite Hf. cbn [and_then lookup truthy]. cbv zeta.
  change (extract_figma_url (JStr [])) with (@Ok (option str) None).
  change (strip_html (JStr [])) with (@Ok str []).
  cbn [and_then is_dict]. rewrite Hi, Hl. reflexivity.
Qed.

Lemma missing_members_default_witness :
  ticket_of (JObj [(py "rev", JInt 3); (py "id", JInt 42)]) =
  Ok (bare_ticket (JInt 42)).
Proof.
  apply (@missing_members_default
           [(py "rev", JInt 3); (py "id", JInt 42)] (JInt 42));
    reflexivity.
Defined.

(** What such a run prints. *)
Example bare_id_output :
  r_stdout (run_script bare_id_world) =
  py "{" ++ [newline] ++
  py "  " ++ [dquote] ++ py "id" ++ [dquote] ++ py ": 42," ++ [newline] ++
  py "  " ++ [dquote] ++ py "title" ++ [dquote] ++ py ": " ++ [dquote; dquote] ++ py "," ++ [newline] ++
  py "  " ++ [dquote] ++ py "description" ++ [dquote] ++ py ": " ++ [dquote; dquote] ++ py "," ++ [newline] ++
  py "  " ++ [dquote] ++ py "state" ++ [dquote] ++ py ": " ++ [dquote; dquote] ++ py "," ++ [newline] ++
  py "  " ++ [dquote] ++ py "type" ++ [dquote] ++ py ": " ++ [dquote; dquote] ++ py "," ++ [newline] ++
  py "  " ++ [dquote] ++ py "assignedTo" ++ [dquote] ++ py ": null," ++ [newline] ++
  py "  " ++ [dquote] ++ py "url" ++ [dquote] ++ py ": " ++ [dquote; dquote] ++ py "," ++ [newline] ++
  py "  " ++ [dquote] ++ py "figmaUrl" ++ [dquote] ++ py ": null" ++ [newline] ++
  py "}" ++ [newline].
Proof. vm_compute. reflexivity. Qed.

(** * What no run does *)

Lemma run_script_usage : forall w,
  length (argv w) < 2 ->
  run_script w = RunResult [] usage_text [] (Exited 1).
Proof.
  intros w H. unfold run_script, main.
  apply Nat.ltb_lt in H. rewrite H. reflexivity.
Qed.

Lemma run_script_requests : forall w prog url more pat c ep bs,
  argv w = prog :: url :: more -> ado_pat w = Some pat -> pat <> [] ->
  parse_url url = Ok c -> quote (project c) = Ok ep ->
  utf8_encode (py ":" ++ pat) = Ok bs ->
  r_requests (run_script w) =
  [api_request (organization c) ep (work_item_id c) bs].
Proof.
  intros w prog url more pat c ep bs Ha Hp Hne Hu Hq He.
  rewrite (@run_script_answer w prog url more pat c ep bs Ha Hp Hne Hu Hq He).
  cbv zeta.
  destruct (answer_outcome _ _) as [t|e|code]; [| destruct e |]; reflexivity.
Qed.

(** A run that stops before [fetch_work_item] calls [urlopen]. *)
Lemma run_script_no_call : forall w prog url more pat,
  argv w = prog :: url :: more -> ado_pat w = Some pat -> pat <> [] ->
  (forall c, parse_url url = Ok c ->
     (exists e, quote (project c) = Err e) \/
     (exists e, utf8_encode (py ":" ++ pat) = Err e)) ->
  r_requests (run_script w) = [].
Proof.
  intros w prog url more pat Ha Hp Hne H.
  rewrite (@run_script_pipeline w prog url more pat Ha Hp Hne).
  rewrite pipeline_unfold.
  destruct (parse_url url) as [c|e] eqn:Hu;
    [|destruct e; reflexivity].
  rewrite fetch_work_item_unfold.
  destruct (quote (project c)) as [ep|e] eqn:Hq;
    [|destruct e; reflexivity].
  destruct (py_str (work_item_id c)) as [it|e]; [|destruct e; reflexivity].
  destruct (utf8_encode (py ":" ++ pat)) as [bs|e] eqn:He;
    [|destruct e; reflexivity].
  exfalso. destruct (H c eq_refl) as [[e E]|[e E]]; congruence.
Qed.

(** No run calls urlopen more than once.  A run calls it exactly when the
    URL argument is there, the credential is set and not empty, the URL is
    a work-item URL, and the project and the credential can be encoded; the
    one request object is then the one that fetch_work_item builds from
    them.  What goes over the wire is what that one call puts there: nothing
    when urlopen is not called, and as many requests as the call makes
    otherwise, which is not one when the call fails before it connects or
    follows a redirection. *)
Theorem urlopen_called_at_most_once : forall w,
  (r_requests (run_script w) = [] /\
   traffic w (r_requests (run_script w)) = [] /\
   ~ (exists prog url more pat c ep bs,
        argv w = prog :: url :: more /\ ado_pat w = Some pat /\ pat <> [] /\
        parse_url url = Ok c /\ quote (project c) = Ok ep /\
        utf8_encode (py ":" ++ pat) = Ok bs)) \/
  (exists prog url more pat c ep bs,
     argv w = prog :: url :: more /\ ado_pat w = Some pat /\ pat <> [] /\
     parse_url url = Ok c /\ quote (project c) = Ok ep /\
     utf8_encode (py ":" ++ pat) = Ok bs /\
     r_requests (run_script w) =
       [api_request (organization c) ep (work_item_id c) bs] /\
     traffic w (r_requests (run_script w)) =
       wire w (api_request (organization c) ep (work_item_id c) bs)).
Proof.
  intros w.
  assert (None_sent : r_requests (run_script w) = [] ->
            ~ (exists prog url more pat c ep bs,
                 argv w = prog :: url :: more /\ ado_pat w = Some pat /\
                 pat <> [] /\ parse_url url = Ok c /\
                 quote (project c) = Ok ep /\
                 utf8_encode (py ":" ++ pat) = Ok bs) ->
            r_requests (run_script w) = [] /\
            traffic w (r_requests (run_script w)) = [] /\
            ~ (exists prog url more pat c ep bs,
                 argv w = prog :: url :: more /\ ado_pat w = Some pat /\
                 pat <> [] /\ parse_url url = Ok c /\
                 quote (project c) = Ok ep /\
                 utf8_encode (py ":" ++ pat) = Ok bs)).
  { intros R N. split; [exact R|]. split; [rewrite R; reflexivity|exact N]. }
  destruct (argv w) as [|prog [|url more]] eqn:Ha.
  - left. apply None_sent.
    + rewrite run_script_usage by (rewrite Ha; simpl; lia). reflexivity.
    + intros (p0 & u0 & m0 & pat & c & ep & bs & E & _). discriminate E.
  - left. apply None_sent.
    + rewrite run_script_usage by (rewrite Ha; simpl; lia). reflexivity.
    + intros (p0 & u0 & m0 & pat & c & ep & bs & E & _). discriminate E.
  - destruct (ado_pat w) as [[|x pat]|] eqn:Hp.
    + left. apply None_sent.
      * rewrite (@run_script_no_pat w prog url more Ha (or_intror Hp)).
        reflexivity.
      * intros (p0 & u0 & m0 & pat & c & ep & bs & _ & E & N & _).
        injection E as <-. apply N. reflexivity.
    + assert (Hne : x :: pat <> []) by discriminate.
      destruct (parse_url url) as [c|e] eqn:Hu.
      * destruct (quote (project c)) as [ep|e] eqn:Hq.
        -- destruct (utf8_encode (py ":" ++ x :: pat)) as [bs|e] eqn:He.
           ++ right. exists prog, url, more, (x :: pat), c, ep, bs.
              pose proof (@run_script_requests w prog url more (x :: pat) c
                            ep bs Ha Hp Hne Hu Hq He) as R.
              split; [reflexivity|]. split; [reflexivity|].
              split; [exact Hne|]. split; [exact Hu|]. split; [exact Hq|].
              split; [exact He|]. split; [exact R|].
              rewrite R. unfold traffic. cbn [flat_map]. apply app_nil_r.
           ++ left. apply None_sent.
              ** apply (@run_script_no_call w prog url more (x :: pat) Ha Hp Hne).
                 intros c' Hc'. right. exists e. exact He.
              ** intros (p0 & u0 & m0 & pat0 & c0 & ep0 & bs0 & E1 & E2 & _ &
                         _ & _ & E3).
                 injection E2 as <-. rewrite He in E3. discriminate E3.
        -- left. apply None_sent.
           ++ apply (@run_script_no_call w prog url more (x :: pat) Ha Hp Hne).
              intros c' Hc'. left. exists e.
              assert (c' = c) by congruence. subst c'. exact Hq.
           ++ intros (p0 & u0 & m0 & pat0 & c0 & ep0 & bs0 & E1 & _ & _ &
                      E2 & E3 & _).
              injection E1 as _ <- _. rewrite Hu in E2. injection E2 as <-.
              rewrite Hq in E3. discriminate E3.
      * left. apply None_sent.
        -- apply (@run_script_no_call w prog url more (x :: pat) Ha Hp Hne).
           intros c' Hc'. rewrite Hu in Hc'. discriminate Hc'.
        -- intros (p0 & u0 & m0 & pat0 & c0 & ep0 & bs0 & E1 & _ & _ &
                   E2 & _).
           injection E1 as _ <- _. rewrite Hu in E2. discriminate E2.
    + left. apply None_sent.
      * rewrite (@run_script_no_pat w prog url more Ha (or_introl Hp)).
        reflexivity.
      * intros (p0 & u0 & m0 & pat & c & ep & bs & _ & E & _). discriminate E.
Qed.

(** * What a run writes *)


(** * The error object is printable ASCII *)

Lemma printable_literal : forall l : str,
  forallb (in_range 0x20%N 0x7e%N) l = true -> Forall printable l.
Proof.
  intros l H. apply Forall_forall. intros c Hc.
  rewrite forallb_forall in H. specialize (H c Hc).
  unfold in_range in H. apply andb_true_iff in H. destruct H as [H1 H2].
  apply N.leb_le in H1. apply N.leb_le in H2. split; assumption.
Qed.

Lemma hex_digit_printable : forall lower d,
  (d < 16)%N -> printable (hex_digit lower d).
Proof.
  intros lower d H. unfold hex_digit, printable.
  destruct (N.ltb d 10) eqn:E.
  - change (ch "0") with 48%N. lia.
  - apply N.ltb_ge in E. destruct lower.
    + change (ch "a") with 97%N. lia.
    + change (ch "A") with 65%N. lia.
Qed.

Lemma hex_fixed_printable : forall lower w n,
  Forall printable (hex_fixed lower w n).
Proof.
  induction w as [|w IH]; intros n; simpl; [constructor|].
  apply Forall_app. split; [apply IH|].
  constructor; [|constructor].
  apply hex_digit_printable. apply N.mod_lt. discriminate.
Qed.

Lemma escape_char_printable : forall c, Forall printable (escape_char c).
Proof.
  intros c. unfold escape_char.
  destruct (N.eqb c dquote); [apply printable_literal; reflexivity|].
  destruct (N.eqb c (ch "\")); [apply printable_literal; reflexivity|].
  destruct (N.eqb c 10%N); [apply printable_literal; reflexivity|].
  destruct (N.eqb c 13%N); [apply printable_literal; reflexivity|].
  destruct (N.eqb c 9%N); [apply printable_literal; reflexivity|].
  destruct (N.eqb c 8%N); [apply printable_literal; reflexivity|].
  destruct (N.eqb c 12%N); [apply printable_literal; reflexivity|].
  destruct (in_range 32%N 126%N c) eqn:E.
  { apply printable_literal. simpl. rewrite E. reflexivity. }
  destruct (N.ltb c 65536%N).
  - apply Forall_app. split;
      [apply printable_literal; reflexivity | apply hex_fixed_printable].
  - cbv zeta.
    apply Forall_app. split; [apply printable_literal; reflexivity|].
    apply Forall_app. split; [apply hex_fixed_printable|].
    apply Forall_app. split;
      [apply printable_literal; reflexivity | apply hex_fixed_printable].
Qed.

Lemma encode_string_printable : forall s, Forall printable (encode_string s).
Proof.
  intros s. unfold encode_string. constructor.
  - unfold printable, dquote. lia.
  - apply Forall_app. split.
    + apply Forall_flat_map. apply Forall_forall. intros c _.
      apply escape_char_printable.
    + apply printable_literal. reflexivity.
Qed.

(** Whatever the message, the error object is written with printable ASCII
    characters only: every other character of the message is escaped. *)
Theorem error_json_printable : forall msg, Forall printable (error_json msg).
Proof.
  intros msg.
  change (error_json msg)
    with (py "{" ++ [] ++ encode_string (py "error") ++ py ": " ++
          encode_string msg ++ [] ++ [] ++ py "}").
  repeat (apply Forall_app; split);
    try (apply printable_literal; reflexivity);
    try apply encode_string_printable; constructor.
Qed.

(** * Encoding and decoding of the project *)

Ltac div_lia := zify; Z.to_euclidean_division_equations; lia.

Lemma split64 : forall c : N,
  (c = 64 * (c / 64) + c mod 64 /\ c mod 64 < 64)%N.
Proof.
  intros c. split; [apply N.div_mod; discriminate | apply N.mod_lt; discriminate].
Qed.

Ltac case_bounds :=
  repeat match goal with
  | |- context [N.ltb ?a ?b] => destruct (N.ltb_spec a b); try lia
  | |- context [N.leb ?a ?b] => destruct (N.leb_spec a b); try lia
  | |- context [N.eqb ?a ?b] => destruct (N.eqb_spec a b); try lia
  end; cbn [andb orb negb]; try (f_equal; lia).

Lemma utf8_decode_char : forall c bs,
  code_point c = true -> is_surrogate c = false ->
  utf8_decode (utf8_char c ++ bs) = c :: utf8_decode bs.
Proof.
  intros c bs Hc Hs. unfold code_point in Hc. apply N.ltb_lt in Hc.
  assert (Hs' : (c < 0xD800 \/ 0xDFFF < c)%N).
  { unfold is_surrogate, in_range in Hs. apply andb_false_iff in Hs.
    destruct Hs as [H|H]; apply N.leb_gt in H; lia. }
  clear Hs. unfold utf8_char.
  destruct (N.ltb_spec c 0x80) as [L1|L1].
  { cbn [app utf8_decode]. apply N.ltb_lt in L1. rewrite L1. reflexivity. }
  destruct (split64 c) as [E1 R1].
  destruct (N.ltb_spec c 0x800) as [L2|L2].
  { cbn [app utf8_decode]. unfold is_cont, in_range.
    generalize dependent (c mod 64)%N. generalize dependent (c / 64)%N.
    intros. case_bounds. }
  destruct (split64 (c / 64)) as [E2 R2].
  replace (c / 4096)%N with (c / 64 / 64)%N
    by (rewrite N.Div0.div_div; reflexivity).
  destruct (N.ltb_spec c 0x10000) as [L3|L3].
  { cbn [app utf8_decode]. unfold is_cont, in_range.
    generalize dependent (c mod 64)%N.
    generalize dependent ((c / 64) mod 64)%N.
    generalize dependent (c / 64 / 64)%N.
    generalize dependent (c / 64)%N.
    intros. case_bounds. }
  destruct (split64 (c / 64 / 64)) as [E3 R3].
  replace (c / 262144)%N with (c / 64 / 64 / 64)%N
    by (rewrite !N.Div0.div_div; reflexivity).
  cbn [app utf8_decode]. unfold is_cont, in_range.
  generalize dependent (c mod 64)%N.
  generalize dependent ((c / 64) mod 64)%N.
  generalize dependent ((c / 64 / 64) mod 64)%N.
  generalize dependent (c / 64 / 64 / 64)%N.
  generalize dependent (c / 64 / 64)%N.
  generalize dependent (c / 64)%N.
  intros. case_bounds.
Qed.

Lemma utf8_decode_encode : forall s,
  forallb code_point s = true -> existsb is_surrogate s = false ->
  utf8_decode (flat_map utf8_char s) = s.
Proof.
  induction s as [|c s IH]; intros Hc Hs; [reflexivity|].
  simpl in Hc, Hs. apply andb_true_iff in Hc. apply orb_false_iff in Hs.
  destruct Hc as [Hc Hc']. destruct Hs as [Hs Hs'].
  cbn [flat_map]. rewrite (@utf8_decode_char c _ Hc Hs), (IH Hc' Hs').
  reflexivity.
Qed.

Lemma utf8_char_bytes : forall c b,
  code_point c = true -> In b (utf8_char c) -> (b < 256)%N.
Proof.
  intros c b Hc Hb. unfold code_point in Hc. apply N.ltb_lt in Hc.
  unfold utf8_char in Hb.
  pose proof (N.mod_lt c 64) as M1.
  pose proof (N.mod_lt (c / 64) 64) as M2.
  pose proof (N.mod_lt (c / 4096) 64) as M3.
  assert (D1 : (c < 0x800 -> c / 64 < 32)%N)
    by (intros; apply N.Div0.div_lt_upper_bound; lia).
  assert (D2 : (c < 0x10000 -> c / 4096 < 16)%N)
    by (intros; apply N.Div0.div_lt_upper_bound; lia).
  assert (D3 : (c / 262144 < 5)%N)
    by (apply N.Div0.div_lt_upper_bound; lia).
  destruct (N.ltb_spec c 0x80); [|destruct (N.ltb_spec c 0x800);
    [|destruct (N.ltb_spec c 0x10000)]];
    cbn [In] in Hb; intuition (subst; lia).
Qed.

Lemma hex_digit_value : forall d,
  (d < 16)%N -> hex_value (hex_digit false d) = Some d.
Proof.
  intros d H.
  pose proof (@below_enum
                (fun d => match hex_value (hex_digit false d) with
                          | Some d' => N.eqb d' d
                          | None => false
                          end) 16 ltac:(vm_compute; reflexivity) d H) as E.
  cbv beta in E. destruct (hex_value (hex_digit false d)) as [d'|];
    [|discriminate].
  apply N.eqb_eq in E. congruence.
Qed.

Lemma hex_digit_ascii : forall d,
  (d < 16)%N -> (hex_digit false d < 0x80)%N /\ hex_digit false d <> ch "/".
Proof.
  intros d H.
  pose proof (@below_enum
                (fun d => N.ltb (hex_digit false d) 0x80
                          && negb (N.eqb (hex_digit false d) (ch "/")))%bool
                16 ltac:(vm_compute; reflexivity) d H) as E.
  cbv beta in E. apply andb_true_iff in E. destruct E as [E1 E2].
  apply N.ltb_lt in E1. apply negb_true_iff, N.eqb_neq in E2. auto.
Qed.

Lemma safe_byte : forall b,
  (mem b always_safe || N.eqb b (ch "/"))%bool = true ->
  (b < 0x80)%N /\ b <> ch "%".
Proof.
  intros b H.
  assert (A : forallb (fun c => N.ltb c 0x80 && negb (N.eqb c (ch "%")))%bool
                (ch "/" :: always_safe) = true) by (vm_compute; reflexivity).
  rewrite forallb_forall in A. specialize (A b).
  assert (I : In b (ch "/" :: always_safe)).
  { apply orb_true_iff in H. destruct H as [H|H].
    - right. apply mem_In. exact H.
    - left. apply N.eqb_eq in H. auto. }
  specialize (A I). apply andb_true_iff in A. destruct A as [A1 A2].
  apply N.ltb_lt in A1. apply negb_true_iff, N.eqb_neq in A2. auto.
Qed.

Lemma quote_byte_two : forall b,
  hex_fixed false 2 b =
  [hex_digit false ((b / 16) mod 16); hex_digit false (b mod 16)].
Proof. reflexivity. Qed.

Lemma unquote_quote_bytes : forall bs,
  Forall (fun b => (b < 256)%N) bs ->
  unquote_to_bytes (flat_map quote_byte bs) = bs.
Proof.
  induction 1 as [|b bs Hb _ IH]; [reflexivity|].
  cbn [flat_map]. unfold quote_byte at 1.
  destruct (mem b always_safe || N.eqb b (ch "/"))%bool eqn:S.
  - destruct (@safe_byte b S) as [_ Hp].
    cbn [app unquote_to_bytes].
    apply N.eqb_neq in Hp. rewrite Hp, IH. reflexivity.
  - rewrite quote_byte_two. cbn [app unquote_to_bytes].
    rewrite N.eqb_refl.
    rewrite !hex_digit_value by (apply N.mod_lt; discriminate).
    rewrite IH. f_equal.
    pose proof (N.div_mod b 16). pose proof (N.mod_lt b 16).
    assert ((b / 16) mod 16 = b / 16)%N.
    { apply N.mod_small. apply N.Div0.div_lt_upper_bound. lia. }
    lia.
Qed.

Lemma quote_byte_ascii : forall b c,
  In c (quote_byte b) -> (c < 0x80)%N.
Proof.
  intros b c H. unfold quote_byte in H.
  destruct (mem b always_safe || N.eqb b (ch "/"))%bool eqn:S.
  - destruct H as [<-|[]]. apply (@safe_byte b S).
  - rewrite quote_byte_two in H.
    destruct H as [<-|[<-|[<-|[]]]].
    + reflexivity.
    + apply hex_digit_ascii. apply N.mod_lt. discriminate.
    + apply hex_digit_ascii. apply N.mod_lt. discriminate.
Qed.

Lemma unquote_runs_ascii : forall q pending,
  (forall c, In c q -> (c < 0x80)%N) ->
  unquote_runs q pending = utf8_decode (unquote_to_bytes (rev pending ++ q)).
Proof.
  induction q as [|x q IH]; intros pending H.
  - simpl. rewrite app_nil_r. reflexivity.
  - cbn [unquote_runs].
    assert (Hx : N.ltb x 0x80 = true) by (apply N.ltb_lt, H; left; reflexivity).
    rewrite Hx, IH by (intros c Hc; apply H; right; exact Hc).
    simpl rev. rewrite <- app_assoc. reflexivity.
Qed.

Lemma unquote_to_bytes_plain : forall q,
  mem (ch "%") q = false -> unquote_to_bytes q = q.
Proof.
  induction q as [|x q IH]; intros H; [reflexivity|].
  cbn [mem] in H. cbn [unquote_to_bytes].
  rewrite N.eqb_sym in H.
  destruct (N.eqb x (ch "%")); [discriminate|].
  simpl in H. rewrite (IH H). reflexivity.
Qed.

Lemma utf8_decode_ascii : forall q,
  (forall c, In c q -> (c < 0x80)%N) -> utf8_decode q = q.
Proof.
  induction q as [|x q IH]; intros H; [reflexivity|].
  cbn [utf8_decode].
  assert (Hx : N.ltb x 0x80 = true) by (apply N.ltb_lt, H; left; reflexivity).
  rewrite Hx, IH by (intros c Hc; apply H; right; exact Hc). reflexivity.
Qed.

Lemma unquote_ascii : forall q,
  (forall c, In c q -> (c < 0x80)%N) ->
  unquote q = utf8_decode (unquote_to_bytes q).
Proof.
  intros q H. unfold unquote.
  destruct (mem (ch "%") q) eqn:E; cbn [negb].
  - rewrite (@unquote_runs_ascii q [] H). reflexivity.
  - rewrite (@unquote_to_bytes_plain q E), (@utf8_decode_ascii q H).
    reflexivity.
Qed.

Lemma quote_plain : forall s q,
  quote s = Ok q ->
  existsb is_surrogate s = false /\
  q = flat_map quote_byte (flat_map utf8_char s).
Proof.
  intros s q H. unfold quote, utf8_encode in H.
  destruct (existsb is_surrogate s) eqn:E.
  - destruct (@utf8_encode_from_surrogate s 0 E) as [msg Hm].
    rewrite Hm in H. discriminate.
  - rewrite (@utf8_encode_from_plain s 0 E) in H. injection H as <-. auto.
Qed.

(** Decoding undoes the encoding of the project name. *)
Lemma unquote_quote : forall s q,
  forallb code_point s = true -> quote s = Ok q -> unquote q = s.
Proof.
  intros s q Hc H. destruct (@quote_plain s q H) as [Hs ->].
  rewrite unquote_ascii.
  - rewrite unquote_quote_bytes; [apply utf8_decode_encode; assumption|].
    apply Forall_forall. intros b Hb. apply in_flat_map in Hb.
    destruct Hb as (c & Hc' & Hb). rewrite forallb_forall in Hc.
    exact (@utf8_char_bytes c b (Hc c Hc') Hb).
  - intros c Hc'. apply in_flat_map in Hc'. destruct Hc' as (b & _ & Hb).
    exact (@quote_byte_ascii b c Hb).
Qed.

Lemma utf8_char_slash : forall c,
  In (ch "/") (utf8_char c) -> c = ch "/".
Proof.
  intros c H. unfold utf8_char in H. change (ch "/") with 47%N in *.
  destruct (N.ltb c 0x80); [|destruct (N.ltb c 0x800);
    [|destruct (N.ltb c 0x10000)]];
    cbn [In] in H; intuition div_lia.
Qed.

Lemma quote_byte_slash : forall b,
  In (ch "/") (quote_byte b) -> b = ch "/".
Proof.
  intros b H. unfold quote_byte in H.
  destruct (mem b always_safe || N.eqb b (ch "/"))%bool.
  - destruct H as [H|[]]. exact H.
  - rewrite quote_byte_two in H. exfalso.
    destruct H as [H|[H|[H|[]]]].
    + discriminate H.
    + apply (@hex_digit_ascii ((b / 16) mod 16)); auto.
      apply N.mod_lt. discriminate.
    + apply (@hex_digit_ascii (b mod 16)); auto.
      apply N.mod_lt. discriminate.
Qed.

Lemma quote_segment : forall s q,
  s <> [] -> ~ In (ch "/") s -> quote s = Ok q -> segment q.
Proof.
  intros s q Hne Hs H. destruct (@quote_plain s q H) as [_ ->]. split.
  - destruct s as [|c s]; [congruence|].
    cbn [flat_map]. unfold utf8_char.
    destruct (N.ltb c 0x80); [|destruct (N.ltb c 0x800);
      [|destruct (N.ltb c 0x10000)]];
      cbn [app flat_map]; unfold quote_byte at 1;
      destruct (mem _ always_safe || N.eqb _ (ch "/"))%bool; discriminate.
  - intros I. apply in_flat_map in I. destruct I as (b & Hb & I).
    apply quote_byte_slash in I. subst b.
    apply in_flat_map in Hb. destruct Hb as (c & Hc & Hb).
    apply utf8_char_slash in Hb. subst c. exact (Hs Hc).
Qed.

Lemma parse_url_quoted_page : forall org name q kind id,
  segment org -> name <> [] -> ~ In (ch "/") name ->
  forallb code_point name = true -> quote name = Ok q ->
  (kind = py "edit" \/ kind = py "view") -> digits id ->
  parse_url (work_item_url (py "https") org q kind id) =
  if Nat.ltb int_max_str_digits (length id)
  then Err (ValueError (int_limit_message (length id)))
  else Ok (UrlComponents org name (Z.of_N (decimal id))).
Proof.
  intros org name q kind id Ho Hne Hs Hc Hq Hk Hi.
  rewrite <- (@unquote_quote name q Hc Hq).
  assert (E : strip (work_item_url (py "https") org q kind id) =
              work_item_url (py "https") org q kind id ++ []).
  { rewrite app_nil_r. apply work_item_url_stripped. exact Hi. }
  rewrite (@parse_url_shaped _ (py "https") org q kind id [] E
             (or_intror eq_refl) Ho (@quote_segment name q Hne Hs Hq) Hk Hi).
  cbn [take_while]. rewrite app_nil_r. reflexivity.
Qed.

(** parse_url undoes the encoding that fetch_work_item applies to the
    project: for a project name that is not empty and has no slash (and no
    surrogate, or it could not be encoded), the work-item URL written with
    the encoded name and an id of at most 4300 digits parses to that very
    name; so the request of fetch_work_item carries the project segment of
    such a URL unchanged.  With a longer id parse_url raises the ValueError
    of int(), whatever the project. *)
Theorem parse_url_reads_encoded_project : forall org name q kind id,
  segment org -> name <> [] -> ~ In (ch "/") name ->
  forallb code_point name = true -> quote name = Ok q ->
  (kind = py "edit" \/ kind = py "view") -> digits id ->
  parse_url (work_item_url (py "https") org q kind id) =
  if Nat.ltb int_max_str_digits (length id)
  then Err (ValueError (int_limit_message (length id)))
  else Ok (UrlComponents org name (Z.of_N (decimal id))).
Proof.
  intros org name q kind id Ho Hne Hs Hc Hq Hk Hi.
  exact (@parse_url_quoted_page org name q kind id Ho Hne Hs Hc Hq Hk Hi).
Qed.

Lemma parse_url_reads_encoded_project_witness :
  parse_url
    (work_item_url (py "https") (py "acme") (py "R%26D%20caf%C3%A9")
       (py "edit") (py "42")) =
  Ok (UrlComponents (py "acme") (py "R&D caf" ++ [0xE9]%N) 42).
Proof.
  apply (@parse_url_reads_encoded_project (py "acme")
           (py "R&D caf" ++ [0xE9]%N) (py "R%26D%20caf%C3%A9")
           (py "edit") (py "42")).
  - split; [discriminate|]. simpl. intuition discriminate.
  - discriminate.
  - simpl. intuition discriminate.
  - reflexivity.
  - reflexivity.
  - left. reflexivity.
  - split; [discriminate|]. reflexivity.
Defined.

(** * The credential in the header *)

Lemma b64_char_text : forall n, (n < 64)%N -> b64_text (b64_char n) = true.
Proof.
  intros n H.
  exact (@below_enum (fun n => b64_text (b64_char n)) 64
           ltac:(vm_compute; reflexivity) n H).
Qed.

Lemma b64encode_text : forall n bs,
  length bs <= n -> Forall (fun b => (b < 256)%N) bs ->
  forallb b64_text (b64encode bs) = true /\
  length (b64encode bs) = 4 * ((length bs + 2) / 3).
Proof.
  induction n as [|n IH]; intros bs Hl Hb.
  - destruct bs; [split; reflexivity | simpl in Hl; lia].
  - destruct bs as [|a [|b [|c r]]].
    + split; reflexivity.
    + inversion Hb as [|? ? Ha _]; subst.
      cbn [b64encode forallb]. split; [|reflexivity].
      rewrite !b64_char_text by div_lia. reflexivity.
    + inversion Hb as [|? ? Ha Hb']; subst.
      inversion Hb' as [|? ? Hb0 _]; subst.
      cbn [b64encode forallb]. split; [|reflexivity].
      rewrite !b64_char_text by div_lia. reflexivity.
    + inversion Hb as [|? ? Ha Hb']; subst.
      inversion Hb' as [|? ? Hb0 Hb'']; subst.
      inversion Hb'' as [|? ? Hc Hr]; subst.
      destruct (IH r) as [T L]; [simpl in Hl; lia | exact Hr |].
      cbn [b64encode]. split.
      * rewrite forallb_app, T. cbn [forallb].
        rewrite !b64_char_text by div_lia. reflexivity.
      * rewrite length_app, L. cbn [length].
        replace (S (S (S (length r))) + 2) with (length r + 2 + 1 * 3) by lia.
        rewrite Nat.div_add by lia. lia.
Qed.

Lemma utf8_encode_bytes : forall s bs,
  forallb code_point s = true -> utf8_encode s = Ok bs ->
  Forall (fun b => (b < 256)%N) bs.
Proof.
  intros s bs Hc H. unfold utf8_encode in H.
  destruct (existsb is_surrogate s) eqn:E.
  - destruct (@utf8_encode_from_surrogate s 0 E) as [msg Hm].
    rewrite Hm in H. discriminate.
  - rewrite (@utf8_encode_from_plain s 0 E) in H. injection H as <-.
    apply Forall_forall. intros b Hb. apply in_flat_map in Hb.
    destruct Hb as (c & Hc' & Hb). rewrite forallb_forall in Hc.
    exact (@utf8_char_bytes c b (Hc c Hc') Hb).
Qed.

(** Whatever the credential, the value that fetch_work_item puts in the
    Authorization header is the word Basic, a space, and base64 text: four
    characters of the base64 alphabet or padding for every three bytes of
    the encoded credential.  No character of the credential reaches the
    header as it is. *)
Theorem authorization_is_base64 : forall org ep id pat bs,
  forallb code_point pat = true ->
  utf8_encode (py ":" ++ pat) = Ok bs ->
  exists text,
    req_headers (api_request org ep id bs) =
      [ (py "Authorization", py "Basic " ++ text);
        (py "Content-Type", py "application/json") ] /\
    forallb b64_text text = true /\
    length text = 4 * ((length bs + 2) / 3).
Proof.
  intros org ep id pat bs Hc He. exists (b64encode bs).
  split; [reflexivity|].
  apply (@b64encode_text (length bs) bs (le_n _)).
  apply (@utf8_encode_bytes (py ":" ++ pat) bs); [|exact He].
  exact Hc.
Qed.

Lemma authorization_is_base64_witness :
  exists text,
    req_headers (api_request (py "acme") (py "web") 42 (py ":token")) =
      [ (py "Authorization", py "Basic " ++ text);
        (py "Content-Type", py "application/json") ] /\
    forallb b64_text text = true /\
    length text = 4 * ((length (py ":token") + 2) / 3).
Proof.
  apply (@authorization_is_base64 (py "acme") (py "web") 42 (py "token")
           (py ":token")); reflexivity.
Defined.

(** * Text without character references *)

(** On text without an ampersand the result of strip_html holds no tag,
    and each of its characters is a character of the text or a space. *)
Theorem strip_html_plain_text : forall s t,
  ~ In (ch "&") s -> strip_html (JStr s) = Ok t ->
  tagless t /\ forall c, In c t -> In c s \/ c = ch " ".
Proof.
  intros s t Hamp H. rewrite (@strip_html_plain s Hamp) in H.
  injection H as <-.
  rewrite (@normalized_plain s Hamp). split.
  - apply strip_tagless. apply collapse_tagless. apply sub_tags_tagless.
  - intros c Hc. apply strip_chars in Hc. apply collapse_chars in Hc.
    destruct Hc as [Hc|Hc]; [right; exact Hc|].
    apply sub_chars in Hc. destruct Hc as [Hc|Hc]; auto.
Qed.

Lemma strip_html_plain_text_witness :
  tagless (py "a > b and c <") /\
  forall c, In c (py "a > b and c <") ->
    In c (py "<p>a > b</p><br/>and <i>c</i> <") \/ c = ch " ".
Proof.
  apply (@strip_html_plain_text (py "<p>a > b</p><br/>and <i>c</i> <")
           (py "a > b and c <")).
  - simpl. intuition discriminate.
  - vm_compute. reflexivity.
Defined.

(** * From the page of a work item to the request *)

Lemma str_of_Z_of_N : forall n, str_of_Z (Z.of_N n) = str_of_N n.
Proof. intros [|p]; reflexivity. Qed.

(** From the page to the request: when the argument is the https page of a
    work item, written with the percent-encoded name of the project and an
    id of at most 4300 digits, and the credential can be encoded, the run
    calls urlopen once, whatever the call does, with the request object
    whose URL is https://dev.azure.com/, the organization as given, the same
    encoded project, /_apis/wit/workitems/, the id in decimal without
    leading zeros, and ?api-version=7.0.  What goes over the wire is what
    that call puts there: nothing when urlopen refuses the URL, as it does
    for an organization with a space in it, and several requests when it
    follows redirections. *)
Theorem page_to_request : forall w prog more pat org name q kind id,
  argv w = prog :: work_item_url (py "https") org q kind id :: more ->
  ado_pat w = Some pat -> pat <> [] -> existsb is_surrogate pat = false ->
  segment org -> name <> [] -> ~ In (ch "/") name ->
  forallb code_point name = true -> quote name = Ok q ->
  (kind = py "edit" \/ kind = py "view") -> digits id ->
  length id <= int_max_str_digits ->
  exists req,
    r_requests (run_script w) = [req] /\
    req_url req =
      py "https://dev.azure.com/" ++ org ++ py "/" ++ q ++
      py "/_apis/wit/workitems/" ++ str_of_N (decimal id) ++
      py "?api-version=7.0" /\
    traffic w (r_requests (run_script w)) = wire w req.
Proof.
  intros w prog more pat org name q kind id Ha Hp Hne Hs Ho Hn Hsl Hc Hq Hk Hi
    Hl.
  assert (Hu : parse_url (work_item_url (py "https") org q kind id) =
               Ok (UrlComponents org name (Z.of_N (decimal id)))).
  { rewrite (@parse_url_quoted_page org name q kind id Ho Hn Hsl Hc Hq Hk Hi).
    apply Nat.ltb_ge in Hl. rewrite Hl. reflexivity. }
  assert (He : utf8_encode (py ":" ++ pat) =
               Ok (flat_map utf8_char (py ":" ++ pat))).
  { apply utf8_encode_from_plain. exact Hs. }
  rewrite (@run_script_requests w prog _ more pat _ q _ Ha Hp Hne Hu Hq He).
  eexists. split; [reflexivity|]. split.
  - cbn [api_request req_url organization work_item_id].
    rewrite str_of_Z_of_N. reflexivity.
  - unfold traffic. cbn [flat_map]. apply app_nil_r.
Qed.

Lemma page_to_request_witness :
  exists req,
    r_requests (run_script encoded_project_world) = [req] /\
    req_url req =
      py "https://dev.azure.com/" ++ py "acme" ++ py "/" ++ py "R%26D" ++
      py "/_apis/wit/workitems/" ++ str_of_N (decimal (py "0042")) ++
      py "?api-version=7.0" /\
    traffic encoded_project_world
      (r_requests (run_script encoded_project_world)) =
    wire encoded_project_world req.
Proof.
  apply (@page_to_request encoded_project_world (py "fetch_ticket.py") []
           (py "token") (py "acme") (py "R&D") (py "R%26D") (py "view")
           (py "0042")).
  - reflexivity.
  - reflexivity.
  - discriminate.
  - reflexivity.
  - split; [discriminate|]. simpl. intuition discriminate.
  - discriminate.
  - simpl. intuition discriminate.
  - reflexivity.
  - reflexivity.
  - right. reflexivity.
  - split; [discriminate|]. reflexivity.
  - unfold int_max_str_digits. simpl. lia.
Defined.

(** The request of that run. *)
Example encoded_project_request :
  map req_url (r_requests (run_script encoded_project_world)) =
  [ py "https://dev.azure.com/acme/R%26D/_apis/wit/workitems/42?api-version=7.0" ].
Proof. vm_compute. reflexivity. Qed.
